(** * Build-history resolution and artifact acquisition

    A shallow embedding of [src/builds.ts] (class [Builds]): the history
    source, the reference resolver, the range builder, the platform naming
    tables, the metadata fetcher and the two acquisition engines, followed by
    the properties of the specification that are settled against them.

    Layout: data model, the external primitives (file system, network,
    console) as an interface, a state-and-exception monad recording a trace of
    the observable events, the operations of [Builds] in source order, and the
    theorems. *)

From Stdlib Require Import ZArith Lia Ascii String.
From stdpp Require Import base decidable option list strings gmap sets pretty.

#[local] Set Warnings "-clear-no-such-hyp".

Local Open Scope string_scope.
Local Open Scope list_scope.
Local Open Scope Z_scope.

(** ** Data model *)

(** The enumerations of [constants.ts] as far as [builds.ts] names their
    members. *)
Inductive Platform :=
  MacOSX64 | MacOSArm | LinuxX64 | LinuxArm | WindowsX64 | WindowsArm.

Inductive Arch := X64 | Arm64.

Inductive Runtime := WebLocal | WebRemote | DesktopLocal.

(** [builds.ts] compares a quality with the literals ['insider'] and
    ['stable'] and with [Quality.VSCodiumInsider]. *)
Inductive Quality := Stable | Insider | VSCodiumInsider.

(** Flavors that [builds.ts] names, and [OtherFlavor] for the members of the
    enumeration it never names (the docker CLI flavors, recognised by
    [isDockerCliFlavor] only). *)
Inductive Flavor :=
  | Default | Cli | DarwinUniversal
  | LinuxDeb | LinuxRPM | LinuxSnap
  | WindowsUserInstaller | WindowsSystemInstaller
  | OtherFlavor (id : string).

#[global] Instance Platform_eq_dec : EqDecision Platform.
Proof. solve_decision. Defined.
#[global] Instance Arch_eq_dec : EqDecision Arch.
Proof. solve_decision. Defined.
#[global] Instance Runtime_eq_dec : EqDecision Runtime.
Proof. solve_decision. Defined.
#[global] Instance Quality_eq_dec : EqDecision Quality.
Proof. solve_decision. Defined.
#[global] Instance Flavor_eq_dec : EqDecision Flavor.
Proof. solve_decision. Defined.

(** [date?: string | number]. A numeric date is an integral number of
    milliseconds since the epoch; [Date] takes it as a time value when it
    lies within 8.64e15 ms of the epoch, and as an invalid date beyond. *)
Inductive DateValue := DateNumber (ms : Z) | DateString (s : string).

#[global] Instance DateValue_eq_dec : EqDecision DateValue.
Proof. solve_decision. Defined.

(** interface IBuildKind *)
Record IBuildKind := {
  runtime : Runtime;
  quality : Quality;
  flavor : Flavor;
  buildPlatform : option Platform;   (* platform?: Platform *)
  buildArch : option Arch            (* arch?: Arch *)
}.

(** interface IBuild extends IBuildKind. [assets] is the asset map of the
    alternate channel (platform key to URL); [None] stands for a missing or
    otherwise falsy value. *)
Record IBuild := {
  kind :> IBuildKind;
  commit : string;
  date : option DateValue;
  version : option string;
  assets : option (gmap string string)
}.

(** interface IBuildMetadata *)
Record IBuildMetadata := {
  url : string;
  meta_version : string;
  productVersion : string;
  sha256hash : string
}.

(** One record of a local history file: [{commit, date, version, assets?}]. *)
Record HistoryEntry := {
  h_commit : string;
  h_date : option DateValue;
  h_version : option string;
  h_assets : option (gmap string string)
}.

(** A raised exception: [new Error(message)] of [builds.ts] itself, or a value
    thrown by an external primitive, kept by its description. *)
Inductive Exn := Error (message : string) | Thrown (what : string).

#[global] Instance Exn_eq_dec : EqDecision Exn.
Proof. solve_decision. Defined.

(** The text of [`${e}`]. *)
Definition Exn_str (e : Exn) : string :=
  match e with
  | Error m => "Error: " +:+ m
  | Thrown w => w
  end.

(** [`${x}`] for an optional string: an absent value prints as [undefined]. *)
Definition str_of (o : option string) : string := default "undefined" o.

Definition bool_str (b : bool) : string := if b then "true" else "false".

(** Observable events, in the order they happen. *)
Inductive Event :=
  | LOGGER_log (msg : string)
  | LOGGER_trace (msg : string)
  | console_error (msg : string)
  | NetJsonGet (url : string)
  | NetFileGet (url path : string)
  | FsRm (path : string)
  | FsWrite (path : string)
  | FsUnzip (src dst : string)
  | Spawn (cmd : string) (args : list string).

#[global] Instance Event_eq_dec : EqDecision Event.
Proof. solve_decision. Defined.

(** A network call is a [jsonGet] or a [fileGet]; a download is a [fileGet]. *)
Definition is_network (e : Event) : bool :=
  match e with
  | NetJsonGet _ | NetFileGet _ _ => true
  | _ => false
  end.

Definition is_download (e : Event) : bool :=
  match e with
  | NetFileGet _ _ => true
  | _ => false
  end.

Definition network_calls (t : list Event) : nat :=
  length (List.filter is_network t).

Definition downloads (t : list Event) : nat :=
  length (List.filter is_download t).

(** ** Strings: the date pattern and its parts *)

Definition is_digit (c : ascii) : bool :=
  let n := Ascii.nat_of_ascii c in
  (Nat.leb 48 n && Nat.leb n 57)%bool.

Definition digit_val (c : ascii) : Z := Z.of_nat (Ascii.nat_of_ascii c) - 48.

Definition chars (s : string) : list ascii := String.list_ascii_of_string s.

(** [s.split(sep)] for a one-character separator. *)
Fixpoint split_chars (sep : ascii) (cur : list ascii) (l : list ascii)
  : list (list ascii) :=
  match l with
  | [] => [rev cur]
  | c :: l' =>
      if decide (c = sep) then rev cur :: split_chars sep [] l'
      else split_chars sep (c :: cur) l'
  end.

Definition split (sep : ascii) (s : string) : list string :=
  String.string_of_list_ascii <$> split_chars sep [] (chars s).

(** [Number(part)] on a part made of decimal digits; [None] is [NaN]. Under
    the date pattern every part is a non-empty run of digits, which is the
    only case [fetchBuilds] lets through. *)
Definition Number (s : string) : option Z :=
  match chars s with
  | [] => None
  | cs =>
      if forallb is_digit cs
      then Some (fold_left (fun acc c => 10 * acc + digit_val c) cs 0)
      else None
  end.

(** [/^\d{1,2}-\d{1,2}-\d{4}$/.test(s)] *)
Definition dateRegex_test (s : string) : bool :=
  match String.list_ascii_of_string <$> split "-"%char s with
  | [d; m; y] =>
      forallb is_digit d && forallb is_digit m && forallb is_digit y
      && bool_decide (1 <= length d <= 2)%nat
      && bool_decide (1 <= length m <= 2)%nat
      && bool_decide (length y = 4%nat)
  | _ => false
  end.

(** [haystack.includes(needle)] *)
Fixpoint includes_from (needle : string) (hay : string) : bool :=
  String.prefix needle hay ||
  match hay with
  | EmptyString => false
  | String _ hay' => includes_from needle hay'
  end.

Definition includes (hay needle : string) : bool := includes_from needle hay.

(** [s.split('/').pop()] *)
Definition last_segment (s : string) : string :=
  List.last (split "/"%char s) "".

(** [s.lastIndexOf(needle)], [-1] when there is no occurrence. *)
Fixpoint lastIndexOf_from (needle hay : string) (i found : Z) : Z :=
  let found' := if String.prefix needle hay then i else found in
  match hay with
  | EmptyString => found'
  | String _ hay' => lastIndexOf_from needle hay' (i + 1) found'
  end.

Definition lastIndexOf (s needle : string) : Z :=
  lastIndexOf_from needle s 0 (-1).

(** [s.substring(0, e)]: a negative end counts as [0]. *)
Definition substring0 (s : string) (e : Z) : string :=
  String.substring 0 (Z.to_nat (Z.max 0 e)) s.

(** [l.slice(start, end)] of ECMAScript: negative positions count from the
    end, positions are clamped to the length. *)
Definition slice {A} (l : list A) (start end_ : Z) : list A :=
  let len := Z.of_nat (length l) in
  let k := if start <? 0 then Z.max (len + start) 0 else Z.min start len in
  let final := if end_ <? 0 then Z.max (len + end_) 0 else Z.min end_ len in
  take (Z.to_nat (final - k)) (drop (Z.to_nat k) l).

(** A string in a condition: [undefined] and the empty string are falsy. *)
Definition truthy_str (o : option string) : option string :=
  match o with
  | Some s => if decide (s = "") then None else Some s
  | None => None
  end.

(** ** The environment of [builds.ts]

    What [builds.ts] imports and does not define: the constants of
    [constants.ts], [chalk], [node:path], the [Date] of the host and its time
    zone, and the JSON codec. They are parameters of the development. *)
Class Host := {
  platform : Platform;                      (* constants.ts: the host platform *)
  arch : Arch;                              (* constants.ts: the host architecture *)
  Arch_str : Arch -> string;                (* the string value of an Arch member *)
  Platform_str : Platform -> string;        (* `${platform}` *)
  VSCodiumInsider_str : string;             (* the string value of Quality.VSCodiumInsider *)
  isDockerCliFlavor : Flavor -> bool;
  cwd : string;                             (* process.cwd() *)
  join : list string -> string;             (* node:path join *)
  dirname : string -> string;               (* node:path dirname *)
  getBuildPath : string -> Quality -> Flavor -> string;
  chalk_green : string -> string;
  chalk_gray : string -> string;
  chalk_red : string -> string;
  Date_local : Z -> Z -> Z -> Z;            (* new Date(year, monthIndex, day).getTime() *)
  Date_parse : string -> option Z;          (* new Date(s).getTime(), None for NaN *)
  Date_isoDay : Z -> string;                (* new Date(t).toISOString().split('T')[0] *)
  JSON_parse_history : string -> Exn + list HistoryEntry;
                                            (* JSON.parse(content), then .slice() *)
  patch_product_json : string -> Exn + string
    (* JSON.parse, the three assignments of downloadAndExtractVSCodium,
       JSON.stringify(productData, null, 4) *)
}.

(** [`${quality}`] *)
Definition Quality_str `{Host} (q : Quality) : string :=
  match q with
  | Stable => "stable"
  | Insider => "insider"
  | VSCodiumInsider => VSCodiumInsider_str
  end.

(** The file system behind [node:fs] and [files.ts], as an interface over a
    carrier [FS]. A failing operation raises. [fs_store] is what [fileGet]
    does with a body it received: it writes the file at the path. *)
Class FileSystem (FS : Type) := {
  fs_exists : FS -> string -> bool;
  fs_readFile : FS -> string -> Exn + string;
  fs_writeFile : FS -> string -> string -> Exn + FS;
  fs_rm : FS -> string -> Exn + FS;                   (* rmSync(p, {recursive: true}) *)
  fs_unzip : FS -> string -> string -> Exn + FS;      (* files.ts unzip *)
  fs_sha256 : FS -> string -> Exn + string;           (* files.ts computeSHA256 *)
  fs_store : FS -> string -> string -> Exn + FS
}.

(** The result object of [spawnSync]. *)
Record SpawnResult := {
  sp_error : option string;
  sp_status : option Z;
  sp_stderr : option string
}.

(** The world outside the process: what the network answers and what a spawned
    tool does. An answer may depend on everything that happened before. *)
Class World (FS : Type) := {
  net_json_meta : list Event -> string -> Exn + IBuildMetadata;
  net_json_commits : list Event -> string -> Exn + list string;
  net_file : list Event -> string -> Exn + string;
  spawn_run : list Event -> FS -> string -> list string -> SpawnResult * FS
}.

(** ** The monad of [Builds]: state, exceptions, trace *)

Record State (FS : Type) := mkState { fs : FS; trace : list Event }.
Arguments mkState {FS} _ _.
Arguments fs {FS} _.
Arguments trace {FS} _.

Definition M (FS A : Type) : Type := State FS -> (Exn + A) * State FS.

Definition ret {FS A} (a : A) : M FS A := fun s => (inr a, s).

Definition bind {FS A B} (m : M FS A) (k : A -> M FS B) : M FS B :=
  fun s =>
    match m s with
    | (inr a, s') => k a s'
    | (inl e, s') => (inl e, s')
    end.

Definition throw {FS A} (e : Exn) : M FS A := fun s => (inl e, s).

(** [try { m } catch (e) { h e }] *)
Definition try_catch {FS A} (m : M FS A) (h : Exn -> M FS A) : M FS A :=
  fun s =>
    match m s with
    | (inl e, s') => h e s'
    | r => r
    end.

Definition emit {FS} (e : Event) : M FS unit :=
  fun s => (inr tt, mkState (fs s) (trace s ++ [e])).

Definition lift {FS A} (r : Exn + A) : M FS A := fun s => (r, s).

Notation "'do' x <- m ; k" := (bind m (fun x => k))
  (at level 10, x name, m at level 100, k at level 200).
Notation "'exec' m ; k" := (bind m (fun _ => k))
  (at level 10, m at level 100, k at level 200).

Definition when_ {FS} (c : bool) (m : M FS unit) : M FS unit :=
  if c then m else ret tt.

Section Primitives.
Context {FS : Type} `{!FileSystem FS} `{!World FS}.

(** fetch.ts: [jsonGet<IBuildMetadata>(url)] *)
Definition jsonGet_meta (url : string) : M FS IBuildMetadata :=
  fun s => (net_json_meta (trace s) url,
            mkState (fs s) (trace s ++ [NetJsonGet url])).

(** fetch.ts: [jsonGet<Array<string>>(url)] *)
Definition jsonGet_commits (url : string) : M FS (list string) :=
  fun s => (net_json_commits (trace s) url,
            mkState (fs s) (trace s ++ [NetJsonGet url])).

(** fetch.ts: [fileGet(url, path)] *)
Definition fileGet (url path : string) : M FS unit :=
  fun s =>
    let t := trace s ++ [NetFileGet url path] in
    match net_file (trace s) url with
    | inl e => (inl e, mkState (fs s) t)
    | inr body =>
        match fs_store (fs s) path body with
        | inl e => (inl e, mkState (fs s) t)
        | inr fs' => (inr tt, mkState fs' t)
        end
    end.

(** files.ts: [exists(path)] *)
Definition exists_ (path : string) : M FS bool :=
  fun s => (inr (fs_exists (fs s) path), s).

(** files.ts: [computeSHA256(path)] *)
Definition computeSHA256 (path : string) : M FS string :=
  fun s => (fs_sha256 (fs s) path, s).

Definition readFileSync (path : string) : M FS string :=
  fun s => (fs_readFile (fs s) path, s).

(** An operation that changes the file system, with the event it leaves. *)
Definition fs_update (ev : Event) (f : FS -> Exn + FS) : M FS unit :=
  fun s =>
    let t := trace s ++ [ev] in
    match f (fs s) with
    | inl e => (inl e, mkState (fs s) t)
    | inr fs' => (inr tt, mkState fs' t)
    end.

Definition writeFileSync (path content : string) : M FS unit :=
  fs_update (FsWrite path) (fun f => fs_writeFile f path content).

Definition rmSync (path : string) : M FS unit :=
  fs_update (FsRm path) (fun f => fs_rm f path).

Definition unzip (src dst : string) : M FS unit :=
  fs_update (FsUnzip src dst) (fun f => fs_unzip f src dst).

Definition spawnSync (cmd : string) (args : list string) : M FS SpawnResult :=
  fun s =>
    let '(r, fs') := spawn_run (trace s) (fs s) cmd args in
    (inr r, mkState fs' (trace s ++ [Spawn cmd args])).

Definition LOGGER_log_ (msg : string) : M FS unit := emit (LOGGER_log msg).
Definition LOGGER_trace_ (msg : string) : M FS unit := emit (LOGGER_trace msg).
Definition console_error_ (msg : string) : M FS unit := emit (console_error msg).
End Primitives.

(** ** Platform naming tables (pure) *)

Section Naming.
Context `{!Host}.

Definition isWeb (r : Runtime) : bool :=
  bool_decide (r = WebLocal) || bool_decide (r = WebRemote).

(** The object literal [{ runtime, quality, flavor }]: no platform and no
    arch, so that the host's are the effective ones. *)
Definition kindOf (r : Runtime) (q : Quality) (f : Flavor) : IBuildKind :=
  {| runtime := r; quality := q; flavor := f;
     buildPlatform := None; buildArch := None |}.

(** The object literal [{ runtime, commit, quality, flavor, platform, arch }]. *)
Definition buildOf (r : Runtime) (c : string) (q : Quality) (f : Flavor)
    (p : option Platform) (a : option Arch) : IBuild :=
  {| kind := {| runtime := r; quality := q; flavor := f;
                buildPlatform := p; buildArch := a |};
     commit := c; date := None; version := None; assets := None |}.

(** private getBuildApiName *)
Definition getBuildApiName (k : IBuildKind) : string :=
  let effectivePlatform := default platform (buildPlatform k) in
  let effectiveArch := default arch (buildArch k) in
  if isWeb (runtime k) then
    match effectivePlatform with
    | MacOSX64 | MacOSArm => "server-darwin-web"
    | LinuxX64 | LinuxArm => "server-linux-" +:+ Arch_str effectiveArch +:+ "-web"
    | WindowsX64 | WindowsArm => "server-win32-" +:+ Arch_str effectiveArch +:+ "-web"
    end
  else
    match effectivePlatform with
    | MacOSX64 =>
        if decide (flavor k = DarwinUniversal) then "darwin-universal" else "darwin"
    | MacOSArm =>
        if decide (flavor k = DarwinUniversal) then "darwin-universal"
        else "darwin-" +:+ Arch_str Arm64
    | LinuxX64 | LinuxArm => "linux-" +:+ Arch_str effectiveArch
    | WindowsX64 | WindowsArm => "win32-" +:+ Arch_str effectiveArch
    end.

(** The last switch of [getPlatformName] (CLI). *)
Definition getPlatformName_cli (p : Platform) (a : Arch) : string :=
  match p with
  | MacOSX64 | MacOSArm => "cli-darwin-" +:+ Arch_str a
  | LinuxX64 | LinuxArm => "cli-linux-" +:+ Arch_str a
  | WindowsX64 | WindowsArm => "cli-win32-" +:+ Arch_str a
  end.

(** The inner [switch (flavor)] of the Windows cases; a flavor it does not
    list leaves the desktop switch and reaches the CLI switch. *)
Definition getPlatformName_windows (f : Flavor) (p : Platform) (a : Arch) : string :=
  match f with
  | Default => "win32-" +:+ Arch_str a +:+ "-archive"
  | WindowsUserInstaller => "win32-" +:+ Arch_str a +:+ "-user"
  | WindowsSystemInstaller => "win32-" +:+ Arch_str a
  | _ => getPlatformName_cli p a
  end.

(** private getPlatformName. The inner [switch (flavor)] of the Linux cases
    has no [break]: a flavor it does not list falls through into the
    Windows cases. *)
Definition getPlatformName (k : IBuildKind) : string :=
  let effectivePlatform := default platform (buildPlatform k) in
  let effectiveArch := default arch (buildArch k) in
  if isWeb (runtime k) then
    match effectivePlatform with
    | MacOSX64 => "server-darwin-web"
    | MacOSArm => "server-darwin-" +:+ Arch_str Arm64 +:+ "-web"
    | LinuxX64 | LinuxArm => "server-linux-" +:+ Arch_str effectiveArch +:+ "-web"
    | WindowsX64 | WindowsArm => "server-win32-" +:+ Arch_str effectiveArch +:+ "-web"
    end
  else if decide (flavor k <> Cli) then
    match effectivePlatform with
    | MacOSX64 =>
        if decide (flavor k = DarwinUniversal) then "darwin-universal" else "darwin"
    | MacOSArm =>
        if decide (flavor k = DarwinUniversal) then "darwin-universal"
        else "darwin-" +:+ Arch_str Arm64
    | LinuxX64 | LinuxArm =>
        match flavor k with
        | Default => "linux-" +:+ Arch_str effectiveArch
        | LinuxDeb => "linux-deb-" +:+ Arch_str effectiveArch
        | LinuxRPM => "linux-rpm-" +:+ Arch_str effectiveArch
        | LinuxSnap => "linux-snap-" +:+ Arch_str effectiveArch
        | f => getPlatformName_windows f effectivePlatform effectiveArch
        end
    | WindowsX64 | WindowsArm =>
        getPlatformName_windows (flavor k) effectivePlatform effectiveArch
    end
  else getPlatformName_cli effectivePlatform effectiveArch.

(** The last switch of [getBuildDownloadName] (CLI). *)
Definition getBuildDownloadName_cli (p : Platform) : string :=
  match p with
  | MacOSX64 => "vscode_cli_darwin_x64_cli.zip"
  | MacOSArm => "vscode_cli_darwin_arm64_cli.zip"
  | LinuxX64 => "vscode_cli_linux_x64_cli.tar.gz"
  | LinuxArm => "vscode_cli_linux_arm64_cli.tar.gz"
  | WindowsX64 => "vscode_cli_win32_x64_cli.zip"
  | WindowsArm => "vscode_cli_win32_arm64_cli.zip"
  end.

(** The URL of the version-metadata query. *)
Definition metaUrl (commit : string) (platformName : string) (q : Quality) : string :=
  "https://update.code.visualstudio.com/api/versions/commit:" +:+ commit
  +:+ "/" +:+ platformName +:+ "/" +:+ Quality_str q.

(** The URL of the discovery query. *)
Definition commitsUrl (q : Quality) (apiName : string) (releasedOnly : bool) : string :=
  "https://update.code.visualstudio.com/api/commits/" +:+ Quality_str q
  +:+ "/" +:+ apiName +:+ "?released=" +:+ bool_str releasedOnly.
End Naming.

(** ** The operations of [Builds] *)

Section Builds.
Context {FS : Type} `{!Host} `{!FileSystem FS} `{!World FS}.

Local Abbreviation M := (M FS).

(** The URL that [fetchBuildMeta] queries for a build under a platform and an
    architecture: [getPlatformName({ runtime, quality, flavor, platform, arch })]
    between the commit and the quality. *)
Definition fetchBuildMeta_url (b : IBuild) (p : option Platform) (a : option Arch)
  : string :=
  metaUrl (commit b)
    (getPlatformName
       {| runtime := runtime b; quality := quality b; flavor := flavor b;
          buildPlatform := p; buildArch := a |})
    (quality b).

(** private fetchBuildMeta *)
Definition fetchBuildMeta (b : IBuild) : M IBuildMetadata :=
  try_catch
    (jsonGet_meta (fetchBuildMeta_url b (buildPlatform b) (buildArch b)))
    (fun error =>
       let effectivePlatform := default platform (buildPlatform b) in
       if decide (effectivePlatform = MacOSArm /\ quality b = Stable) then
         try_catch
           (jsonGet_meta (fetchBuildMeta_url b (Some MacOSX64) (Some X64)))
           (fun ignore => throw error)
       else throw error).

(** private getBuildDownloadName *)
Definition getBuildDownloadName (b : IBuild) : M string :=
  let effectivePlatform := default platform (buildPlatform b) in
  let effectiveArch := default arch (buildArch b) in
  let meta :=
    fetchBuildMeta (buildOf (runtime b) (commit b) (quality b) (flavor b)
                      (buildPlatform b) (buildArch b)) in
  if isWeb (runtime b) then
    ret match effectivePlatform with
        | MacOSX64 | MacOSArm =>
            "vscode-server-darwin-" +:+ Arch_str effectiveArch +:+ "-web.zip"
        | LinuxX64 | LinuxArm =>
            "vscode-server-linux-" +:+ Arch_str effectiveArch +:+ "-web.tar.gz"
        | WindowsX64 | WindowsArm =>
            "vscode-server-win32-" +:+ Arch_str effectiveArch +:+ "-web.zip"
        end
  else if decide (flavor b <> Cli) then
    match effectivePlatform with
    | MacOSX64 =>
        ret (if decide (flavor b = DarwinUniversal)
             then "VSCode-darwin-universal.zip" else "VSCode-darwin.zip")
    | MacOSArm =>
        ret (if decide (flavor b = DarwinUniversal)
             then "VSCode-darwin-universal.zip"
             else "VSCode-darwin-" +:+ Arch_str Arm64 +:+ ".zip")
    | LinuxX64 | LinuxArm =>
        do m <- meta; ret (last_segment (url m))
    | WindowsX64 | WindowsArm =>
        do buildMeta <- meta;
        ret match flavor b with
            | Default =>
                "VSCode-win32-" +:+ Arch_str effectiveArch +:+ "-"
                +:+ productVersion buildMeta +:+ ".zip"
            | WindowsSystemInstaller =>
                "VSCodeSetup-" +:+ Arch_str effectiveArch +:+ "-"
                +:+ productVersion buildMeta +:+ ".exe"
            | WindowsUserInstaller =>
                "VSCodeUserSetup-" +:+ Arch_str effectiveArch +:+ "-"
                +:+ productVersion buildMeta +:+ ".exe"
            | _ => getBuildDownloadName_cli effectivePlatform
            end
    end
  else ret (getBuildDownloadName_cli effectivePlatform).

(** Lines 39-44: the history file of a quality. *)
Definition history_filename (q : Quality) : string :=
  if decide (q = VSCodiumInsider) then "vscodium_insider_history.json"
  else if decide (q = Insider) then "vscode_insider_history.json"
  else "vscode_stable_history.json".

Definition historyPath (q : Quality) : string := join [cwd; history_filename q].

Definition loadFailureMessage (path : string) (e : Exn) : string :=
  "Failed to load history from " +:+ path +:+ ": " +:+ Exn_str e.

(** private loadHistory *)
Definition loadHistory (q : Quality) : M (list HistoryEntry) :=
  let path := historyPath q in
  try_catch
    (do content <- readFileSync path;
     do history <- lift (JSON_parse_history content);
     ret (rev history))
    (fun e =>
       exec console_error_ (loadFailureMessage path e);
       ret []).

(** Reading or parsing the history file of a quality fails with [e]. *)
Definition loadFails (q : Quality) (fs0 : FS) (e : Exn) : Prop :=
  fs_readFile fs0 (historyPath q) = inl e
  \/ exists content,
       fs_readFile fs0 (historyPath q) = inr content
       /\ JSON_parse_history content = inl e.

Definition discoveryMessage (url : string) : string :=
  chalk_gray "[build]" +:+ " fetching all builds from " +:+ chalk_green url +:+ "...".

(** Lines 191-196, the fallback of [fetchAllBuilds]: the remote discovery
    query. *)
Definition discoverBuilds (r : Runtime) (q : Quality) (f : Flavor)
    (releasedOnly : bool) : M (list IBuild) :=
  let url := commitsUrl q (getBuildApiName (kindOf r q f)) releasedOnly in
  exec LOGGER_log_ (discoveryMessage url);
  do commits <- jsonGet_commits url;
  ret ((fun c => buildOf r c q f None None) <$> commits).

Definition loadedMessage (n : nat) : string :=
  chalk_gray "[build]" +:+ " loaded " +:+ chalk_green (pretty n)
  +:+ " builds from local history json...".

(** The build of a history record:
    [{ commit, date, version, assets, runtime, quality, flavor }]. *)
Definition buildOfEntry (r : Runtime) (q : Quality) (f : Flavor) (h : HistoryEntry)
  : IBuild :=
  {| kind := kindOf r q f;
     commit := h_commit h; date := h_date h;
     version := h_version h; assets := h_assets h |}.

(** private fetchAllBuilds; [releasedOnly] and [useDiscovery] default to
    [false]. *)
Definition fetchAllBuilds (k : IBuildKind) (releasedOnly : option bool)
    (useDiscovery : bool) : M (list IBuild) :=
  let releasedOnly := default false releasedOnly in
  let fallback := discoverBuilds (runtime k) (quality k) (flavor k) releasedOnly in
  if negb useDiscovery then
    do history <- loadHistory (quality k);
    if bool_decide (0 < length history)%nat then
      exec LOGGER_log_ (loadedMessage (length history));
      ret (buildOfEntry (runtime k) (quality k) (flavor k) <$> history)
    else fallback
  else fallback.

(** [if (!build.date) continue]: an absent date, the number [0] and the
    empty string are falsy. *)
Definition truthy_date (d : option DateValue) : bool :=
  match d with
  | None => false
  | Some (DateNumber n) => negb (n =? 0)
  | Some (DateString s) => negb (bool_decide (s = ""))
  end.

(** [buildTime]: the number itself, or [new Date(date).getTime()]. *)
Definition buildTime (d : DateValue) : option Z :=
  match d with
  | DateNumber n => Some n
  | DateString s => Date_parse s
  end.

(** [new Date(year, month - 1, day).getTime()] of the three parts. *)
Definition targetTime (dateStr : string) : option Z :=
  match Number <$> split "-"%char dateStr with
  | Some day :: Some month :: Some year :: _ => Some (Date_local year (month - 1) day)
  | _ => None
  end.

(** One turn of the loop of [resolveDateToBuild] on [(bestBuild, minDiff)];
    [minDiff = None] is the initial [Number.MAX_VALUE]. A comparison with
    [NaN] is false. *)
Definition resolveDate_step (target : option Z)
    (acc : option IBuild * option Z) (build : IBuild) : option IBuild * option Z :=
  if negb (truthy_date (date build)) then acc
  else
    match date build ≫= buildTime, target with
    | Some buildTime, Some targetTime =>
        let diff := Z.abs (buildTime - targetTime) in
        if match acc.2 with None => true | Some minDiff => diff <? minDiff end
        then (Some build, Some diff)
        else acc
    | _, _ => acc
    end.

Definition resolveDate_loop (target : option Z) (builds : list IBuild)
  : option IBuild * option Z :=
  fold_left (resolveDate_step target) builds (None, None).

Definition resolvedMessage (dateStr : string) (bestBuild : IBuild) (d : string)
  : string :=
  chalk_gray "[build]" +:+ " resolved date " +:+ chalk_green dateStr
  +:+ " to build "
  +:+ chalk_green (default (commit bestBuild) (truthy_str (version bestBuild)))
  +:+ " (" +:+ d +:+ ")".

(** The error of line 167. *)
Definition unresolvedDateError (dateStr : string) : Exn :=
  Error ("Could not resolve date " +:+ dateStr +:+ " to any build.").

(** The largest time value of a [Date]: 100,000,000 days. *)
Definition maxTimeValue : Z := 8640000000000000.

(** The time value of [new Date(value)]: a number is clipped to the range of
    the time values, a string is parsed; [None] is the invalid date. *)
Definition timeValue (d : option DateValue) : option Z :=
  match d with
  | Some (DateNumber n) => if Z.abs n <=? maxTimeValue then Some n else None
  | Some (DateString s) => Date_parse s
  | None => None
  end.

(** What [toISOString] throws on an invalid date. *)
Definition invalidTimeError : Exn := Thrown "RangeError: Invalid time value".

(** Line 162: [new Date(bestBuild.date).toISOString().split('T')[0]]. *)
Definition toISODay (d : option DateValue) : M string :=
  match timeValue d with
  | Some t => ret (Date_isoDay t)
  | None => throw invalidTimeError
  end.

(** private resolveDateToBuild *)
Definition resolveDateToBuild (dateStr : string) (builds : list IBuild) : M string :=
  let targetTime := targetTime dateStr in
  match (resolveDate_loop targetTime builds).1 with
  | Some bestBuild =>
      do d <- toISODay (date bestBuild);
      exec LOGGER_log_ (resolvedMessage dateStr bestBuild d);
      ret (commit bestBuild)
  | None => throw (unresolvedDateError dateStr)
  end.




(** private indexOf *)
Fixpoint indexOf_from (i : Z) (commit_ : string) (builds : list IBuild) : option Z :=
  match builds with
  | [] => None
  | build :: rest =>
      if decide (commit build = commit_) then Some i
      else indexOf_from (i + 1) commit_ rest
  end.

Definition indexOf (commit_ : string) (builds : list IBuild) : option Z :=
  indexOf_from 0 commit_ builds.

(** *** fetchBuilds *)

(** Lines 86-92: a reference shaped like a date becomes the commit of the
    nearest build. *)
Definition resolveRef (ref : option string) (allBuilds : list IBuild)
  : M (option string) :=
  match ref with
  | Some r =>
      if dateRegex_test r
      then do c <- resolveDateToBuild r allBuilds; ret (Some c)
      else ret (Some r)
  | None => ret None
  end.

Definition notFoundError (side c : string) : Exn :=
  Error ("Provided " +:+ side +:+ " commit " +:+ chalk_green c
         +:+ " was not found in the list of builds. It is either invalid or too old.").

(** Lines 94-111, one side: the index of the commit, or the default. *)
Definition commitIndex (side : string) (ref : option string) (dflt : Z)
    (allBuilds : list IBuild) : M Z :=
  match ref with
  | Some c =>
      match indexOf c allBuilds with
      | None => throw (notFoundError side c)
      | Some candidate => ret candidate
      end
  | None => ret dflt
  end.

(** What lines 82-111 leave in the local variables. *)
Record Resolved := {
  allBuilds : list IBuild;
  goodCommit : option string;
  badCommit : option string;
  goodCommitIndex : Z;
  badCommitIndex : Z
}.

Definition fetchBuilds_resolve (k : IBuildKind) (good bad : option string)
    (releasedOnly : option bool) (useDiscovery : bool) : M Resolved :=
  do all <- fetchAllBuilds (kindOf (runtime k) (quality k) (flavor k))
              releasedOnly useDiscovery;
  do good <- resolveRef good all;
  do bad <- resolveRef bad all;
  do gi <- commitIndex "good" good (Z.of_nat (length all) - 1) all;
  do bi <- commitIndex "bad" bad 0 all;
  ret {| allBuilds := all; goodCommit := good; badCommit := bad;
         goodCommitIndex := gi; badCommitIndex := bi |}.

(** The error of line 114; [chalk.green(undefined)] prints [undefined]. *)
Definition invalidRangeError (bad good : option string) : Exn :=
  Error ("Provided bad commit " +:+ chalk_green (str_of bad)
         +:+ " cannot be older or same as good commit "
         +:+ chalk_green (str_of good) +:+ ".").

(** Lines 113-118. *)
Definition fetchBuilds_range (r : Resolved) : M (list IBuild) :=
  if badCommitIndex r >=? goodCommitIndex r then
    throw (invalidRangeError (badCommit r) (goodCommit r))
  else ret (slice (allBuilds r) (badCommitIndex r) (goodCommitIndex r + 1)).

Definition excludedMessage (excludedCount : nat) : string :=
  chalk_gray "[build]" +:+ " excluded " +:+ chalk_green (pretty excludedCount)
  +:+ " commit" +:+ (if decide (excludedCount = 1%nat) then "" else "s")
  +:+ " from bisecting".

(** Lines 120-133. *)
Definition fetchBuilds_exclude (excludeCommits : option (list string))
    (buildsInRange : list IBuild) : M (list IBuild) :=
  match excludeCommits with
  | Some ((_ :: _) as excludeCommits) =>
      let excludeSet : gset string := list_to_set excludeCommits in
      let originalLength := length buildsInRange in
      let buildsInRange := filter (fun build => commit build ∉ excludeSet) buildsInRange in
      exec when_ (negb (bool_decide (length buildsInRange = originalLength)))
        (LOGGER_log_ (excludedMessage (originalLength - length buildsInRange)%nat));
      ret buildsInRange
  | _ => ret buildsInRange
  end.

(** async fetchBuilds; [useDiscovery] defaults to [false]. *)
Definition fetchBuilds (k : IBuildKind) (goodCommit badCommit : option string)
    (releasedOnly : option bool) (excludeCommits : option (list string))
    (useDiscovery : bool) : M (list IBuild) :=
  do r <- fetchBuilds_resolve k goodCommit badCommit releasedOnly useDiscovery;
  do buildsInRange <- fetchBuilds_range r;
  fetchBuilds_exclude excludeCommits buildsInRange.

(** *** Acquisition *)

Definition missingAssetsError (build : IBuild) : Exn :=
  Error ("VSCodium build " +:+ str_of (version build) +:+ " (commit "
         +:+ commit build +:+ ") is missing assets map.").

Definition noAssetError (build : IBuild) : Exn :=
  Error ("No VSCodium asset found for current platform ("
         +:+ Platform_str platform +:+ ") in build " +:+ str_of (version build)).

(** Lines 299-313: the asset URL and the archive extension for the host
    platform. No branch reads the map on a Windows platform. *)
Definition vscodiumAsset (assets : gmap string string) : option string * string :=
  if decide (platform = MacOSArm) then (assets !! "darwin_arm64", ".zip")
  else if decide (platform = MacOSX64) then (assets !! "darwin_x64", ".zip")
  else if decide (platform = LinuxX64) then (assets !! "linux_x64", ".tar.gz")
  else if decide (platform = LinuxArm) then (assets !! "linux_arm64", ".tar.gz")
  else (None, ".zip").

(** Lines 339-376: extraction of a macOS bundle and its patching. *)
Definition vscodiumExtractMac (zipPath destination : string) : M string :=
  do result <- spawnSync "unzip" ["-q"; zipPath; "-d"; destination];
  if bool_decide (is_Some (sp_error result))
     || negb (bool_decide (sp_status result = Some 0)) then
    throw (Error ("Failed to unzip VSCodium: "
                  +:+ default (default "Unknown error" (sp_stderr result))
                        (sp_error result)))
  else
    let appPath := join [destination; "VSCodium.app"] in
    do appExists <- exists_ appPath;
    exec when_ appExists
      (let productJsonPath :=
         join [appPath; "Contents"; "Resources"; "app"; "product.json"] in
       do productExists <- exists_ productJsonPath;
       exec when_ productExists
         (exec LOGGER_log_ ("Patching product.json at " +:+ productJsonPath);
          do content <- readFileSync productJsonPath;
          do patched <- lift (patch_product_json content);
          writeFileSync productJsonPath patched);
       do _ <- spawnSync "xattr" ["-r"; "-d"; "com.apple.quarantine"; appPath];
       do _ <- spawnSync "codesign" ["--force"; "--deep"; "--sign"; "-"; appPath];
       ret tt);
    ret destination.

(** private downloadAndExtractVSCodium; [options] is
    [options?.forceReDownload]. *)
Definition downloadAndExtractVSCodium (build : IBuild) (options : option bool)
  : M string :=
  let forceReDownload := default false options in
  match assets build with
  | None => throw (missingAssetsError build)
  | Some assets =>
      let '(url, ext) := vscodiumAsset assets in
      match truthy_str url with
      | None => throw (noAssetError build)
      | Some url =>
          let buildName := "VSCodium-" +:+ str_of (version build) +:+ ext in
          let folder := getBuildPath (commit build) (quality build) (flavor build) in
          let zipPath := join [folder; buildName] in
          do cached <- exists_ folder;
          if cached && negb forceReDownload then
            exec LOGGER_trace_
              (chalk_gray "[build]" +:+ " using VSCodium cached at "
               +:+ chalk_green folder);
            ret folder
          else
            do stale <- exists_ folder;
            exec when_ stale (rmSync folder);
            exec LOGGER_log_
              (chalk_gray "[build]" +:+ " downloading VSCodium from "
               +:+ chalk_green url +:+ "...");
            exec fileGet url zipPath;
            let destination := folder in
            exec LOGGER_log_
              (chalk_gray "[build]" +:+ " extracting VSCodium to "
               +:+ chalk_green destination +:+ "...");
            if bool_decide (platform = MacOSArm) || bool_decide (platform = MacOSX64)
            then vscodiumExtractMac zipPath destination
            else exec unzip zipPath destination; ret destination
      end
  end.

(** The error of line 268. *)
Definition integrityError (expectedSHA256 computedSHA256 : string) : Exn :=
  Error (chalk_gray "[build]" +:+ " " +:+ chalk_red "✘"
         +:+ " expected SHA256 checksum (" +:+ expectedSHA256
         +:+ ") does not match with download (" +:+ computedSHA256 +:+ ")").

(** Lines 273-289: unzip unless the artifact is an installer. *)
Definition extractBuild (build : IBuild) (path : string) : M (option string) :=
  if bool_decide (flavor build = Default) || bool_decide (flavor build = Cli)
     || bool_decide (flavor build = DarwinUniversal) then
    let destination :=
      if (bool_decide (runtime build = DesktopLocal)
          || bool_decide (runtime build = WebLocal))
         && bool_decide (flavor build = Default)
         && (bool_decide (platform = WindowsX64) || bool_decide (platform = WindowsArm))
      then substring0 path (lastIndexOf path ".zip")
      else dirname path in
    exec LOGGER_log_
      (chalk_gray "[build]" +:+ " unzipping " +:+ chalk_green path +:+ " to "
       +:+ chalk_green destination +:+ "...");
    exec unzip path destination;
    ret (Some destination)
  else ret (Some path).

(** The object literal [{ runtime, commit, quality, flavor }] that
    [downloadAndExtractBuild] passes on: the platform and the arch of the
    build are dropped, the host's are the effective ones. *)
Definition stripped (build : IBuild) : IBuild :=
  buildOf (runtime build) (commit build) (quality build) (flavor build) None None.

(** Lines 255-258: a forced re-download deletes the cached directory. *)
Definition forcedDelete (build : IBuild) (pathExists forceReDownload : bool) : M unit :=
  let folder := getBuildPath (commit build) (quality build) (flavor build) in
  when_ (pathExists && forceReDownload)
    (exec LOGGER_log_
       (chalk_gray "[build]" +:+ " deleting " +:+ chalk_green folder
        +:+ " and retrying download");
     rmSync folder).

Definition downloadingMessage (url : string) : string :=
  chalk_gray "[build]" +:+ " downloading build from " +:+ chalk_green url +:+ "...".

(** Lines 255-289: what follows a cache miss or a forced re-download. *)
Definition downloadBuild (build : IBuild) (path : string) (pathExists : bool)
    (forceReDownload : bool) : M (option string) :=
  exec forcedDelete build pathExists forceReDownload;
  do meta <- fetchBuildMeta (stripped build);
  let expectedSHA256 := sha256hash meta in
  exec LOGGER_log_ (downloadingMessage (url meta));
  exec fileGet (url meta) path;
  do computedSHA256 <- computeSHA256 path;
  if decide (expectedSHA256 <> computedSHA256) then
    throw (integrityError expectedSHA256 computedSHA256)
  else
    exec LOGGER_log_
      (chalk_gray "[build]" +:+ " " +:+ chalk_green "✔︎"
       +:+ " expected SHA256 checksum matches with download");
    extractBuild build path.

(** The cache path of lines 244-246 for a computed download name. *)
Definition cachePath (build : IBuild) (buildName : string) : string :=
  join [getBuildPath (commit build) (quality build) (flavor build); buildName].

Definition cachedMessage (path : string) : string :=
  chalk_gray "[build]" +:+ " using " +:+ chalk_green path
  +:+ " for the next build to try".

(** async downloadAndExtractBuild; [options] is [options?.forceReDownload]. *)
Definition downloadAndExtractBuild (build : IBuild) (options : option bool)
  : M (option string) :=
  let forceReDownload := default false options in
  if decide (quality build = VSCodiumInsider) then
    do folder <- downloadAndExtractVSCodium build options;
    ret (Some folder)
  else if isDockerCliFlavor (flavor build) then ret None
  else
    do buildName <- getBuildDownloadName (stripped build);
    let path := cachePath build buildName in
    do pathExists <- exists_ path;
    if pathExists && negb forceReDownload then
      exec LOGGER_trace_ (cachedMessage path);
      ret (Some path)
    else downloadBuild build path pathExists forceReDownload.

(** Whether [getBuildDownloadName] queries the metadata of a build: a desktop
    runtime, a flavor other than CLI, and a Linux or a Windows platform. *)
Definition needsMetadata (build : IBuild) : bool :=
  negb (isWeb (runtime build))
  && bool_decide (flavor build <> Cli)
  && match default platform (buildPlatform build) with
     | MacOSX64 | MacOSArm => false
     | _ => true
     end.
End Builds.

(** ** The remaining operations of [Builds] *)

Section MoreBuilds.
Context {FS : Type} `{!Host} `{!FileSystem FS} `{!World FS}.

(** Lines 70-74: the URL of the released-version query; every quality but
    ['insider'] takes the stable form. *)
Definition versionUrl (q : Quality) (version apiName : string) : string :=
  if decide (q = Insider) then
    "https://update.code.visualstudio.com/api/versions/" +:+ version
    +:+ ".0-insider/" +:+ apiName +:+ "/insider?released=true"
  else
    "https://update.code.visualstudio.com/api/versions/" +:+ version
    +:+ ".0/" +:+ apiName +:+ "/stable?released=true".

(** async fetchBuildByVersion *)
Definition fetchBuildByVersion (k : IBuildKind) (version : string) : M FS IBuild :=
  do history <- loadHistory (quality k);
  match List.find (fun b => bool_decide (h_version b = Some version)) history with
  | Some match_ =>
      ret (buildOf (runtime k) (h_commit match_) (quality k) (flavor k) None None)
  | None =>
      do meta <- jsonGet_meta
                   (versionUrl (quality k) version
                      (getBuildApiName (kindOf (runtime k) (quality k) (flavor k))));
      ret (buildOf (runtime k) (meta_version meta) (quality k) (flavor k) None None)
  end.

(** The first switch of [getBuildName] (server). *)
Definition getBuildName_server (p : Platform) (a : Arch) : string :=
  match p with
  | MacOSX64 | MacOSArm => "vscode-server-darwin-" +:+ Arch_str a +:+ "-web"
  | LinuxX64 | LinuxArm => "vscode-server-linux-" +:+ Arch_str a +:+ "-web"
  | WindowsX64 | WindowsArm => "vscode-server-win32-" +:+ Arch_str a +:+ "-web"
  end.

(** private getBuildName *)
Definition getBuildName (b : IBuild) : M FS string :=
  let effectivePlatform := default platform (buildPlatform b) in
  let effectiveArch := default arch (buildArch b) in
  if isWeb (runtime b) then ret (getBuildName_server effectivePlatform effectiveArch)
  else if decide (flavor b <> Cli) then
    match effectivePlatform with
    | MacOSX64 | MacOSArm =>
        ret (if decide (quality b = Insider)
             then "Visual Studio Code - Insiders.app" else "Visual Studio Code.app")
    | LinuxX64 | LinuxArm => ret ("VSCode-linux-" +:+ Arch_str effectiveArch)
    | WindowsX64 | WindowsArm =>
        do buildMeta <- fetchBuildMeta
                          (buildOf (runtime b) (commit b) (quality b) (flavor b)
                             (buildPlatform b) (buildArch b));
        ret ("VSCode-win32-" +:+ Arch_str effectiveArch +:+ "-"
             +:+ productVersion buildMeta)
    end
  else ret (if decide (quality b = Insider) then "code-insiders" else "code").

(** Lines 581-597: the launcher of a server build; a legacy script at its
    fixed place is preferred. *)
Definition serverExecutable (oldLocation newLocation : string) : M FS string :=
  do legacy <- exists_ oldLocation;
  if legacy then ret oldLocation else ret newLocation.

(** async getBuildExecutable *)
Definition getBuildExecutable (b : IBuild) : M FS string :=
  let buildPath := getBuildPath (commit b) (quality b) (flavor b) in
  do buildName <- getBuildName
                    (buildOf (runtime b) (commit b) (quality b) (flavor b)
                       (buildPlatform b) (buildArch b));
  let effectivePlatform := default platform (buildPlatform b) in
  let insider := bool_decide (quality b = Insider) in
  if isWeb (runtime b) then
    match effectivePlatform with
    | MacOSX64 | MacOSArm | LinuxX64 | LinuxArm =>
        serverExecutable
          (join [buildPath; buildName; "server.sh"])
          (join [buildPath; buildName; "bin";
                 if insider then "code-server-insiders" else "code-server"])
    | WindowsX64 | WindowsArm =>
        serverExecutable
          (join [buildPath; buildName; "server.cmd"])
          (join [buildPath; buildName; buildName; "bin";
                 if insider then "code-server-insiders.cmd" else "code-server.cmd"])
    end
  else if decide (flavor b <> Cli) then
    ret match effectivePlatform with
        | MacOSX64 | MacOSArm =>
            join [buildPath; buildName; "Contents"; "MacOS"; "Electron"]
        | LinuxX64 | LinuxArm =>
            join [buildPath; buildName; if insider then "code-insiders" else "code"]
        | WindowsX64 | WindowsArm =>
            join [buildPath; buildName;
                  if insider then "Code - Insiders.exe" else "Code.exe"]
        end
  else
    ret match effectivePlatform with
        | MacOSX64 | MacOSArm | LinuxX64 | LinuxArm => join [buildPath; buildName]
        | WindowsX64 | WindowsArm => join [buildPath; buildName +:+ ".exe"]
        end.

(** The key of lines 303-313 under which the asset of a platform is read; a
    Windows platform has none. *)
Definition assetKey (p : Platform) : option string :=
  match p with
  | MacOSArm => Some "darwin_arm64"
  | MacOSX64 => Some "darwin_x64"
  | LinuxX64 => Some "linux_x64"
  | LinuxArm => Some "linux_arm64"
  | WindowsX64 | WindowsArm => None
  end.

(** The message of line 270. *)
Definition checksumMatchesMessage : string :=
  chalk_gray "[build]" +:+ " " +:+ chalk_green "✔︎"
  +:+ " expected SHA256 checksum matches with download".

(** The message of line 256. *)
Definition deletingMessage (build : IBuild) : string :=
  chalk_gray "[build]" +:+ " deleting "
  +:+ chalk_green (getBuildPath (commit build) (quality build) (flavor build))
  +:+ " and retrying download".

(** The condition of line 276 under which a zip has no top-level folder. *)
Definition flatZip (build : IBuild) : bool :=
  (bool_decide (runtime build = DesktopLocal) || bool_decide (runtime build = WebLocal))
  && bool_decide (flavor build = Default)
  && (bool_decide (platform = WindowsX64) || bool_decide (platform = WindowsArm)).

(** The condition of line 274: every flavor but the installers is unzipped. *)
Definition isArchiveFlavor (f : Flavor) : bool :=
  bool_decide (f = Default) || bool_decide (f = Cli) || bool_decide (f = DarwinUniversal).

Definition unzippingMessage (path destination : string) : string :=
  chalk_gray "[build]" +:+ " unzipping " +:+ chalk_green path +:+ " to "
  +:+ chalk_green destination +:+ "...".
End MoreBuilds.

(** ** What a run may leave behind *)

(** An event that only reports: a log line, a trace line, a console error. *)
Definition is_report (e : Event) : bool :=
  match e with
  | LOGGER_log _ | LOGGER_trace _ | console_error _ => true
  | _ => false
  end.

(** [st'] comes from [st] by reports and at most [n] [jsonGet] queries: the
    file system is the same and nothing else happened. *)
Definition reads_only {FS} (n : nat) (st st' : State FS) : Prop :=
  fs st' = fs st
  /\ exists evs,
       trace st' = trace st ++ evs
       /\ Forall (fun e => is_report e = true \/ exists u, e = NetJsonGet u) evs
       /\ (network_calls evs <= n)%nat.

(** A reference that is not shaped like a date (or is absent): it is taken
    as a literal commit. *)
Definition literalRef (ref : option string) : Prop :=
  forall r, ref = Some r -> dateRegex_test r = false.

(** ** A concrete environment for the examples

    A UTC host with plain path functions and uncoloured output, a file system
    that is a list of paths with their contents, and a world whose answers
    are given as functions. *)

(** Days between 1970-01-01 and a civil date, [m] in 1..12. *)
Definition days_from_civil (y m d : Z) : Z :=
  let y := if m <=? 2 then y - 1 else y in
  let era := y / 400 in
  let yoe := y - era * 400 in
  let mp := (m + 9) mod 12 in
  let doy := (153 * mp + 2) / 5 + d - 1 in
  let doe := yoe * 365 + yoe / 4 - yoe / 100 + doy in
  era * 146097 + doe - 719468.

(** [new Date(year, monthIndex, day).getTime()] on a UTC host: a year from 0
    to 99 counts from 1900, months and days overflow into the next unit. *)
Definition utc_Date_local (year monthIndex day : Z) : Z :=
  let year := if (0 <=? year) && (year <=? 99) then 1900 + year else year in
  (days_from_civil (year + monthIndex / 12) (monthIndex mod 12 + 1) 1 + day - 1)
  * 86400000.

(** The civil date of a day counted from 1970-01-01. *)
Definition civil_from_days (z : Z) : Z * Z * Z :=
  let z := z + 719468 in
  let era := z / 146097 in
  let doe := z - era * 146097 in
  let yoe := (doe - doe / 1460 + doe / 36524 - doe / 146096) / 365 in
  let doy := doe - (365 * yoe + yoe / 4 - yoe / 100) in
  let mp := (5 * doy + 2) / 153 in
  let d := doy - (153 * mp + 2) / 5 + 1 in
  let m := if mp <? 10 then mp + 3 else mp - 9 in
  (if m <=? 2 then yoe + era * 400 + 1 else yoe + era * 400, m, d).

(** A natural number in decimal, filled with zeros to a width. *)
Definition zero_padded (width : nat) (n : Z) : string :=
  let digits := pretty (Z.abs n) in
  string_of_list_ascii (replicate (width - String.length digits) "0"%char) +:+ digits.

(** [new Date(t).toISOString().split('T')[0]]: four digits for the years 0 to
    9999, a sign and six digits for the others. *)
Definition utc_isoDay (t : Z) : string :=
  let '(y, m, d) := civil_from_days (t / 86400000) in
  (if (0 <=? y) && (y <=? 9999) then zero_padded 4 y
   else (if y <? 0 then "-" else "+") +:+ zero_padded 6 y)
  +:+ "-" +:+ zero_padded 2 m +:+ "-" +:+ zero_padded 2 d.

Definition days_in_month (y m : Z) : Z :=
  if m =? 2 then
    if ((y mod 4 =? 0) && negb (y mod 100 =? 0)) || (y mod 400 =? 0) then 29 else 28
  else if (m =? 4) || (m =? 6) || (m =? 9) || (m =? 11) then 30
  else 31.

(** A run of exactly [width] decimal digits. *)
Definition fixed_digits (width : nat) (s : string) : option Z :=
  if bool_decide (String.length s = width) then Number s else None.

(** The days of [YYYY-MM-DD]. *)
Definition parse_iso_date (s : string) : option Z :=
  match split "-"%char s with
  | [y; m; d] =>
      y ← fixed_digits 4 y; m ← fixed_digits 2 m; d ← fixed_digits 2 d;
      if (1 <=? m) && (m <=? 12) && (1 <=? d) && (d <=? days_in_month y m)
      then Some (days_from_civil y m d) else None
  | _ => None
  end.

(** The milliseconds of a fraction of a second: its first three digits. *)
Definition parse_fraction (s : string) : option Z :=
  match chars s with
  | [] => None
  | cs =>
      if forallb is_digit cs
      then Number (string_of_list_ascii (take 3 (cs ++ ["0"; "0"]%char)))
      else None
  end.

(** The milliseconds of [HH:mm], [HH:mm:ss] or [HH:mm:ss.sss], with or without
    the final [Z]. *)
Definition parse_iso_time (s : string) : option Z :=
  let body :=
    match rev (chars s) with
    | "Z"%char :: r => string_of_list_ascii (rev r)
    | _ => s
    end in
  let clock (hh mm : string) (rest : option Z) : option Z :=
    h ← fixed_digits 2 hh; m ← fixed_digits 2 mm; r ← rest;
    if (h <=? 23) && (m <=? 59) then Some ((h * 60 + m) * 60000 + r) else None in
  match split ":"%char body with
  | [hh; mm] => clock hh mm (Some 0)
  | [hh; mm; ss] =>
      clock hh mm
        match split "."%char ss with
        | [sec] => sec ← fixed_digits 2 sec; if sec <=? 59 then Some (sec * 1000) else None
        | [sec; frac] =>
            sec ← fixed_digits 2 sec; ms ← parse_fraction frac;
            if sec <=? 59 then Some (sec * 1000 + ms) else None
        | _ => None
        end
  | _ => None
  end.

(** [new Date(s).getTime()] on a UTC host for the ISO forms of a date, the
    date alone or the date and the time of day in UTC
    ([2023-03-14], [2023-03-14T10:30:00.000Z]); these are the forms of the
    sample histories, any other string is taken as invalid. *)
Definition utc_Date_parse (s : string) : option Z :=
  match split "T"%char s with
  | [day] => days ← parse_iso_date day; Some (days * 86400000)
  | [day; time] =>
      days ← parse_iso_date day; ms ← parse_iso_time time;
      Some (days * 86400000 + ms)
  | _ => None
  end.

Definition sim_join (parts : list string) : string :=
  match parts with
  | [] => "."
  | p :: ps => fold_left (fun acc q => acc +:+ "/" +:+ q) ps p
  end.

Definition sim_dirname (p : string) : string :=
  substring0 p (lastIndexOf p "/").

Definition SimHost (p : Platform) (a : Arch) : Host := {|
  platform := p;
  arch := a;
  Arch_str := fun a => match a with X64 => "x64" | Arm64 => "arm64" end;
  Platform_str := fun p =>
    match p with
    | MacOSX64 => "1" | MacOSArm => "2" | LinuxX64 => "3"
    | LinuxArm => "4" | WindowsX64 => "5" | WindowsArm => "6"
    end;
  VSCodiumInsider_str := "vscodium-insider";
  isDockerCliFlavor := fun f => match f with OtherFlavor _ => true | _ => false end;
  cwd := "/work";
  join := sim_join;
  dirname := sim_dirname;
  getBuildPath := fun c q f => "/builds/" +:+ c;
  chalk_green := id;
  chalk_gray := id;
  chalk_red := id;
  Date_local := utc_Date_local;
  Date_parse := utc_Date_parse;
  Date_isoDay := utc_isoDay;
  JSON_parse_history := fun _ => inl (Thrown "SyntaxError");
  patch_product_json := fun c => inr c
|}.

(** The same host reading a given history from every history file. *)
Definition SimHostWith (p : Platform) (a : Arch) (h : list HistoryEntry) : Host := {|
  platform := p;
  arch := a;
  Arch_str := @Arch_str (SimHost p a);
  Platform_str := @Platform_str (SimHost p a);
  VSCodiumInsider_str := @VSCodiumInsider_str (SimHost p a);
  isDockerCliFlavor := @isDockerCliFlavor (SimHost p a);
  cwd := @cwd (SimHost p a);
  join := sim_join;
  dirname := sim_dirname;
  getBuildPath := @getBuildPath (SimHost p a);
  chalk_green := id;
  chalk_gray := id;
  chalk_red := id;
  Date_local := utc_Date_local;
  Date_parse := utc_Date_parse;
  Date_isoDay := @Date_isoDay (SimHost p a);
  JSON_parse_history := fun _ => inr h;
  patch_product_json := fun c => inr c
|}.

Definition SimFS : Type := list (string * string).

Definition sim_lookup (fs : SimFS) (p : string) : option string :=
  snd <$> List.find (fun e => bool_decide (e.1 = p)) fs.

Definition sim_exists (fs : SimFS) (p : string) : bool :=
  bool_decide (is_Some (sim_lookup fs p)).

Definition sim_read (fs : SimFS) (p : string) : Exn + string :=
  match sim_lookup fs p with
  | Some c => inr c
  | None => inl (Thrown ("ENOENT: " +:+ p))
  end.

Definition sim_write (fs : SimFS) (p c : string) : Exn + SimFS := inr ((p, c) :: fs).

Definition sim_rm (fs : SimFS) (p : string) : Exn + SimFS :=
  if sim_exists fs p
  then inr (List.filter (fun e => negb (String.prefix p e.1)) fs)
  else inl (Thrown ("ENOENT: " +:+ p)).

Definition sim_unzip (fs : SimFS) (src dst : string) : Exn + SimFS :=
  if sim_exists fs src then inr ((dst, "") :: fs)
  else inl (Thrown ("ENOENT: " +:+ src)).

Definition sim_sha256 (fs : SimFS) (p : string) : Exn + string :=
  match sim_lookup fs p with
  | Some c => inr ("sha256 of " +:+ c)
  | None => inl (Thrown ("ENOENT: " +:+ p))
  end.

Definition SimFileSystem : FileSystem SimFS := {|
  fs_exists := sim_exists;
  fs_readFile := sim_read;
  fs_writeFile := sim_write;
  fs_rm := sim_rm;
  fs_unzip := sim_unzip;
  fs_sha256 := sim_sha256;
  fs_store := sim_write
|}.

(** A world given by its three answers; a spawned tool succeeds and changes
    nothing. *)
Definition SimWorld
    (meta : list Event -> string -> Exn + IBuildMetadata)
    (commits : list Event -> string -> Exn + list string)
    (file : list Event -> string -> Exn + string) : World SimFS := {|
  net_json_meta := meta;
  net_json_commits := commits;
  net_file := file;
  spawn_run := fun _ fs _ _ =>
    ({| sp_error := None; sp_status := Some 0; sp_stderr := None |}, fs)
|}.

(** *** Sample worlds, histories and builds *)

Definition offline {A} : list Event -> string -> Exn + A :=
  fun _ _ => inl (Thrown "network unreachable").

(** A network that is down, each failure telling how many events came before
    it, so that two failures of one run differ. *)
Definition failing {A} : list Event -> string -> Exn + A :=
  fun t _ => inl (Thrown ("request failed after " +:+ pretty (length t) +:+ " events")).

Definition aStableBuild : IBuild :=
  {| kind := {| runtime := DesktopLocal; quality := Stable; flavor := Default;
                buildPlatform := None; buildArch := None |};
     commit := "c0ffee"; date := None; version := None; assets := None |}.

(** A remote that lists two commits, newest first. *)
Definition twoCommits : list Event -> string -> Exn + list string :=
  fun _ _ => inr ["bbbb"; "aaaa"].

Definition aKind : IBuildKind := kindOf DesktopLocal Stable Default.

(** A local history of one build, and a file system holding the stable
    history file that [SimHostWith] parses to it. *)
Definition oneEntry : list HistoryEntry :=
  [ {| h_commit := "aaaa"; h_date := None; h_version := None; h_assets := None |} ].

Definition historyFS : SimFS := [("/work/vscode_stable_history.json", "<history>")].

(** A remote that lists no commit. *)
Definition noCommits : list Event -> string -> Exn + list string :=
  fun _ _ => inr [].

(** A local history of three dated builds, oldest first as the scrapers write
    it. *)
Definition threeEntries : list HistoryEntry :=
  [ {| h_commit := "c1"; h_date := Some (DateString "2023-03-10");
       h_version := Some "1.76.0"; h_assets := None |};
    {| h_commit := "c2"; h_date := Some (DateString "2023-03-14");
       h_version := Some "1.76.1"; h_assets := None |};
    {| h_commit := "c3"; h_date := Some (DateString "2023-03-17");
       h_version := Some "1.76.2"; h_assets := None |} ].

Definition historyBuild (h : HistoryEntry) : IBuild :=
  buildOfEntry DesktopLocal Stable Default h.

(** The builds of [threeEntries] as [fetchAllBuilds] returns them: newest
    first. *)
Definition threeBuilds : list IBuild := historyBuild <$> rev threeEntries.




(** A remote whose metadata names an archive and a checksum. *)
Definition someMeta : IBuildMetadata :=
  {| url := "https://cdn.example/stable/c0ffee/code-stable-x64-1700000000.tar.gz";
     meta_version := "c0ffee"; productVersion := "1.85.0";
     sha256hash := "expected-checksum" |}.

Definition metaOnline : list Event -> string -> Exn + IBuildMetadata :=
  fun _ _ => inr someMeta.

Definition fileOnline : list Event -> string -> Exn + string :=
  fun _ _ => inr "corrupted body".

(** A cache that already holds the Linux archive of [aStableBuild]. *)
Definition cachedFS : SimFS :=
  [("/builds/c0ffee/code-stable-x64-1700000000.tar.gz", "cached archive")].

(** A cache that already holds the macOS archive of [aStableBuild]. *)
Definition cachedMacFS : SimFS :=
  [("/builds/c0ffee/VSCode-darwin.zip", "cached archive")].

(** A build of the alternate channel with an asset map. *)
Definition aVSCodiumBuild : IBuild :=
  {| kind := {| runtime := DesktopLocal; quality := VSCodiumInsider; flavor := Default;
                buildPlatform := None; buildArch := None |};
     commit := "abcdef"; date := None; version := Some "1.85.0.23343";
     assets := Some {[ "darwin_arm64" := "https://example/VSCodium-darwin-arm64.zip";
                       "linux_x64" := "https://example/VSCodium-linux-x64.tar.gz";
                       "win32_x64" := "https://example/VSCodium-win32-x64.zip" ]} |}.

(** A local history of the alternate channel: two records of one version
    (a rebuild), each with its asset map, oldest first. *)
Definition vscodiumEntries : list HistoryEntry :=
  [ {| h_commit := "v1-first"; h_date := None; h_version := Some "1.85.0.23343";
       h_assets := Some {[ "linux_x64" := "https://example/VSCodium-linux-x64-a.tar.gz" ]} |};
    {| h_commit := "v1-rebuild"; h_date := None; h_version := Some "1.85.0.23343";
       h_assets := Some {[ "linux_x64" := "https://example/VSCodium-linux-x64-b.tar.gz" ]} |} ].

Definition vscodiumFS : SimFS := [("/work/vscodium_insider_history.json", "<history>")].

Definition aVSCodiumKind : IBuildKind := kindOf DesktopLocal VSCodiumInsider Default.

(** Whether [getBuildName] queries the metadata of a build: a desktop
    runtime, a flavor other than CLI, and a Windows platform. *)
Definition buildNameNeedsMetadata `{!Host} (build : IBuild) : bool :=
  negb (isWeb (runtime build))
  && bool_decide (flavor build <> Cli)
  && match default platform (buildPlatform build) with
     | WindowsX64 | WindowsArm => true
     | _ => false
     end.

(** The extension of a server archive: a tarball on Linux, a zip elsewhere. *)
Definition serverArchiveExt (p : Platform) : string :=
  match p with
  | LinuxX64 | LinuxArm => ".tar.gz"
  | _ => ".zip"
  end.

(** The legacy launcher of a server build, lines 582 and 591. *)
Definition legacyLauncher (p : Platform) : string :=
  match p with
  | WindowsX64 | WindowsArm => "server.cmd"
  | _ => "server.sh"
  end.

(** A Windows default-flavor build and the state right after its archive was
    stored. *)
Definition aWindowsBuild : IBuild :=
  {| kind := {| runtime := DesktopLocal; quality := Stable; flavor := Default;
                buildPlatform := None; buildArch := None |};
     commit := "c0ffee"; date := None; version := None; assets := None |}.

Definition windowsArchive : string := "/builds/c0ffee/VSCode-win32-x64-1.85.0.zip".

Definition windowsFS : SimFS := [(windowsArchive, "archive")].

(** An installer build for Windows. *)
Definition anInstallerBuild : IBuild :=
  {| kind := {| runtime := DesktopLocal; quality := Stable;
                flavor := WindowsUserInstaller;
                buildPlatform := None; buildArch := None |};
     commit := "c0ffee"; date := None; version := None; assets := None |}.

(** A remote whose metadata carries the checksum that [SimFileSystem]
    computes for the body served by [fileOnline]. *)
Definition matchingMeta : IBuildMetadata :=
  {| url := "https://cdn.example/stable/c0ffee/VSCodeUserSetup-x64-1.85.0.exe";
     meta_version := "c0ffee"; productVersion := "1.85.0";
     sha256hash := "sha256 of corrupted body" |}.

Definition metaMatching : list Event -> string -> Exn + IBuildMetadata :=
  fun _ _ => inr matchingMeta.

(** A cache that holds the build folder of [aStableBuild] and its macOS
    archive. *)
Definition cachedFolderFS : SimFS :=
  [("/builds/c0ffee", ""); ("/builds/c0ffee/VSCode-darwin.zip", "cached archive")].

(** A cache that holds the folder of [aVSCodiumBuild]. *)
Definition vscodiumCachedFS : SimFS := [("/builds/abcdef", "")].

(** The messages of lines 324, 332 and 337. *)
Definition vscodiumCachedMessage `{!Host} (folder : string) : string :=
  chalk_gray "[build]" +:+ " using VSCodium cached at " +:+ chalk_green folder.

Definition vscodiumDownloadingMessage `{!Host} (url : string) : string :=
  chalk_gray "[build]" +:+ " downloading VSCodium from " +:+ chalk_green url +:+ "...".

Definition vscodiumExtractingMessage `{!Host} (destination : string) : string :=
  chalk_gray "[build]" +:+ " extracting VSCodium to " +:+ chalk_green destination +:+ "...".

(** The archive of lines 319-321. *)
Definition vscodiumArchive `{!Host} (build : IBuild) (ext : string) : string :=
  join [getBuildPath (commit build) (quality build) (flavor build);
        "VSCodium-" +:+ str_of (version build) +:+ ext].

(** The launcher of a server build that has no legacy script, lines 587 and
    596: on a Windows platform the build name occurs twice. *)
Definition serverLauncher `{!Host} (b : IBuild) (buildName : string) : string :=
  let buildPath := getBuildPath (commit b) (quality b) (flavor b) in
  let insider := bool_decide (quality b = Insider) in
  match default platform (buildPlatform b) with
  | WindowsX64 | WindowsArm =>
      join [buildPath; buildName; buildName; "bin";
            if insider then "code-server-insiders.cmd" else "code-server.cmd"]
  | _ =>
      join [buildPath; buildName; "bin";
            if insider then "code-server-insiders" else "code-server"]
  end.

(** A cache that holds the legacy launcher of a Linux server build. *)
Definition legacyServerFS : SimFS :=
  [("/builds/c0ffee/vscode-server-linux-x64-web/server.sh", "#!/bin/sh")].

Definition aServerBuild : IBuild :=
  {| kind := {| runtime := WebLocal; quality := Insider; flavor := Default;
                buildPlatform := None; buildArch := None |};
     commit := "c0ffee"; date := None; version := None; assets := None |}.

(** * Properties *)

(** ** Strings *)

Lemma String_length_append (a b : string) :
  String.length (a +:+ b) = (String.length a + String.length b)%nat.
Proof. induction a as [|c a IH]; simpl; [done | by rewrite IH]. Qed.

Lemma prefix_append (needle post : string) :
  String.prefix needle (needle +:+ post) = true.
Proof.
  induction needle as [|c n IH]; simpl.
  - by destruct post.
  - destruct (ascii_dec c c); [apply IH | done].
Qed.

Lemma includes_middle (pre needle post : string) :
  includes (pre +:+ needle +:+ post) needle = true.
Proof.
  unfold includes. induction pre as [|c pre IH].
  - change ("" +:+ needle +:+ post) with (needle +:+ post).
    pose proof (prefix_append needle post) as Hp.
    destruct (needle +:+ post); cbn [includes_from]; by rewrite Hp.
  - change (String c pre +:+ needle +:+ post)
      with (String c (pre +:+ needle +:+ post)).
    cbn [includes_from]. rewrite IH. apply orb_true_r.
Qed.

Lemma String_append_assoc (a b c : string) : (a +:+ b) +:+ c = a +:+ b +:+ c.
Proof.
  induction a as [|x a IH]; [done |].
  change (String x ((a +:+ b) +:+ c) = String x (a +:+ b +:+ c)). by rewrite IH.
Qed.

(** Sanity checks of the string and list helpers on the values of the
    source's comments and of the specification. *)
Example dateRegex_test_date : dateRegex_test "15-03-2023" = true.
Proof. reflexivity. Qed.

Example dateRegex_test_short_date : dateRegex_test "5-3-2023" = true.
Proof. reflexivity. Qed.

Example dateRegex_test_two_digit_year : dateRegex_test "15-03-23" = false.
Proof. reflexivity. Qed.

Example dateRegex_test_commit :
  dateRegex_test "807bf598bea406dcb272a9fced54697986e87768" = false.
Proof. reflexivity. Qed.

Example split_date :
  Number <$> split "-"%char "15-03-2023" = [Some 15; Some 3; Some 2023].
Proof. reflexivity. Qed.

Example last_segment_url :
  last_segment
    "https://az764295.vo.msecnd.net/insider/807bf598bea406dcb272a9fced54697986e87768/code-insider-x64-1639979337.tar.gz"
  = "code-insider-x64-1639979337.tar.gz".
Proof. reflexivity. Qed.

Example slice_inner : slice [10; 11; 12; 13; 14] 1 (3 + 1) = [11; 12; 13].
Proof. reflexivity. Qed.

Example slice_empty_history : slice ([] : list Z) 0 (-1 + 1) = [].
Proof. reflexivity. Qed.

Example slice_negative_end : slice [10; 11; 12] 0 (-1) = [10; 11].
Proof. reflexivity. Qed.

Example substring0_zip :
  substring0 "/b/VSCode-win32-x64-1.85.0.zip" (lastIndexOf "/b/VSCode-win32-x64-1.85.0.zip" ".zip")
  = "/b/VSCode-win32-x64-1.85.0".
Proof. reflexivity. Qed.

Example utc_Date_local_2023_03_15 : utc_Date_local 2023 2 15 = 1678838400000.
Proof. reflexivity. Qed.

(** The Linux cases of [getPlatformName] fall through into the Windows
    cases for a flavor they do not list. *)
Example getPlatformName_fallthrough :
  @getPlatformName (SimHost LinuxX64 X64) (kindOf DesktopLocal Stable WindowsUserInstaller)
  = "win32-x64-user".
Proof. reflexivity. Qed.

(** ** The monad *)

Lemma bind_inr_inv {FS A B} (m : M FS A) (k : A -> M FS B) st b st' :
  bind m k st = (inr b, st') ->
  exists a s1, m st = (inr a, s1) /\ k a s1 = (inr b, st').
Proof.
  unfold bind. destruct (m st) as [[e | a] s1]; [done |]. eauto.
Qed.

Lemma bind_run {FS A B} (m : M FS A) (k : A -> M FS B) st a s1 :
  m st = (inr a, s1) -> bind m k st = k a s1.
Proof. intros Hm. unfold bind. by rewrite Hm. Qed.

(** ** Lists: [slice] and [indexOf] *)

Lemma slice_all {A} (l : list A) :
  slice l 0 (Z.of_nat (length l) - 1 + 1) = l.
Proof.
  unfold slice. cbn [Z.ltb Z.compare].
  replace (Z.of_nat (length l) - 1 + 1) with (Z.of_nat (length l)) by lia.
  destruct (Z.ltb_spec (Z.of_nat (length l)) 0) as [Hneg | _]; [lia |].
  rewrite Z.min_id, Z.min_l by lia. cbn [Z.to_nat drop].
  rewrite Z.sub_0_r, Nat2Z.id. apply firstn_all.
Qed.

(** Inside the list, [slice l b (g + 1)] is the run of the elements at the
    positions [b], ..., [g]. *)
Lemma slice_inclusive {A} (l : list A) (b g : Z) :
  0 <= b -> b < g -> g < Z.of_nat (length l) ->
  slice l b (g + 1) = take (Z.to_nat (g - b + 1)) (drop (Z.to_nat b) l)
  /\ Z.of_nat (length (slice l b (g + 1))) = g - b + 1
  /\ forall i : nat, (Z.of_nat i <= g - b) ->
       slice l b (g + 1) !! i = l !! (Z.to_nat b + i)%nat.
Proof.
  intros Hb Hbg Hg. unfold slice.
  destruct (Z.ltb_spec b 0) as [? | _]; [lia |].
  destruct (Z.ltb_spec (g + 1) 0) as [? | _]; [lia |].
  rewrite !Z.min_l by lia.
  replace (g + 1 - b) with (g - b + 1) by lia.
  split; [done |]. split.
  - rewrite length_take, length_drop. lia.
  - intros i Hi. rewrite lookup_take_lt by lia. apply lookup_drop.
Qed.

(** ** Platform naming *)

Section NamingFacts.
Context `{!Host}.

(** C6 (amended). For a web-local or web-remote runtime, whatever the flavor
    and the quality, [getBuildApiName] is [server-linux-<arch>-web] on the
    Linux platforms and [server-win32-<arch>-web] on the Windows platforms,
    with the effective architecture in the name; on both macOS platforms it
    is the fixed name [server-darwin-web]. *)
Theorem getBuildApiName_web (k : IBuildKind) :
  isWeb (runtime k) = true ->
  let a := Arch_str (default arch (buildArch k)) in
  match default platform (buildPlatform k) with
  | MacOSX64 | MacOSArm => getBuildApiName k = "server-darwin-web"
  | LinuxX64 | LinuxArm =>
      getBuildApiName k = "server-linux-" +:+ a +:+ "-web"
      /\ includes (getBuildApiName k) a = true
  | WindowsX64 | WindowsArm =>
      getBuildApiName k = "server-win32-" +:+ a +:+ "-web"
      /\ includes (getBuildApiName k) a = true
  end.
Proof.
  intros Hweb a. unfold getBuildApiName. rewrite Hweb. fold a.
  destruct (default platform (buildPlatform k));
    first [ reflexivity | split; [reflexivity | apply includes_middle] ].
Qed.

End NamingFacts.

Lemma getBuildApiName_web_witness :
  isWeb WebRemote = true
  /\ (@getBuildApiName (SimHost LinuxX64 X64) (kindOf WebRemote Insider Cli)
      = "server-linux-x64-web"
      /\ includes (@getBuildApiName (SimHost LinuxX64 X64) (kindOf WebRemote Insider Cli))
           "x64" = true).
Proof.
  split; [reflexivity |].
  exact (@getBuildApiName_web (SimHost LinuxX64 X64) (kindOf WebRemote Insider Cli)
           eq_refl).
Defined.

(** C6, as stated, fails on a macOS platform: on an Apple-silicon host the
    name of a web-local stable build is [server-darwin-web], which does not
    contain [arm64] and is not of the form [server-<os>-arm64-web]. *)
Lemma getBuildApiName_web_macos_counterexample :
  let name := @getBuildApiName (SimHost MacOSArm Arm64) (kindOf WebLocal Stable Default) in
  isWeb WebLocal = true
  /\ name = "server-darwin-web"
  /\ includes name (@Arch_str (SimHost MacOSArm Arm64) Arm64) = false
  /\ ~ exists os : string,
         name = "server-" +:+ os +:+ "-"
                +:+ @Arch_str (SimHost MacOSArm Arm64) Arm64 +:+ "-web".
Proof.
  cbv zeta. split; [reflexivity |]. split; [reflexivity |]. split; [reflexivity |].
  intros [os Hos].
  change (@getBuildApiName (SimHost MacOSArm Arm64) (kindOf WebLocal Stable Default))
    with "server-darwin-web" in Hos.
  assert (Hlen : String.length os = 0%nat).
  { apply (f_equal String.length) in Hos.
    rewrite !String_length_append in Hos. cbn in Hos. lia. }
  destruct os; [| discriminate Hlen]. vm_compute in Hos. discriminate Hos.
Qed.

(** ** The metadata fetcher *)

Section MetadataFacts.
Context {FS : Type} `{!Host} `{!FileSystem FS} `{!World FS}.

(** A query that succeeds is the only one. *)
Lemma fetchBuildMeta_ok (b : IBuild) (st : State FS) (m : IBuildMetadata) :
  net_json_meta (trace st) (fetchBuildMeta_url b (buildPlatform b) (buildArch b)) = inr m ->
  fetchBuildMeta b st
  = (inr m, mkState (fs st)
              (trace st ++ [NetJsonGet (fetchBuildMeta_url b (buildPlatform b) (buildArch b))])).
Proof.
  intros Hq. unfold fetchBuildMeta, try_catch, jsonGet_meta. by rewrite Hq.
Qed.

(** C5. When the metadata query fails on macOS ARM64 with the stable
    quality, [fetchBuildMeta] makes exactly one more query, for the Intel
    macOS platform and the x64 architecture; its answer is returned when it
    succeeds, and the error of the first query is raised when it fails too.
    In every other case the error of the first query is raised and no second
    query is made. *)
Theorem fetchBuildMeta_fallback (b : IBuild) (st : State FS) (error : Exn) :
  let url1 := fetchBuildMeta_url b (buildPlatform b) (buildArch b) in
  let url2 := fetchBuildMeta_url b (Some MacOSX64) (Some X64) in
  let once := mkState (fs st) (trace st ++ [NetJsonGet url1]) in
  let twice := mkState (fs st) (trace st ++ [NetJsonGet url1; NetJsonGet url2]) in
  net_json_meta (trace st) url1 = inl error ->
  (default platform (buildPlatform b) = MacOSArm -> quality b = Stable ->
     (forall m, net_json_meta (trace once) url2 = inr m ->
                fetchBuildMeta b st = (inr m, twice))
     /\ (forall e2, net_json_meta (trace once) url2 = inl e2 ->
                    fetchBuildMeta b st = (inl error, twice)))
  /\ (~ (default platform (buildPlatform b) = MacOSArm /\ quality b = Stable) ->
      fetchBuildMeta b st = (inl error, once)).
Proof.
  intros url1 url2 once twice Hq.
  unfold fetchBuildMeta, try_catch, jsonGet_meta. fold url1 url2. rewrite Hq.
  split.
  - intros Hp Hs. rewrite decide_True by done. cbn [trace fs].
    unfold twice. rewrite <- app_assoc. cbn [app].
    split; intros r Hr; unfold once in Hr; cbn [trace] in Hr; by rewrite Hr.
  - intros Hn. by rewrite decide_False.
Qed.

End MetadataFacts.

Lemma fetchBuildMeta_fallback_witness :
  let H := SimHost MacOSArm Arm64 in
  let W := SimWorld failing offline offline in
  let st := mkState ([] : SimFS) [] in
  @net_json_meta _ W (trace st)
    (fetchBuildMeta_url aStableBuild None None)
  = inl (Thrown "request failed after 0 events")
  /\ @net_json_meta _ W [NetJsonGet (fetchBuildMeta_url aStableBuild None None)]
       (fetchBuildMeta_url aStableBuild (Some MacOSX64) (Some X64))
     = inl (Thrown "request failed after 1 events")
  /\ @fetchBuildMeta SimFS H W aStableBuild st
     = (inl (Thrown "request failed after 0 events"),
        mkState []
          [NetJsonGet "https://update.code.visualstudio.com/api/versions/commit:c0ffee/darwin-arm64/stable";
           NetJsonGet "https://update.code.visualstudio.com/api/versions/commit:c0ffee/darwin/stable"]).
Proof.
  intros H W st. split; [reflexivity |]. split; [reflexivity |].
  exact (proj2 (proj1 (@fetchBuildMeta_fallback SimFS H W aStableBuild st _ eq_refl)
                  eq_refl eq_refl) _ eq_refl).
Defined.

(** ** The history source *)

Section HistoryFacts.
Context {FS : Type} `{!Host} `{!FileSystem FS} `{!World FS}.

Lemma loadHistory_failure (q : Quality) (st : State FS) (e : Exn) :
  loadFails q (fs st) e ->
  loadHistory q st
  = (inr [], mkState (fs st)
               (trace st ++ [console_error (loadFailureMessage (historyPath q) e)])).
Proof.
  unfold loadHistory, try_catch, bind, readFileSync, lift, console_error_, emit, ret.
  intros [Hr | (content & Hr & Hp)]; rewrite Hr; [done |]. by rewrite Hp.
Qed.

(** A history file that is read and parsed gives the builds newest first:
    the reverse of the order of the file. *)
Lemma fetchAllBuilds_local (k : IBuildKind) (releasedOnly : option bool)
    (st : State FS) (content : string) (history : list HistoryEntry) :
  fs_readFile (fs st) (historyPath (quality k)) = inr content ->
  JSON_parse_history content = inr history ->
  history <> [] ->
  fetchAllBuilds k releasedOnly false st
  = (inr (buildOfEntry (runtime k) (quality k) (flavor k) <$> rev history),
     mkState (fs st) (trace st ++ [LOGGER_log (loadedMessage (length history))])).
Proof.
  intros Hr Hp Hne.
  unfold fetchAllBuilds, loadHistory, try_catch, bind, readFileSync, lift, ret.
  cbn [negb]. rewrite Hr, Hp.
  rewrite bool_decide_eq_true_2.
  - unfold LOGGER_log_, emit. by rewrite length_rev.
  - rewrite length_rev. destruct history; [done | cbn; lia].
Qed.

(** What the discovery query returns, and the only error it can raise. *)
Lemma discoverBuilds_run (r : Runtime) (q : Quality) (f : Flavor) (released : bool)
    (st : State FS) :
  let url := commitsUrl q (getBuildApiName (kindOf r q f)) released in
  let t := trace st ++ [LOGGER_log (discoveryMessage url)] in
  discoverBuilds r q f released st
  = (match net_json_commits t url with
     | inr commits => inr ((fun c => buildOf r c q f None None) <$> commits)
     | inl e => inl e
     end,
     mkState (fs st) (t ++ [NetJsonGet url])).
Proof.
  intros url t. unfold discoverBuilds, bind, LOGGER_log_, emit, jsonGet_commits, ret.
  fold url. cbn [trace fs]. fold t. by destruct (net_json_commits t url).
Qed.

(** C8. For every quality, when reading or parsing the local history file
    fails, [loadHistory] logs the failure on the console and returns the
    empty list without raising; [fetchAllBuilds] then runs the remote
    discovery query, and what it returns or raises is what that query
    returns or raises: the error of the load never reaches the caller. *)
Theorem fetchAllBuilds_load_failure (k : IBuildKind) (releasedOnly : option bool)
    (st : State FS) (e : Exn) :
  loadFails (quality k) (fs st) e ->
  let logged :=
    mkState (fs st)
      (trace st ++ [console_error (loadFailureMessage (historyPath (quality k)) e)]) in
  let url :=
    commitsUrl (quality k)
      (getBuildApiName (kindOf (runtime k) (quality k) (flavor k)))
      (default false releasedOnly) in
  let t := trace logged ++ [LOGGER_log (discoveryMessage url)] in
  loadHistory (quality k) st = (inr [], logged)
  /\ fetchAllBuilds k releasedOnly false st
     = discoverBuilds (runtime k) (quality k) (flavor k) (default false releasedOnly) logged
  /\ fetchAllBuilds k releasedOnly false st
     = (match net_json_commits t url with
        | inr commits =>
            inr ((fun c => buildOf (runtime k) c (quality k) (flavor k) None None)
                   <$> commits)
        | inl e' => inl e'
        end,
        mkState (fs st) (t ++ [NetJsonGet url])).
Proof.
  intros Hfail logged url t.
  pose proof (loadHistory_failure _ _ _ Hfail) as Hload. fold logged in Hload.
  assert (Hall : fetchAllBuilds k releasedOnly false st
                 = discoverBuilds (runtime k) (quality k) (flavor k)
                     (default false releasedOnly) logged).
  { unfold fetchAllBuilds. cbn [negb]. unfold bind at 1. by rewrite Hload. }
  split; [done |]. split; [done |].
  rewrite Hall. apply discoverBuilds_run.
Qed.

End HistoryFacts.

Lemma fetchAllBuilds_load_failure_witness :
  let H := SimHost LinuxX64 X64 in
  let W := SimWorld offline twoCommits offline in
  let st := mkState ([] : SimFS) [] in
  @loadFails SimFS H SimFileSystem Stable (fs st) (Thrown "ENOENT: /work/vscode_stable_history.json")
  /\ @fetchAllBuilds SimFS H SimFileSystem W aKind None false st
     = (inr [buildOf DesktopLocal "bbbb" Stable Default None None;
             buildOf DesktopLocal "aaaa" Stable Default None None],
        mkState []
          [console_error
             "Failed to load history from /work/vscode_stable_history.json: ENOENT: /work/vscode_stable_history.json";
           LOGGER_log
             "[build] fetching all builds from https://update.code.visualstudio.com/api/commits/stable/linux-x64?released=false...";
           NetJsonGet
             "https://update.code.visualstudio.com/api/commits/stable/linux-x64?released=false"]).
Proof.
  intros H W st.
  assert (Hf : @loadFails SimFS H SimFileSystem Stable (fs st)
                 (Thrown "ENOENT: /work/vscode_stable_history.json"))
    by (left; reflexivity).
  split; [exact Hf |].
  exact (proj2 (proj2 (@fetchAllBuilds_load_failure SimFS H SimFileSystem W aKind None st _ Hf))).
Defined.

Section RangeFacts.
Context {FS : Type} `{!Host} `{!FileSystem FS} `{!World FS}.

Lemma indexOf_from_spec (c : string) (builds : list IBuild) (i j : Z) :
  indexOf_from i c builds = Some j ->
  i <= j < i + Z.of_nat (length builds)
  /\ exists b, builds !! Z.to_nat (j - i) = Some b /\ commit b = c.
Proof.
  revert i. induction builds as [|b rest IH]; intros i; cbn [indexOf_from]; [done |].
  destruct (decide (commit b = c)) as [Hc | Hc].
  - intros [= <-]. split; [cbn [length]; lia |].
    exists b. by rewrite Z.sub_diag.
  - intros Hj. destruct (IH _ Hj) as [Hr (b' & Hl & Hb')].
    split; [cbn [length]; lia |]. exists b'. split; [| done].
    replace (Z.to_nat (j - i)) with (S (Z.to_nat (j - (i + 1)))) by lia. done.
Qed.

Lemma commitIndex_inv (side : string) (ref : option string) (dflt : Z)
    (all : list IBuild) (st st' : State FS) (i : Z) :
  commitIndex side ref dflt all st = (inr i, st') ->
  st' = st /\ (ref = None /\ i = dflt
               \/ exists c, ref = Some c /\ indexOf c all = Some i).
Proof.
  unfold commitIndex. destruct ref as [c |].
  - destruct (indexOf c all) as [j |] eqn:Hj; [| done].
    intros [= <- <-]. split; [done |]. right. eauto.
  - intros [= <- <-]. split; [done |]. by left.
Qed.

(** The indices that [fetchBuilds] resolves lie in the list, but for the
    default good index of an empty list, which is [-1]. *)
Lemma fetchBuilds_resolve_bounds (k : IBuildKind) (good bad : option string)
    (releasedOnly : option bool) (useDiscovery : bool) (st st1 : State FS) (r : Resolved) :
  fetchBuilds_resolve k good bad releasedOnly useDiscovery st = (inr r, st1) ->
  0 <= badCommitIndex r
  /\ -1 <= goodCommitIndex r < Z.of_nat (length (allBuilds r)).
Proof.
  unfold fetchBuilds_resolve. intros Hrun.
  apply bind_inr_inv in Hrun as (all & s1 & _ & Hrun).
  apply bind_inr_inv in Hrun as (g & s2 & _ & Hrun).
  apply bind_inr_inv in Hrun as (b & s3 & _ & Hrun).
  apply bind_inr_inv in Hrun as (gi & s4 & Hgi & Hrun).
  apply bind_inr_inv in Hrun as (bi & s5 & Hbi & Hrun).
  injection Hrun as <- <-. cbn.
  apply commitIndex_inv in Hgi as [_ Hgi]. apply commitIndex_inv in Hbi as [_ Hbi].
  split.
  - destruct Hbi as [[_ ->] | (c & _ & Hc)]; [lia |].
    apply indexOf_from_spec in Hc. lia.
  - destruct Hgi as [[_ ->] | (c & _ & Hc)]; [lia |].
    apply indexOf_from_spec in Hc. lia.
Qed.

(** The build that the loop of [resolveDateToBuild] ends with is one of the
    builds. *)
Lemma resolveDate_loop_member (target : option Z) (builds : list IBuild) (best : IBuild) :
  (resolveDate_loop target builds).1 = Some best -> best ∈ builds.
Proof.
  unfold resolveDate_loop.
  assert (Hgen : forall acc,
    (fold_left (resolveDate_step target) builds acc).1 = Some best ->
    acc.1 = Some best \/ best ∈ builds).
  { induction builds as [|b l IH]; intros acc; cbn [fold_left]; [by left |].
    intros Hf. destruct (IH _ Hf) as [Hstep | Hin]; [| right; by apply list_elem_of_further].
    unfold resolveDate_step in Hstep.
    destruct (negb _); [by left |].
    destruct (date b ≫= buildTime), target; try by left.
    destruct (match acc.2 with None => true | Some m => _ end); [| by left].
    cbn in Hstep. injection Hstep as ->. right. apply list_elem_of_here. }
  intros Hf. by destruct (Hgen _ Hf).
Qed.

(** A date resolves to the commit of one of the builds. *)
Lemma resolveDateToBuild_member (dateStr : string) (all : list IBuild)
    (st st' : State FS) (c : string) :
  resolveDateToBuild dateStr all st = (inr c, st') -> c ∈ commit <$> all.
Proof.
  unfold resolveDateToBuild. intros Hdate.
  destruct (resolveDate_loop _ all).1 as [best |] eqn:Hbest; [| done].
  apply resolveDate_loop_member in Hbest.
  apply bind_inr_inv in Hdate as (d & s2 & _ & Hdate).
  apply bind_inr_inv in Hdate as (u & s3 & _ & Hdate).
  injection Hdate as <- _. apply list_elem_of_fmap. eauto.
Qed.

(** A reference that is not shaped like a date is kept as it is; one that is
    becomes the commit that the date resolves to. *)
Lemma resolveRef_inv (ref : option string) (all : list IBuild) (st st' : State FS)
    (resolved : option string) :
  resolveRef ref all st = (inr resolved, st') ->
  match ref with
  | None => resolved = None
  | Some c =>
      if dateRegex_test c
      then exists c', resolved = Some c' /\ resolveDateToBuild c all st = (inr c', st')
      else resolved = Some c
  end.
Proof.
  unfold resolveRef. destruct ref as [c |]; [| by intros [= <- <-]].
  destruct (dateRegex_test c); [| by intros [= <- <-]].
  intros Hrun. apply bind_inr_inv in Hrun as (c' & s1 & Hdate & Hret).
  injection Hret as <- <-. eauto.
Qed.

(** The commits that the range error names are the references after this
    resolution. *)
Lemma fetchBuilds_resolve_refs (k : IBuildKind) (good bad : option string)
    (releasedOnly : option bool) (useDiscovery : bool) (st st1 : State FS) (r : Resolved) :
  fetchBuilds_resolve k good bad releasedOnly useDiscovery st = (inr r, st1) ->
  exists s1 s2 s3 : State FS,
    resolveRef good (allBuilds r) s1 = (inr (goodCommit r), s2)
    /\ resolveRef bad (allBuilds r) s2 = (inr (badCommit r), s3).
Proof.
  unfold fetchBuilds_resolve. intros Hrun.
  apply bind_inr_inv in Hrun as (all & s1 & _ & Hrun).
  apply bind_inr_inv in Hrun as (g & s2 & Hg & Hrun).
  apply bind_inr_inv in Hrun as (b & s3 & Hb & Hrun).
  apply bind_inr_inv in Hrun as (gi & s4 & _ & Hrun).
  apply bind_inr_inv in Hrun as (bi & s5 & _ & Hrun).
  injection Hrun as <- <-. cbn. eauto.
Qed.

(** Without references the resolution keeps the defaults. *)
Lemma fetchBuilds_resolve_defaults (k : IBuildKind) (releasedOnly : option bool)
    (useDiscovery : bool) (st st1 : State FS) (all : list IBuild) :
  fetchAllBuilds k releasedOnly useDiscovery st = (inr all, st1) ->
  fetchBuilds_resolve k None None releasedOnly useDiscovery st
  = (inr {| allBuilds := all; goodCommit := None; badCommit := None;
            goodCommitIndex := Z.of_nat (length all) - 1; badCommitIndex := 0 |}, st1).
Proof.
  intros Hall. unfold fetchBuilds_resolve.
  change (fetchAllBuilds (kindOf (runtime k) (quality k) (flavor k)) releasedOnly useDiscovery)
    with (fetchAllBuilds k releasedOnly useDiscovery).
  by rewrite (bind_run _ _ _ _ _ Hall).
Qed.

(** C1 (amended). For every history of N >= 2 builds, [fetchBuilds] without
    a good and without a bad reference (and without exclusions) returns the
    whole list of N builds in the newest-first order of the loaded history. *)
Theorem fetchBuilds_no_references (k : IBuildKind) (releasedOnly : option bool)
    (excludeCommits : option (list string)) (useDiscovery : bool)
    (st st1 : State FS) (all : list IBuild) :
  fetchAllBuilds k releasedOnly useDiscovery st = (inr all, st1) ->
  (2 <= length all)%nat ->
  excludeCommits = None \/ excludeCommits = Some [] ->
  fetchBuilds k None None releasedOnly excludeCommits useDiscovery st = (inr all, st1).
Proof.
  intros Hall Hlen Hex. unfold fetchBuilds.
  rewrite (bind_run _ _ _ _ _ (fetchBuilds_resolve_defaults _ _ _ _ _ _ Hall)).
  unfold fetchBuilds_range. cbn [badCommitIndex goodCommitIndex allBuilds].
  destruct (Z.geb_spec 0 (Z.of_nat (length all) - 1)) as [? | _]; [lia |].
  unfold bind, ret. rewrite slice_all.
  by destruct Hex as [-> | ->].
Qed.

(** With fewer than two builds the range check of line 113 rejects the
    defaults. *)
Lemma fetchBuilds_short_history (k : IBuildKind) (releasedOnly : option bool)
    (excludeCommits : option (list string)) (useDiscovery : bool)
    (st st1 : State FS) (all : list IBuild) :
  fetchAllBuilds k releasedOnly useDiscovery st = (inr all, st1) ->
  (length all < 2)%nat ->
  fetchBuilds k None None releasedOnly excludeCommits useDiscovery st
  = (inl (invalidRangeError None None), st1).
Proof.
  intros Hall Hlen. unfold fetchBuilds.
  rewrite (bind_run _ _ _ _ _ (fetchBuilds_resolve_defaults _ _ _ _ _ _ Hall)).
  unfold fetchBuilds_range. cbn [badCommitIndex goodCommitIndex allBuilds badCommit goodCommit].
  destruct (Z.geb_spec 0 (Z.of_nat (length all) - 1)) as [_ | ?]; [| lia].
  done.
Qed.

End RangeFacts.

Lemma fetchBuilds_no_references_witness :
  let H := SimHost LinuxX64 X64 in
  let W := SimWorld offline twoCommits offline in
  let st := mkState ([] : SimFS) [] in
  let all := [buildOf DesktopLocal "bbbb" Stable Default None None;
              buildOf DesktopLocal "aaaa" Stable Default None None] in
  (2 <= length all)%nat
  /\ exists st1,
       @fetchAllBuilds SimFS H SimFileSystem W aKind None false st = (inr all, st1)
       /\ @fetchBuilds SimFS H SimFileSystem W aKind None None None None false st
          = (inr all, st1).
Proof.
  intros H W st all. split; [cbn; lia |].
  eexists. split; [reflexivity |].
  apply (@fetchBuilds_no_references SimFS H SimFileSystem W aKind None None false st);
    [reflexivity | cbn; lia | by left].
Defined.

(** C1, as stated, fails for N = 1 and for N = 0: a history of one build
    (and an empty one, here the empty answer of the discovery query) is
    loaded, and [fetchBuilds] without references raises the error of the
    range check instead of returning it. *)
Lemma fetchBuilds_no_references_counterexample :
  (let H := SimHostWith LinuxX64 X64 oneEntry in
   let W := SimWorld offline offline offline in
   let st := mkState historyFS [] in
   exists all st1,
     @fetchAllBuilds SimFS H SimFileSystem W aKind None false st = (inr all, st1)
     /\ length all = 1%nat
     /\ @fetchBuilds SimFS H SimFileSystem W aKind None None None None false st
        = (inl (Error "Provided bad commit undefined cannot be older or same as good commit undefined."),
           st1))
  /\ (let H := SimHost LinuxX64 X64 in
      let W := SimWorld offline noCommits offline in
      let st := mkState ([] : SimFS) [] in
      exists st1,
        @fetchAllBuilds SimFS H SimFileSystem W aKind None true st = (inr [], st1)
        /\ @fetchBuilds SimFS H SimFileSystem W aKind None None None None true st
           = (inl (Error "Provided bad commit undefined cannot be older or same as good commit undefined."),
              st1)).
Proof.
  split.
  - cbv zeta. eexists _, _. split; [reflexivity |]. split; reflexivity.
  - cbv zeta. eexists. split; reflexivity.
Qed.

Section RangeCheck.
Context {FS : Type} `{!Host} `{!FileSystem FS} `{!World FS}.

(** The message of the range error names the bad and the good commit. *)
Lemma invalidRangeError_names (bad good : option string) :
  exists message,
    invalidRangeError bad good = Error message
    /\ includes message (chalk_green (str_of bad)) = true
    /\ includes message (chalk_green (str_of good)) = true.
Proof.
  eexists. split; [reflexivity |]. split; [apply includes_middle |].
  rewrite <- (String_append_assoc _ " cannot be older or same as good commit ").
  rewrite <- (String_append_assoc "Provided bad commit ").
  apply includes_middle.
Qed.

(** What the range error prints for one side: the reference itself when it
    is a literal commit, the commit it was resolved to when it is shaped
    like a date, nothing ([undefined]) when it is absent. *)
Lemma fetchBuilds_resolve_named (k : IBuildKind) (good bad : option string)
    (releasedOnly : option bool) (useDiscovery : bool) (st st1 : State FS) (r : Resolved) :
  fetchBuilds_resolve k good bad releasedOnly useDiscovery st = (inr r, st1) ->
  forall ref named,
    (ref = good /\ named = goodCommit r) \/ (ref = bad /\ named = badCommit r) ->
    match ref with
    | None => named = None
    | Some c =>
        if dateRegex_test c
        then exists c' (s s' : State FS),
               named = Some c'
               /\ resolveDateToBuild c (allBuilds r) s = (inr c', s')
               /\ c' ∈ commit <$> allBuilds r
        else named = Some c
    end.
Proof.
  intros Hres ref named Hside.
  destruct (fetchBuilds_resolve_refs _ _ _ _ _ _ _ _ Hres) as (s1 & s2 & s3 & Hg & Hb).
  assert (Hrun : exists s s' : State FS, resolveRef ref (allBuilds r) s = (inr named, s')).
  { destruct Hside as [[-> ->] | [-> ->]]; eauto. }
  destruct Hrun as (s & s' & Hrun). apply resolveRef_inv in Hrun.
  destruct ref as [c |]; [| done].
  destruct (dateRegex_test c); [| done].
  destruct Hrun as (c' & -> & Hdate).
  exists c', s, s'. split; [done |]. split; [done |].
  by eapply resolveDateToBuild_member.
Qed.

(** C3 (amended). Once both indices are resolved, [fetchBuilds] raises the
    range error whenever the bad index is greater than or equal to the good
    index (equal indices included). Its message is "Provided bad commit B
    cannot be older or same as good commit G.", where B and G are, for the
    bad and the good side: the reference as it was given when it is a
    literal commit, the commit that the reference was resolved to when it is
    shaped like a date, and [undefined] when the reference is absent. When
    the bad index is smaller, [fetchBuilds] goes on, and the candidate range
    handed to the exclusion step is the contiguous run of the builds at the
    positions badIndex, ..., goodIndex of the newest-first list. *)
Theorem fetchBuilds_range_invariant (k : IBuildKind) (good bad : option string)
    (releasedOnly : option bool) (excludeCommits : option (list string))
    (useDiscovery : bool) (st st1 : State FS) (r : Resolved) :
  fetchBuilds_resolve k good bad releasedOnly useDiscovery st = (inr r, st1) ->
  let bi := badCommitIndex r in
  let gi := goodCommitIndex r in
  let range := slice (allBuilds r) bi (gi + 1) in
  let printed (ref named : option string) :=
    match ref with
    | None => named = None
    | Some c =>
        if dateRegex_test c
        then exists c' (s s' : State FS),
               named = Some c'
               /\ resolveDateToBuild c (allBuilds r) s = (inr c', s')
               /\ c' ∈ commit <$> allBuilds r
        else named = Some c
    end in
  (bi >= gi ->
     exists B G message,
       printed bad B /\ printed good G
       /\ message = "Provided bad commit " +:+ chalk_green (str_of B)
                    +:+ " cannot be older or same as good commit "
                    +:+ chalk_green (str_of G) +:+ "."
       /\ fetchBuilds k good bad releasedOnly excludeCommits useDiscovery st
          = (inl (Error message), st1)
       /\ includes message (chalk_green (str_of B)) = true
       /\ includes message (chalk_green (str_of G)) = true)
  /\ (bi < gi ->
        fetchBuilds k good bad releasedOnly excludeCommits useDiscovery st
        = fetchBuilds_exclude excludeCommits range st1
        /\ Z.of_nat (length range) = gi - bi + 1
        /\ forall i : nat, Z.of_nat i <= gi - bi ->
             range !! i = allBuilds r !! (Z.to_nat bi + i)%nat).
Proof.
  intros Hres bi gi range printed.
  pose proof (fetchBuilds_resolve_bounds _ _ _ _ _ _ _ _ Hres) as [Hb Hg].
  fold bi in Hb. fold gi in Hg.
  pose proof (fetchBuilds_resolve_named _ _ _ _ _ _ _ _ Hres) as Hnamed.
  unfold fetchBuilds. rewrite (bind_run _ _ _ _ _ Hres).
  unfold fetchBuilds_range. fold bi gi. split.
  - intros Hge. destruct (Z.geb_spec bi gi) as [_ | ?]; [| lia].
    exists (badCommit r), (goodCommit r).
    destruct (invalidRangeError_names (badCommit r) (goodCommit r))
      as (message & Hmsg & Hbad & Hgood).
    exists message.
    split; [apply (Hnamed bad); by right |].
    split; [apply (Hnamed good); by left |].
    split; [by injection Hmsg as <- |].
    split; [unfold bind, throw; by rewrite Hmsg |]. done.
  - intros Hlt. destruct (Z.geb_spec bi gi) as [? | _]; [lia |].
    split; [done |].
    destruct (slice_inclusive (allBuilds r) bi gi) as (_ & Hlen & Hlook); [lia.. |].
    by split.
Qed.

End RangeCheck.

Lemma fetchBuilds_range_invariant_witness :
  let H := SimHostWith LinuxX64 X64 threeEntries in
  let W := SimWorld offline offline offline in
  let st := mkState historyFS [] in
  let st1 := mkState historyFS [LOGGER_log "[build] loaded 3 builds from local history json..."] in
  let r := {| allBuilds := threeBuilds; goodCommit := Some "c2"; badCommit := Some "c2";
              goodCommitIndex := 1; badCommitIndex := 1 |} in
  @fetchBuilds_resolve SimFS H SimFileSystem W aKind (Some "c2") (Some "c2") None false st
  = (inr r, st1)
  /\ @fetchBuilds SimFS H SimFileSystem W aKind (Some "c2") (Some "c2") None None false st
     = (inl (Error "Provided bad commit c2 cannot be older or same as good commit c2."), st1).
Proof.
  intros H W st st1 r.
  assert (Hres : @fetchBuilds_resolve SimFS H SimFileSystem W aKind (Some "c2") (Some "c2")
                   None false st = (inr r, st1)) by reflexivity.
  split; [exact Hres |].
  destruct (proj1 (@fetchBuilds_range_invariant SimFS H SimFileSystem W aKind _ _ _
                     None _ st st1 r Hres))
    as (B & G & message & HB & HG & -> & Hrun & _); [cbn; lia |].
  change (B = Some "c2") in HB. change (G = Some "c2") in HG.
  rewrite HB, HG in Hrun. exact Hrun.
Defined.

(** C3, as stated, fails for references shaped like dates: the range error
    names the commits that the dates were resolved to and neither of the two
    references. *)
Lemma fetchBuilds_range_invariant_counterexample :
  let H := SimHostWith LinuxX64 X64 threeEntries in
  let W := SimWorld offline offline offline in
  let st := mkState historyFS [] in
  let message := "Provided bad commit c1 cannot be older or same as good commit c3." in
  dateRegex_test "17-03-2023" = true
  /\ dateRegex_test "10-03-2023" = true
  /\ (exists st1 r,
        @fetchBuilds_resolve SimFS H SimFileSystem W aKind (Some "17-03-2023")
          (Some "10-03-2023") None false st
        = (inr r, st1)
        /\ badCommitIndex r = 2 /\ goodCommitIndex r = 0
        /\ @fetchBuilds SimFS H SimFileSystem W aKind (Some "17-03-2023")
             (Some "10-03-2023") None None false st
           = (inl (Error message), st1))
  /\ includes message "17-03-2023" = false
  /\ includes message "10-03-2023" = false.
Proof.
  cbv zeta. split; [reflexivity |]. split; [reflexivity |].
  split; [eexists _, _; repeat split; reflexivity |]. split; reflexivity.
Qed.

(** ** Exclusions *)

Section ExclusionFacts.
Context {FS : Type} `{!Host} `{!FileSystem FS} `{!World FS}.

(** Over distinct commits, the filter removes as many builds as there are
    excluded commits in the list. *)
Lemma filter_excluded_length (excluded : gset string) (range : list IBuild) :
  NoDup (commit <$> range) ->
  (length (filter (fun b => commit b ∉ excluded) range)
   + size (excluded ∩ list_to_set (commit <$> range)) = length range)%nat.
Proof.
  induction range as [|b l IH]; intros Hnd.
  - cbn. replace (excluded ∩ ∅) with (∅ : gset string) by set_solver. done.
  - rewrite fmap_cons in Hnd. apply NoDup_cons in Hnd as [Hb Hl].
    specialize (IH Hl). rewrite fmap_cons, list_to_set_cons, filter_cons.
    assert (Hfresh : commit b ∉ (list_to_set (commit <$> l) : gset string))
      by (by rewrite elem_of_list_to_set).
    destruct (decide (commit b ∉ excluded)) as [Hout | Hin].
    + replace (excluded ∩ ({[commit b]} ∪ list_to_set (commit <$> l)))
        with (excluded ∩ list_to_set (commit <$> l)) by set_solver.
      cbn [length]. lia.
    + apply dec_stable in Hin.
      replace (excluded ∩ ({[commit b]} ∪ list_to_set (commit <$> l)))
        with ({[commit b]} ∪ excluded ∩ list_to_set (commit <$> l)) by set_solver.
      rewrite size_union by set_solver. rewrite size_singleton.
      cbn [length]. lia.
Qed.

(** Excluding commits that do not occur in the range changes nothing. *)
Lemma filter_excluded_absent (excluded : gset string) (range : list IBuild) :
  excluded ∩ list_to_set (commit <$> range) = ∅ ->
  filter (fun b => commit b ∉ excluded) range = range.
Proof.
  induction range as [|b l IH]; [done |].
  rewrite fmap_cons, list_to_set_cons. intros Hdisj.
  rewrite filter_cons, decide_True by set_solver. rewrite IH; [done | set_solver].
Qed.

(** One excluded commit that occurs in the range removes exactly one build. *)
Lemma filter_excluded_one (c : string) (range : list IBuild) :
  NoDup (commit <$> range) ->
  c ∈ commit <$> range ->
  S (length (filter (fun b => commit b ∉ ({[c]} : gset string)) range)) = length range.
Proof.
  intros Hnd Hc.
  pose proof (filter_excluded_length {[c]} range Hnd) as Hlen.
  replace (({[c]} : gset string) ∩ list_to_set (commit <$> range))
    with ({[c]} : gset string) in Hlen.
  - rewrite size_singleton in Hlen. lia.
  - apply set_eq. intros x. rewrite elem_of_intersection, elem_of_list_to_set.
    rewrite elem_of_singleton. naive_solver.
Qed.

(** The exclusion step never raises; it logs the number of removed builds
    when there is one. *)
Lemma fetchBuilds_exclude_run (excludeCommits : option (list string))
    (range : list IBuild) (st : State FS) :
  NoDup (commit <$> range) ->
  let excluded : gset string := list_to_set (default [] excludeCommits) in
  let present := excluded ∩ list_to_set (commit <$> range) in
  fetchBuilds_exclude excludeCommits range st
  = (inr (filter (fun b => commit b ∉ excluded) range),
     mkState (fs st)
       (trace st ++ if decide (size present = 0%nat) then []
                    else [LOGGER_log (excludedMessage (size present))])).
Proof.
  intros Hnd.
  assert (Hempty : forall excluded : gset string, excluded = ∅ ->
    ret range st
    = (inr (filter (fun b => commit b ∉ excluded) range) : Exn + list IBuild,
       mkState (fs st)
         (trace st ++ if decide (size (excluded ∩ list_to_set (commit <$> range)) = 0%nat)
                      then [] else [LOGGER_log (excludedMessage
                        (size (excluded ∩ list_to_set (commit <$> range))))]))).
  { intros excluded Hex. unfold ret.
    assert (Hdisj : excluded ∩ list_to_set (commit <$> range) = ∅) by set_solver.
    rewrite filter_excluded_absent by done. rewrite Hdisj.
    rewrite size_empty, decide_True by done. destruct st; by rewrite app_nil_r. }
  unfold fetchBuilds_exclude.
  destruct excludeCommits as [[|c cs] |]; cbv zeta; simpl default;
    [ by apply Hempty | | by apply Hempty ].
  set (excluded := list_to_set (c :: cs) : gset string).
  set (present := excluded ∩ list_to_set (commit <$> range)).
  pose proof (filter_excluded_length excluded range Hnd) as Hlen. fold present in Hlen.
  unfold bind, when_, ret, LOGGER_log_, emit.
  destruct (decide (size present = 0%nat)) as [Hz | Hnz].
  - rewrite bool_decide_eq_true_2 by lia. cbn [negb]. destruct st; by rewrite app_nil_r.
  - rewrite bool_decide_eq_false_2 by lia. cbn [negb trace fs].
    replace (length range - length (filter (fun b => commit b ∉ excluded) range))%nat
      with (size present) by lia.
    done.
Qed.

(** C9. When the commits of the computed range are distinct, for every
    list of excluded commits [fetchBuilds] returns the range without the
    builds whose commit is excluded: the returned length is the length of
    the range less the number of (distinct) excluded commits that occur in
    the range, one entry for each, and nothing for an excluded commit that
    does not occur. The exclusion raises no error; it logs the removed count
    when it is not zero. *)
Theorem fetchBuilds_exclusion (k : IBuildKind) (good bad : option string)
    (releasedOnly : option bool) (excludeCommits : option (list string))
    (useDiscovery : bool) (st st1 : State FS) (range : list IBuild) :
  fetchBuilds k good bad releasedOnly None useDiscovery st = (inr range, st1) ->
  NoDup (commit <$> range) ->
  let excluded : gset string := list_to_set (default [] excludeCommits) in
  let present := excluded ∩ list_to_set (commit <$> range) in
  let result := filter (fun b => commit b ∉ excluded) range in
  fetchBuilds k good bad releasedOnly excludeCommits useDiscovery st
  = (inr result,
     mkState (fs st1)
       (trace st1 ++ if decide (size present = 0%nat) then []
                     else [LOGGER_log (excludedMessage (size present))]))
  /\ (length result + size present = length range)%nat
  /\ (forall b, b ∈ result <-> (b ∈ range /\ ~ commit b ∈ (default [] excludeCommits)))
  /\ (forall c, c ∈ (default [] excludeCommits) -> c ∈ (commit <$> range) ->
        exists b, b ∈ range /\ commit b = c /\ (b ∉ result)
                  /\ forall b', b' ∈ range -> commit b' = c -> b' = b).
Proof.
  intros Hrun Hnd excluded present result.
  unfold fetchBuilds in Hrun |- *.
  apply bind_inr_inv in Hrun as (r & s1 & Hres & Hrun).
  apply bind_inr_inv in Hrun as (range' & s2 & Hrange & Hrun).
  injection Hrun as -> ->.
  rewrite (bind_run _ _ _ _ _ Hres), (bind_run _ _ _ _ _ Hrange).
  split; [by apply fetchBuilds_exclude_run |].
  split; [by apply filter_excluded_length |].
  split.
  - intros b. unfold result. rewrite list_elem_of_filter.
    unfold excluded. rewrite elem_of_list_to_set. tauto.
  - intros c Hc Hin. apply list_elem_of_fmap in Hin as (b & -> & Hb).
    exists b. split; [done |]. split; [done |]. split.
    + unfold result. rewrite list_elem_of_filter. intros [Hout _].
      apply Hout. unfold excluded. by rewrite elem_of_list_to_set.
    + intros b' Hb' Heq.
      apply list_elem_of_lookup in Hb as [i Hi]. apply list_elem_of_lookup in Hb' as [j Hj].
      assert (i = j) as ->.
      { apply (NoDup_lookup _ _ _ (commit b) Hnd); rewrite list_lookup_fmap.
        - by rewrite Hi. - rewrite Hj. cbn. by rewrite Heq. }
      congruence.
Qed.

End ExclusionFacts.

Lemma fetchBuilds_exclusion_witness :
  let H := SimHostWith LinuxX64 X64 threeEntries in
  let W := SimWorld offline offline offline in
  let st := mkState historyFS [] in
  let loaded := LOGGER_log "[build] loaded 3 builds from local history json..." in
  NoDup (commit <$> threeBuilds)
  /\ @fetchBuilds SimFS H SimFileSystem W aKind None None None None false st
     = (inr threeBuilds, mkState historyFS [loaded])
  /\ @fetchBuilds SimFS H SimFileSystem W aKind None None None (Some ["c2"; "zz"]) false st
     = (inr (historyBuild <$>
              [ {| h_commit := "c3"; h_date := Some (DateString "2023-03-17");
                   h_version := Some "1.76.2"; h_assets := None |};
                {| h_commit := "c1"; h_date := Some (DateString "2023-03-10");
                   h_version := Some "1.76.0"; h_assets := None |} ]),
        mkState historyFS
          [loaded; LOGGER_log "[build] excluded 1 commit from bisecting"]).
Proof.
  intros H W st loaded.
  assert (Hnd : NoDup (commit <$> threeBuilds)).
  { apply (bool_decide_unpack _). vm_compute. exact I. }
  assert (Hrun : @fetchBuilds SimFS H SimFileSystem W aKind None None None None false st
                 = (inr threeBuilds, mkState historyFS [loaded])) by reflexivity.
  split; [exact Hnd |]. split; [exact Hrun |].
  rewrite (proj1 (@fetchBuilds_exclusion SimFS H SimFileSystem W aKind None None None
                    (Some ["c2"; "zz"]) false st _ _ Hrun Hnd)).
  vm_compute. reflexivity.
Defined.

(** ** The reference resolver: dates *)



Section DateFacts.
Context {FS : Type} `{!Host} `{!FileSystem FS} `{!World FS}.




End DateFacts.

Section DateResolution.
Context {FS : Type} `{!Host} `{!FileSystem FS} `{!World FS}.




End DateResolution.



(** ** Acquisition *)

Section AcquisitionFacts.
Context {FS : Type} `{!Host} `{!FileSystem FS} `{!World FS}.

(** On a Windows host no branch of lines 303-313 reads the asset map. *)
Lemma vscodiumAsset_windows (m : gmap string string) :
  platform = WindowsX64 \/ platform = WindowsArm ->
  vscodiumAsset m = (None, ".zip").
Proof. unfold vscodiumAsset. by intros [-> | ->]. Qed.

(** A build without an asset map is rejected first, on every platform. *)
Lemma downloadAndExtractVSCodium_no_assets (build : IBuild) (options : option bool)
    (st : State FS) :
  assets build = None ->
  downloadAndExtractVSCodium build options st = (inl (missingAssetsError build), st).
Proof. intros Ha. unfold downloadAndExtractVSCodium. by rewrite Ha. Qed.

(** C10 (amended). On a Windows host (WindowsX64 or WindowsArm)
    [downloadAndExtractVSCodium] always fails before any download and leaves
    the state as it was: for every build that carries an asset map, whatever
    the map contains, with the error "No VSCodium asset found for current
    platform", since no Windows branch selects an asset URL; a build without
    an asset map is rejected by the guard of line 295, with its own error. *)
Theorem downloadAndExtractVSCodium_windows (build : IBuild) (options : option bool)
    (st : State FS) :
  platform = WindowsX64 \/ platform = WindowsArm ->
  downloadAndExtractVSCodium build options st
  = (inl (match assets build with
          | Some _ => noAssetError build
          | None => missingAssetsError build
          end), st)
  /\ exists rest,
       noAssetError build
       = Error ("No VSCodium asset found for current platform" +:+ rest).
Proof.
  intros Hwin. split; [| by eexists].
  destruct (assets build) as [m |] eqn:Ha.
  - unfold downloadAndExtractVSCodium. rewrite Ha, (vscodiumAsset_windows m Hwin). done.
  - by apply downloadAndExtractVSCodium_no_assets.
Qed.

(** The metadata fetcher leaves the file system alone and downloads nothing. *)
Lemma fetchBuildMeta_effects (b : IBuild) (st st1 : State FS) r :
  fetchBuildMeta b st = (r, st1) ->
  fs st1 = fs st /\ downloads (trace st1) = downloads (trace st).
Proof.
  unfold fetchBuildMeta, try_catch, jsonGet_meta, throw.
  destruct (net_json_meta (trace st) _) as [e | m].
  - destruct (decide _).
    + cbn [trace fs]. destruct (net_json_meta _ _); intros [= <- <-]; cbn;
        unfold downloads; rewrite !List.filter_app; cbn; by rewrite !app_nil_r.
    + intros [= <- <-]. cbn. unfold downloads. rewrite List.filter_app. cbn.
      by rewrite app_nil_r.
  - intros [= <- <-]. cbn. unfold downloads. rewrite List.filter_app. cbn.
    by rewrite app_nil_r.
Qed.

(** Without a metadata query the download name is a pure value. *)
Lemma getBuildDownloadName_static (b : IBuild) :
  needsMetadata b = false ->
  exists name, forall st : State FS, getBuildDownloadName b st = (inr name, st).
Proof.
  unfold needsMetadata, getBuildDownloadName. intros Hn.
  destruct (isWeb (runtime b)); [eexists; intros st; reflexivity |].
  destruct (decide (flavor b <> Cli)) as [Hf | Hf]; [| eexists; intros st; reflexivity].
  rewrite bool_decide_eq_true_2 in Hn by done. cbn in Hn.
  destruct (default platform (buildPlatform b)); try discriminate Hn;
    eexists; intros st; reflexivity.
Qed.

(** With a metadata query the download name costs exactly that query. *)
Lemma getBuildDownloadName_effects (b : IBuild) (st st1 : State FS) r :
  getBuildDownloadName b st = (r, st1) ->
  fs st1 = fs st /\ downloads (trace st1) = downloads (trace st).
Proof.
  destruct (needsMetadata b) eqn:Hn.
  - unfold needsMetadata in Hn. unfold getBuildDownloadName.
    apply andb_prop in Hn as [Hn Hp]. apply andb_prop in Hn as [Hw Hf].
    apply negb_true_iff in Hw. apply bool_decide_eq_true_1 in Hf.
    rewrite Hw, decide_True by done.
    destruct (default platform (buildPlatform b)); try discriminate Hp;
      unfold bind;
      destruct (fetchBuildMeta _ st) as [[e | m] s1] eqn:Hm;
      apply fetchBuildMeta_effects in Hm; by intros [= <- <-].
  - destruct (getBuildDownloadName_static b Hn) as [name Hname].
    rewrite Hname. by intros [= <- <-].
Qed.

(** Away from macOS ARM64 a metadata fetch that succeeds is one query. *)
Lemma fetchBuildMeta_once (b : IBuild) (st st1 : State FS) (m : IBuildMetadata) :
  default platform (buildPlatform b) <> MacOSArm ->
  fetchBuildMeta b st = (inr m, st1) ->
  st1 = mkState (fs st)
          (trace st ++ [NetJsonGet (fetchBuildMeta_url b (buildPlatform b) (buildArch b))]).
Proof.
  intros Hp. unfold fetchBuildMeta, try_catch, jsonGet_meta, throw.
  destruct (net_json_meta (trace st) _) as [e | m'].
  - rewrite decide_False by (by intros [? _]). done.
  - by intros [= _ <-].
Qed.

(** When the download name needs the metadata, computing it is that one
    query. *)
Lemma getBuildDownloadName_query (b : IBuild) (st st1 : State FS) (name : string) :
  needsMetadata b = true ->
  getBuildDownloadName b st = (inr name, st1) ->
  st1 = mkState (fs st)
          (trace st ++ [NetJsonGet (fetchBuildMeta_url b (buildPlatform b) (buildArch b))]).
Proof.
  unfold needsMetadata, getBuildDownloadName. intros Hn.
  apply andb_prop in Hn as [Hn Hp]. apply andb_prop in Hn as [Hw Hf].
  apply negb_true_iff in Hw. apply bool_decide_eq_true_1 in Hf.
  rewrite Hw, decide_True by done.
  destruct (default platform (buildPlatform b)) eqn:Hplat; try discriminate Hp;
    unfold bind;
    destruct (fetchBuildMeta _ st) as [[e | m] s1] eqn:Hm; try done;
    intros [= _ <-];
    apply (fetchBuildMeta_once
             (buildOf (runtime b) (commit b) (quality b) (flavor b)
                (buildPlatform b) (buildArch b)) st s1 m);
    try done; cbn [buildOf kind buildPlatform]; by rewrite Hplat.
Qed.

(** C2 (amended). For every primary-channel build (the quality is not the
    alternate channel, the flavor is not a docker CLI flavor), once the
    download name is computed, if the cache path exists and forceReDownload
    is unset, [downloadAndExtractBuild] returns the cached path, downloads
    nothing and leaves the file system unchanged. It makes no network call
    at all when the name needs no metadata (a web runtime, the CLI flavor, a
    macOS host); for the other builds (desktop, not CLI, on Linux or Windows)
    the name computation is exactly one metadata query, for the commit, the
    platform name and the quality of the build, made before the cache check:
    the run adds that query and then the trace line of the cache hit. *)
Theorem downloadAndExtractBuild_cached (build : IBuild) (options : option bool)
    (st st1 : State FS) (buildName : string) :
  quality build <> VSCodiumInsider ->
  isDockerCliFlavor (flavor build) = false ->
  default false options = false ->
  getBuildDownloadName (stripped build) st = (inr buildName, st1) ->
  fs_exists (fs st1) (cachePath build buildName) = true ->
  let path := cachePath build buildName in
  let final := mkState (fs st1) (trace st1 ++ [LOGGER_trace (cachedMessage path)]) in
  let query :=
    "https://update.code.visualstudio.com/api/versions/commit:" +:+ commit build
    +:+ "/"
    +:+ getPlatformName (kindOf (runtime build) (quality build) (flavor build))
    +:+ "/" +:+ Quality_str (quality build) in
  downloadAndExtractBuild build options st = (inr (Some path), final)
  /\ fs final = fs st
  /\ downloads (trace final) = downloads (trace st)
  /\ (needsMetadata (stripped build) = false ->
      st1 = st /\ network_calls (trace final) = network_calls (trace st))
  /\ (needsMetadata (stripped build) = true ->
      trace final = trace st ++ [NetJsonGet query; LOGGER_trace (cachedMessage path)]
      /\ network_calls (trace final) = S (network_calls (trace st))).
Proof.
  intros Hq Hd Hforce Hname Hex path final query.
  pose proof (getBuildDownloadName_effects _ _ _ _ Hname) as [Hfs Hdl].
  split; [| split; [done | split; [| split]]].
  - unfold downloadAndExtractBuild. rewrite decide_False, Hd by done.
    rewrite (bind_run _ _ _ _ _ Hname). unfold bind at 1, exists_.
    fold path. unfold path at 1. rewrite Hex, Hforce. done.
  - unfold final. cbn [trace]. unfold downloads in *.
    rewrite List.filter_app. cbn. by rewrite app_nil_r.
  - intros Hn. destruct (getBuildDownloadName_static _ Hn) as [name Hstatic].
    rewrite Hstatic in Hname. injection Hname as -> ->. split; [done |].
    unfold final. cbn [trace]. unfold network_calls.
    rewrite List.filter_app. cbn. by rewrite app_nil_r.
  - intros Hn. pose proof (getBuildDownloadName_query _ _ _ _ Hn Hname) as Hst1.
    assert (Htrace : trace final
                     = trace st ++ [NetJsonGet query; LOGGER_trace (cachedMessage path)]).
    { unfold final. rewrite Hst1. cbn [trace]. by rewrite <- app_assoc. }
    split; [done |]. rewrite Htrace. unfold network_calls.
    rewrite List.filter_app, length_app. cbn. lia.
Qed.

End AcquisitionFacts.

Lemma downloadAndExtractVSCodium_windows_witness :
  let H := SimHost WindowsX64 X64 in
  let W := SimWorld offline offline fileOnline in
  let st := mkState ([] : SimFS) [] in
  (@platform H = WindowsX64 \/ @platform H = WindowsArm)
  /\ is_Some (assets aVSCodiumBuild)
  /\ @downloadAndExtractVSCodium SimFS H SimFileSystem W aVSCodiumBuild None st
     = (inl (Error "No VSCodium asset found for current platform (5) in build 1.85.0.23343"),
        st).
Proof.
  intros H W st. split; [by left |]. split; [by eexists |].
  exact (proj1 (@downloadAndExtractVSCodium_windows SimFS H SimFileSystem W
                  aVSCodiumBuild None st (or_introl eq_refl))).
Defined.

(** C10, as stated, fails for a build without an asset map, such as the
    builds the discovery query yields: on a Windows host it is rejected with
    the missing-assets error, not with the no-asset error. *)
Lemma downloadAndExtractVSCodium_windows_counterexample :
  let H := SimHost WindowsX64 X64 in
  let W := SimWorld offline offline fileOnline in
  let st := mkState ([] : SimFS) [] in
  let build := buildOf DesktopLocal "abcdef" VSCodiumInsider Default None None in
  @platform H = WindowsX64
  /\ @downloadAndExtractVSCodium SimFS H SimFileSystem W build None st
     = (inl (Error "VSCodium build undefined (commit abcdef) is missing assets map."), st)
  /\ @downloadAndExtractVSCodium SimFS H SimFileSystem W build None st
     <> (inl (@noAssetError H build), st).
Proof. cbv zeta. split; [reflexivity |]. split; [reflexivity | discriminate]. Qed.

Lemma downloadAndExtractBuild_cached_witness :
  let H := SimHost MacOSX64 X64 in
  let W := SimWorld offline offline offline in
  let st := mkState cachedMacFS [] in
  @fs_exists SimFS SimFileSystem cachedMacFS "/builds/c0ffee/VSCode-darwin.zip" = true
  /\ @downloadAndExtractBuild SimFS H SimFileSystem W aStableBuild None st
     = (inr (Some "/builds/c0ffee/VSCode-darwin.zip"),
        mkState cachedMacFS
          [LOGGER_trace "[build] using /builds/c0ffee/VSCode-darwin.zip for the next build to try"])
  /\ network_calls
       (trace (snd (@downloadAndExtractBuild SimFS H SimFileSystem W aStableBuild None st)))
     = 0%nat
  /\ network_calls
       (trace (snd (@downloadAndExtractBuild SimFS (SimHost LinuxX64 X64) SimFileSystem
                      (SimWorld metaOnline offline offline) aStableBuild None
                      (mkState cachedFS []))))
     = 1%nat.
Proof.
  intros H W st. split; [reflexivity |].
  pose proof (@downloadAndExtractBuild_cached SimFS H SimFileSystem W aStableBuild None
                st st "VSCode-darwin.zip" ltac:(discriminate) eq_refl eq_refl eq_refl eq_refl)
    as (Hrun & _ & _ & Hnet & _).
  split; [exact Hrun |]. split.
  - rewrite Hrun. exact (proj2 (Hnet eq_refl)).
  - pose proof (@downloadAndExtractBuild_cached SimFS (SimHost LinuxX64 X64) SimFileSystem
                  (SimWorld metaOnline offline offline) aStableBuild None
                  (mkState cachedFS [])
                  (mkState cachedFS
                     [NetJsonGet "https://update.code.visualstudio.com/api/versions/commit:c0ffee/linux-x64/stable"])
                  "code-stable-x64-1700000000.tar.gz"
                  ltac:(discriminate) eq_refl eq_refl eq_refl eq_refl)
      as (Hrun' & _ & _ & _ & Hquery).
    rewrite Hrun'. exact (proj2 (Hquery eq_refl)).
Defined.

(** C2, as stated, fails for a desktop build on a Linux host: the cache path
    exists and forceReDownload is unset, the cached path is returned, but
    only after one [jsonGet] of the metadata, which the download name is
    taken from. *)
Lemma downloadAndExtractBuild_cached_counterexample :
  let H := SimHost LinuxX64 X64 in
  let W := SimWorld metaOnline offline offline in
  let st := mkState cachedFS [] in
  let path := "/builds/c0ffee/code-stable-x64-1700000000.tar.gz" in
  let run := @downloadAndExtractBuild SimFS H SimFileSystem W aStableBuild None st in
  quality aStableBuild <> VSCodiumInsider
  /\ @isDockerCliFlavor H (flavor aStableBuild) = false
  /\ @fs_exists SimFS SimFileSystem cachedFS path = true
  /\ run = (inr (Some path),
            mkState cachedFS
              [NetJsonGet "https://update.code.visualstudio.com/api/versions/commit:c0ffee/linux-x64/stable";
               LOGGER_trace "[build] using /builds/c0ffee/code-stable-x64-1700000000.tar.gz for the next build to try"])
  /\ network_calls (trace (snd run)) = 1%nat.
Proof. cbv zeta. split; [discriminate |]. repeat split; reflexivity. Qed.

Section IntegrityFacts.
Context {FS : Type} `{!Host} `{!FileSystem FS} `{!World FS}.

(** The message of the integrity error names the expected and the computed
    checksum. *)
Lemma integrityError_names (expected computed : string) :
  exists message,
    integrityError expected computed = Error message
    /\ includes message expected = true
    /\ includes message computed = true.
Proof.
  eexists. split; [reflexivity |]. split.
  - rewrite <- (String_append_assoc _ " expected SHA256 checksum (").
    rewrite <- (String_append_assoc _ (chalk_red _ +:+ _)).
    rewrite <- (String_append_assoc (chalk_gray _)).
    apply includes_middle.
  - rewrite <- (String_append_assoc _ ") does not match with download (").
    rewrite <- (String_append_assoc _ (_ +:+ ") does not match with download (")).
    rewrite <- (String_append_assoc _ (_ +:+ _ +:+ ") does not match with download (")).
    rewrite <- (String_append_assoc _ (_ +:+ _ +:+ _ +:+ ") does not match with download (")).
    rewrite <- (String_append_assoc (chalk_gray _)).
    apply includes_middle.
Qed.

(** C7. For every primary-channel build that is downloaded (a cache miss or
    a forced re-download), when the checksum computed for the downloaded
    artifact differs from the [sha256hash] of the fetched metadata,
    [downloadAndExtractBuild] raises the integrity error, whose message names
    the expected and the computed checksum, and stops there: the file system
    is the one the download left, with the artifact at its path, and the
    download is the last event. *)
Theorem downloadAndExtractBuild_integrity (build : IBuild) (options : option bool)
    (st st1 st2 st3 : State FS) (buildName : string) (meta : IBuildMetadata)
    (body computed : string) (stored : FS) :
  quality build <> VSCodiumInsider ->
  isDockerCliFlavor (flavor build) = false ->
  getBuildDownloadName (stripped build) st = (inr buildName, st1) ->
  let path := cachePath build buildName in
  let pathExists := fs_exists (fs st1) path in
  let forceReDownload := default false options in
  pathExists && negb forceReDownload = false ->
  forcedDelete build pathExists forceReDownload st1 = (inr tt, st2) ->
  fetchBuildMeta (stripped build) st2 = (inr meta, st3) ->
  let t := trace st3 ++ [LOGGER_log (downloadingMessage (url meta))] in
  net_file t (url meta) = inr body ->
  fs_store (fs st3) path body = inr stored ->
  fs_sha256 stored path = inr computed ->
  computed <> sha256hash meta ->
  downloadAndExtractBuild build options st
  = (inl (integrityError (sha256hash meta) computed),
     mkState stored (t ++ [NetFileGet (url meta) path]))
  /\ exists message,
       integrityError (sha256hash meta) computed = Error message
       /\ includes message (sha256hash meta) = true
       /\ includes message computed = true.
Proof.
  intros Hq Hd Hname path pathExists forceReDownload Hmiss Hdel Hmeta t Hbody Hstore Hsha Hne.
  split; [| apply integrityError_names].
  unfold downloadAndExtractBuild. rewrite decide_False, Hd by done.
  rewrite (bind_run _ _ _ _ _ Hname). unfold bind at 1, exists_.
  fold path pathExists forceReDownload. rewrite Hmiss.
  unfold downloadBuild.
  rewrite (bind_run _ _ _ _ _ Hdel), (bind_run _ _ _ _ _ Hmeta).
  unfold bind, LOGGER_log_, emit, fileGet, computeSHA256. cbn [trace fs]. fold t.
  rewrite Hbody, Hstore. cbn [fs]. rewrite Hsha.
  rewrite decide_True by congruence. done.
Qed.

End IntegrityFacts.

Lemma downloadAndExtractBuild_integrity_witness :
  let H := SimHost MacOSX64 X64 in
  let W := SimWorld metaOnline offline fileOnline in
  let st := mkState ([] : SimFS) [] in
  let path := "/builds/c0ffee/VSCode-darwin.zip" in
  let stored : SimFS := [(path, "corrupted body")] in
  @fs_sha256 SimFS SimFileSystem stored path = inr "sha256 of corrupted body"
  /\ "sha256 of corrupted body" <> sha256hash someMeta
  /\ @downloadAndExtractBuild SimFS H SimFileSystem W aStableBuild None st
     = (inl (Error "[build] ✘ expected SHA256 checksum (expected-checksum) does not match with download (sha256 of corrupted body)"),
        mkState stored
          [NetJsonGet "https://update.code.visualstudio.com/api/versions/commit:c0ffee/darwin/stable";
           LOGGER_log "[build] downloading build from https://cdn.example/stable/c0ffee/code-stable-x64-1700000000.tar.gz...";
           NetFileGet "https://cdn.example/stable/c0ffee/code-stable-x64-1700000000.tar.gz" path]).
Proof.
  intros H W st path stored. split; [reflexivity |]. split; [discriminate |].
  exact (proj1 (@downloadAndExtractBuild_integrity SimFS H SimFileSystem W aStableBuild None
                  st st st _ "VSCode-darwin.zip" someMeta "corrupted body"
                  "sha256 of corrupted body" stored
                  ltac:(discriminate) eq_refl eq_refl eq_refl eq_refl eq_refl
                  eq_refl eq_refl eq_refl ltac:(discriminate))).
Defined.

(** * Further properties of the range builder *)

Section IndexFacts.
Context `{!Host}.

Lemma indexOf_from_first (c : string) (builds : list IBuild) (i j : Z) :
  indexOf_from i c builds = Some j ->
  forall (n : nat) b, Z.of_nat n < j - i -> builds !! n = Some b -> commit b <> c.
Proof.
  revert i. induction builds as [|b0 rest IH]; intros i; cbn [indexOf_from]; [done |].
  destruct (decide (commit b0 = c)) as [Hc | Hc].
  - intros [= <-] n b Hn. lia.
  - intros Hj [|n] b Hn Hb.
    + by injection Hb as <-.
    + apply (IH _ Hj n b); [lia | done].
Qed.

Lemma indexOf_from_None (c : string) (builds : list IBuild) (i : Z) :
  indexOf_from i c builds = None -> forall b, b ∈ builds -> commit b <> c.
Proof.
  revert i. induction builds as [|b0 rest IH]; intros i; cbn [indexOf_from].
  - intros _ b Hb. by apply elem_of_nil in Hb.
  - destruct (decide (commit b0 = c)) as [Hc | Hc]; [done |].
    intros Hn b Hb. apply elem_of_cons in Hb as [-> | Hb]; [done |].
    by apply (IH _ Hn).
Qed.

(** A commit of the list is found. *)
Lemma indexOf_complete (c : string) (builds : list IBuild) :
  c ∈ commit <$> builds -> exists j, indexOf c builds = Some j.
Proof.
  intros Hin. unfold indexOf. destruct (indexOf_from 0 c builds) as [j |] eqn:Hj; [eauto |].
  apply list_elem_of_fmap in Hin as (b & -> & Hb).
  by destruct (indexOf_from_None _ _ _ Hj b Hb).
Qed.

(** Among distinct commits, the index of a build's commit is its position. *)
Lemma indexOf_NoDup (builds : list IBuild) (i : nat) (b : IBuild) :
  NoDup (commit <$> builds) -> builds !! i = Some b ->
  indexOf (commit b) builds = Some (Z.of_nat i).
Proof.
  intros Hnd Hi.
  destruct (indexOf_complete (commit b) builds) as [j Hj].
  { apply list_elem_of_fmap. exists b. split; [done |]. by eapply list_elem_of_lookup_2. }
  rewrite Hj. f_equal. unfold indexOf in Hj.
  destruct (indexOf_from_spec _ _ _ _ Hj) as [Hr (b' & Hb' & Hc)].
  rewrite Z.sub_0_r in Hb'.
  assert (Z.to_nat j = i); [| lia].
  apply (NoDup_lookup _ _ _ (commit b) Hnd); rewrite list_lookup_fmap.
  - rewrite Hb'. cbn. by rewrite Hc.
  - by rewrite Hi.
Qed.

(** X1. [indexOf] returns the position of the first build with the commit:
    the build at the returned index has the commit and no build before it
    has; it returns nothing exactly when no build of the list has the
    commit. *)
Theorem indexOf_first (c : string) (builds : list IBuild) :
  match indexOf c builds with
  | Some j =>
      0 <= j < Z.of_nat (length builds)
      /\ (exists b, builds !! Z.to_nat j = Some b /\ commit b = c)
      /\ forall (n : nat) b, (n < Z.to_nat j)%nat -> builds !! n = Some b -> commit b <> c
  | None => forall b, b ∈ builds -> commit b <> c
  end.
Proof.
  unfold indexOf. destruct (indexOf_from 0 c builds) as [j |] eqn:Hj.
  - destruct (indexOf_from_spec _ _ _ _ Hj) as [Hr (b & Hb & Hc)].
    rewrite Z.sub_0_r in Hb. split; [lia |]. split; [eauto |].
    intros n b' Hn. apply (indexOf_from_first _ _ _ _ Hj). lia.
  - by apply (indexOf_from_None c builds 0).
Qed.

End IndexFacts.

Section RangeMore.
Context {FS : Type} `{!Host} `{!FileSystem FS} `{!World FS}.

Lemma resolveRef_literal (ref : option string) (all : list IBuild) (st : State FS) :
  literalRef ref -> resolveRef ref all st = (inr ref, st).
Proof.
  intros Hlit. unfold resolveRef. destruct ref as [r |]; [| done].
  by rewrite (Hlit r eq_refl).
Qed.

(** With literal references [fetchBuilds] goes from the loaded builds
    straight to the two index lookups. *)
Lemma fetchBuilds_literal_run (k : IBuildKind) (good bad : option string)
    (releasedOnly : option bool) (excludeCommits : option (list string))
    (useDiscovery : bool) (st st1 : State FS) (all : list IBuild) :
  fetchAllBuilds k releasedOnly useDiscovery st = (inr all, st1) ->
  literalRef good -> literalRef bad ->
  fetchBuilds k good bad releasedOnly excludeCommits useDiscovery st
  = (do gi <- commitIndex "good" good (Z.of_nat (length all) - 1) all;
     do bi <- commitIndex "bad" bad 0 all;
     do range <- fetchBuilds_range
                   {| allBuilds := all; goodCommit := good; badCommit := bad;
                      goodCommitIndex := gi; badCommitIndex := bi |};
     fetchBuilds_exclude excludeCommits range) st1.
Proof.
  intros Hall Hg Hb. unfold fetchBuilds, fetchBuilds_resolve.
  change (fetchAllBuilds (kindOf (runtime k) (quality k) (flavor k)) releasedOnly useDiscovery)
    with (fetchAllBuilds k releasedOnly useDiscovery).
  unfold bind at 1 2. rewrite Hall. unfold bind at 1.
  rewrite (resolveRef_literal _ _ _ Hg). unfold bind at 1.
  rewrite (resolveRef_literal _ _ _ Hb).
  unfold bind, ret. destruct (commitIndex "good" _ _ _ st1) as [[e | gi] s2]; [done |].
  by destruct (commitIndex "bad" _ _ _ s2) as [[e | bi] s3].
Qed.

Lemma indexOf_absent (c : string) (all : list IBuild) :
  c ∉ commit <$> all -> indexOf c all = None.
Proof.
  intros Hc. destruct (indexOf c all) as [j |] eqn:Hj; [| done].
  unfold indexOf in Hj. destruct (indexOf_from_spec _ _ _ _ Hj) as [_ (b & Hl & <-)].
  destruct Hc. apply list_elem_of_fmap. exists b. split; [done |].
  by eapply list_elem_of_lookup_2.
Qed.

(** X2. With literal (not date-shaped) references, a good commit that is not
    in the list of builds makes [fetchBuilds] raise the not-found error
    naming the good commit; a bad commit that is not in the list raises the
    one naming the bad commit when the good reference is absent or found.
    The good side is checked first. Nothing but the loading of the builds
    has happened by then. *)
Theorem fetchBuilds_commit_not_found (k : IBuildKind) (good bad : option string)
    (releasedOnly : option bool) (excludeCommits : option (list string))
    (useDiscovery : bool) (st st1 : State FS) (all : list IBuild) :
  fetchAllBuilds k releasedOnly useDiscovery st = (inr all, st1) ->
  literalRef good -> literalRef bad ->
  (forall g, good = Some g -> g ∉ commit <$> all ->
     fetchBuilds k good bad releasedOnly excludeCommits useDiscovery st
     = (inl (notFoundError "good" g), st1))
  /\ (forall b, bad = Some b -> b ∉ commit <$> all ->
        (good = None \/ exists g, good = Some g /\ g ∈ commit <$> all) ->
        fetchBuilds k good bad releasedOnly excludeCommits useDiscovery st
        = (inl (notFoundError "bad" b), st1)).
Proof.
  intros Hall Hg Hb.
  rewrite (fetchBuilds_literal_run _ _ _ _ _ _ _ _ _ Hall Hg Hb).
  split.
  - intros g -> Hout. unfold bind, commitIndex. by rewrite (indexOf_absent _ _ Hout).
  - intros b -> Hout Hgood. unfold bind at 1. unfold commitIndex at 1.
    destruct Hgood as [-> | (g & -> & Hin)].
    + unfold ret, bind, commitIndex. by rewrite (indexOf_absent _ _ Hout).
    + destruct (indexOf_complete _ _ Hin) as [j ->].
      unfold ret, bind, commitIndex. by rewrite (indexOf_absent _ _ Hout).
Qed.

(** X3. With distinct commits, the literal commit of the build at position
    [i] as the bad reference and the one of the build at a later position
    [j] as the good reference, and no exclusions, [fetchBuilds] returns the
    [j - i + 1] builds from position [i] to position [j]: the range starts
    with the bad build and ends with the good build. *)
Theorem fetchBuilds_between (k : IBuildKind) (releasedOnly : option bool)
    (useDiscovery : bool) (st st1 : State FS) (all : list IBuild)
    (i j : nat) (badBuild goodBuild : IBuild) :
  fetchAllBuilds k releasedOnly useDiscovery st = (inr all, st1) ->
  NoDup (commit <$> all) ->
  all !! i = Some badBuild -> all !! j = Some goodBuild -> (i < j)%nat ->
  dateRegex_test (commit badBuild) = false ->
  dateRegex_test (commit goodBuild) = false ->
  let range := take (j - i + 1) (drop i all) in
  fetchBuilds k (Some (commit goodBuild)) (Some (commit badBuild)) releasedOnly None
    useDiscovery st = (inr range, st1)
  /\ length range = (j - i + 1)%nat
  /\ head range = Some badBuild
  /\ last range = Some goodBuild.
Proof.
  intros Hall Hnd Hi Hj Hlt Hdb Hdg range.
  pose proof (lookup_lt_Some _ _ _ Hj) as Hjlen.
  assert (Hlen : length range = (j - i + 1)%nat).
  { unfold range. rewrite length_take, length_drop. lia. }
  split; [| split; [done | split]].
  - rewrite (fetchBuilds_literal_run _ _ _ _ _ _ _ _ _ Hall);
      [| by intros r [= <-] | by intros r [= <-]].
    unfold bind, commitIndex, ret.
    rewrite (indexOf_NoDup _ _ _ Hnd Hj), (indexOf_NoDup _ _ _ Hnd Hi).
    unfold fetchBuilds_range. cbn [badCommitIndex goodCommitIndex allBuilds].
    destruct (Z.geb_spec (Z.of_nat i) (Z.of_nat j)) as [? | _]; [lia |].
    destruct (slice_inclusive all (Z.of_nat i) (Z.of_nat j)) as (-> & _); [lia.. |].
    unfold fetchBuilds_exclude, ret, range. rewrite Nat2Z.id.
    by replace (Z.to_nat (Z.of_nat j - Z.of_nat i + 1)) with (j - i + 1)%nat by lia.
  - unfold range. rewrite head_lookup, lookup_take_lt by lia.
    rewrite lookup_drop. by rewrite Nat.add_0_r.
  - rewrite last_lookup, Hlen. unfold range. rewrite lookup_take_lt by lia.
    rewrite lookup_drop. replace (i + Init.Nat.pred (j - i + 1))%nat with j by lia. done.
Qed.

(** X4. Whatever the references and the exclusions, the builds that
    [fetchBuilds] returns are builds of the loaded list in their order of
    the list (it neither adds nor reorders builds), and without exclusions
    a returned range holds at least two builds. *)
Theorem fetchBuilds_result_sublist (k : IBuildKind) (good bad : option string)
    (releasedOnly : option bool) (excludeCommits : option (list string))
    (useDiscovery : bool) (st st' : State FS) (result : list IBuild) :
  fetchBuilds k good bad releasedOnly excludeCommits useDiscovery st = (inr result, st') ->
  exists all st1,
    fetchAllBuilds k releasedOnly useDiscovery st = (inr all, st1)
    /\ result `sublist_of` all
    /\ (excludeCommits = None -> (2 <= length result)%nat).
Proof.
  intros Hrun. unfold fetchBuilds in Hrun.
  apply bind_inr_inv in Hrun as (r & s1 & Hres & Hrun).
  apply bind_inr_inv in Hrun as (range & s2 & Hrange & Hex).
  pose proof (fetchBuilds_resolve_bounds _ _ _ _ _ _ _ _ Hres) as [Hb Hg].
  assert (Hall : exists st1, fetchAllBuilds k releasedOnly useDiscovery st
                             = (inr (allBuilds r), st1)).
  { unfold fetchBuilds_resolve in Hres.
    apply bind_inr_inv in Hres as (all & t1 & Hall & Hres).
    apply bind_inr_inv in Hres as (g & t2 & _ & Hres).
    apply bind_inr_inv in Hres as (b & t3 & _ & Hres).
    apply bind_inr_inv in Hres as (gi & t4 & _ & Hres).
    apply bind_inr_inv in Hres as (bi & t5 & _ & Hres).
    injection Hres as <- <-. cbn. eauto. }
  destruct Hall as [st1 Hall]. exists (allBuilds r), st1. split; [done |].
  unfold fetchBuilds_range in Hrange.
  destruct (Z.geb_spec (badCommitIndex r) (goodCommitIndex r)) as [? | Hlt]; [done |].
  injection Hrange as <- <-.
  destruct (slice_inclusive (allBuilds r) (badCommitIndex r) (goodCommitIndex r))
    as (Hslice & Hlen & _); [lia.. |].
  assert (Hsub : slice (allBuilds r) (badCommitIndex r) (goodCommitIndex r + 1)
                 `sublist_of` allBuilds r).
  { rewrite Hslice. etrans; [apply sublist_take | apply sublist_drop]. }
  split.
  - unfold fetchBuilds_exclude in Hex.
    destruct excludeCommits as [[|c cs] |]; [by injection Hex as <- <- | | by injection Hex as <- <-].
    unfold bind, when_, ret, LOGGER_log_, emit in Hex.
    destruct (negb _); injection Hex as <- <-; (etrans; [apply sublist_filter | done]).
  - intros ->. cbn in Hex. injection Hex as <- <-. lia.
Qed.

End RangeMore.

Lemma fetchBuilds_commit_not_found_witness :
  let H := SimHostWith LinuxX64 X64 threeEntries in
  let W := SimWorld offline offline offline in
  let st := mkState historyFS [] in
  let st1 := mkState historyFS [LOGGER_log "[build] loaded 3 builds from local history json..."] in
  @fetchAllBuilds SimFS H SimFileSystem W aKind None false st = (inr threeBuilds, st1)
  /\ ("zz" ∉ commit <$> threeBuilds)
  /\ @fetchBuilds SimFS H SimFileSystem W aKind (Some "zz") None None None false st
     = (inl (Error "Provided good commit zz was not found in the list of builds. It is either invalid or too old."),
        st1).
Proof.
  intros H W st st1.
  assert (Hout : "zz" ∉ commit <$> threeBuilds).
  { apply (bool_decide_unpack _). vm_compute. exact I. }
  split; [reflexivity |]. split; [exact Hout |].
  refine (proj1 (@fetchBuilds_commit_not_found SimFS H SimFileSystem W aKind (Some "zz") None
                   None None false st st1 threeBuilds eq_refl _ _) "zz" eq_refl Hout).
  - intros r [= <-]. reflexivity.
  - intros r Hr. discriminate Hr.
Defined.

Lemma fetchBuilds_between_witness :
  let H := SimHostWith LinuxX64 X64 threeEntries in
  let W := SimWorld offline offline offline in
  let st := mkState historyFS [] in
  let st1 := mkState historyFS [LOGGER_log "[build] loaded 3 builds from local history json..."] in
  NoDup (commit <$> threeBuilds)
  /\ @fetchBuilds SimFS H SimFileSystem W aKind (Some "c1") (Some "c2") None None false st
     = (inr (historyBuild <$>
              [ {| h_commit := "c2"; h_date := Some (DateString "2023-03-14");
                   h_version := Some "1.76.1"; h_assets := None |};
                {| h_commit := "c1"; h_date := Some (DateString "2023-03-10");
                   h_version := Some "1.76.0"; h_assets := None |} ]), st1).
Proof.
  intros H W st st1.
  assert (Hnd : NoDup (commit <$> threeBuilds)).
  { apply (bool_decide_unpack _). vm_compute. exact I. }
  split; [exact Hnd |].
  exact (proj1 (@fetchBuilds_between SimFS H SimFileSystem W aKind None false st st1
                  threeBuilds 1 2 _ _ eq_refl Hnd eq_refl eq_refl ltac:(lia) eq_refl eq_refl)).
Defined.

Lemma fetchBuilds_result_sublist_witness :
  let H := SimHostWith LinuxX64 X64 threeEntries in
  let W := SimWorld offline offline offline in
  let st := mkState historyFS [] in
  exists result st',
    @fetchBuilds SimFS H SimFileSystem W aKind (Some "c1") None None (Some ["c2"]) false st
    = (inr result, st')
    /\ result `sublist_of` threeBuilds.
Proof.
  intros H W st. eexists _, _. split; [reflexivity |].
  destruct (@fetchBuilds_result_sublist SimFS H SimFileSystem W aKind (Some "c1") None None
              (Some ["c2"]) false st _ _ eq_refl) as (all & st1 & Hall & Hsub & _).
  injection Hall as <- _. exact Hsub.
Defined.

(** * What the range builder leaves behind *)

Lemma network_calls_app (a b : list Event) :
  network_calls (a ++ b) = (network_calls a + network_calls b)%nat.
Proof. unfold network_calls. by rewrite List.filter_app, length_app. Qed.

Lemma reads_only_refl {FS} (n : nat) (st : State FS) : reads_only n st st.
Proof.
  split; [done |]. exists []. rewrite app_nil_r. split; [done |].
  split; [constructor | cbn; lia].
Qed.

Lemma reads_only_mono {FS} (n m : nat) (st st' : State FS) :
  (n <= m)%nat -> reads_only n st st' -> reads_only m st st'.
Proof.
  intros Hnm (Hfs & evs & Ht & Hall & Hn). split; [done |].
  exists evs. repeat split; [done | done | lia].
Qed.

Lemma reads_only_trans {FS} (n m : nat) (s0 s1 s2 : State FS) :
  reads_only n s0 s1 -> reads_only m s1 s2 -> reads_only (n + m) s0 s2.
Proof.
  intros (Hfs1 & e1 & Ht1 & Ha1 & Hn1) (Hfs2 & e2 & Ht2 & Ha2 & Hn2).
  split; [congruence |]. exists (e1 ++ e2).
  split; [by rewrite Ht2, Ht1, app_assoc |].
  split; [by apply Forall_app |]. rewrite network_calls_app. lia.
Qed.

(** A report added to the trace. *)
Lemma reads_only_report {FS} (st : State FS) (e : Event) :
  is_report e = true -> reads_only 0 st (mkState (fs st) (trace st ++ [e])).
Proof.
  intros He. split; [done |]. exists [e]. split; [done |].
  split; [by repeat constructor |]. by destruct e.
Qed.

(** A [jsonGet] added to the trace. *)
Lemma reads_only_query {FS} (st : State FS) (u : string) :
  reads_only 1 st (mkState (fs st) (trace st ++ [NetJsonGet u])).
Proof.
  split; [done |]. exists [NetJsonGet u]. split; [done |].
  split; [| cbn; lia]. constructor; [| constructor]. right. eauto.
Qed.

(** Sequencing adds the bounds. *)
Lemma bind_reads_only {FS A B} (n m : nat) (c : M FS A) (k : A -> M FS B) :
  (forall st r st', c st = (r, st') -> reads_only n st st') ->
  (forall a st r st', k a st = (r, st') -> reads_only m st st') ->
  forall st r st', bind c k st = (r, st') -> reads_only (n + m) st st'.
Proof.
  intros Hc Hk st r st'. unfold bind.
  destruct (c st) as [[e | a] s1] eqn:Hcs.
  - intros [= <- <-]. apply (reads_only_mono n); [lia | by eapply Hc].
  - intros Hks. eapply reads_only_trans; [by eapply Hc | by eapply Hk].
Qed.

Section RangeEffects.
Context {FS : Type} `{!Host} `{!FileSystem FS} `{!World FS}.

Lemma loadHistory_reads_only (q : Quality) (st st' : State FS) r :
  loadHistory q st = (r, st') -> reads_only 0 st st'.
Proof.
  unfold loadHistory, try_catch, bind, readFileSync, lift, ret, console_error_, emit.
  destruct (fs_readFile _ _) as [e | content].
  - intros [= <- <-]. by apply reads_only_report.
  - destruct (JSON_parse_history content) as [e | history].
    + intros [= <- <-]. by apply reads_only_report.
    + intros [= <- <-]. apply reads_only_refl.
Qed.

(** [loadHistory] never raises. *)
Lemma loadHistory_total (q : Quality) (st : State FS) :
  exists history st', loadHistory q st = (inr history, st').
Proof.
  unfold loadHistory, try_catch, bind, readFileSync, lift, ret, console_error_, emit.
  destruct (fs_readFile _ _) as [e | content]; [eauto |].
  destruct (JSON_parse_history content) as [e | history]; eauto.
Qed.

Lemma discoverBuilds_reads_only (r0 : Runtime) (q : Quality) (f : Flavor) (released : bool)
    (st st' : State FS) r :
  discoverBuilds r0 q f released st = (r, st') -> reads_only 1 st st'.
Proof.
  rewrite discoverBuilds_run. intros [= <- <-].
  eapply (reads_only_trans 0 1).
  - by apply (reads_only_report st
                (LOGGER_log (discoveryMessage
                   (commitsUrl q (getBuildApiName (kindOf r0 q f)) released)))).
  - apply (reads_only_query (mkState _ _)).
Qed.

Lemma fetchAllBuilds_reads_only (k : IBuildKind) (releasedOnly : option bool)
    (useDiscovery : bool) (st st' : State FS) r :
  fetchAllBuilds k releasedOnly useDiscovery st = (r, st') -> reads_only 1 st st'.
Proof.
  unfold fetchAllBuilds. destruct useDiscovery; cbn [negb].
  - apply discoverBuilds_reads_only.
  - unfold bind at 1. destruct (loadHistory (quality k) st) as [[e | history] s1] eqn:Hload.
    + destruct (loadHistory_total (quality k) st) as (h & s & Hh). congruence.
    + apply loadHistory_reads_only in Hload.
      destruct (bool_decide _).
      * unfold bind, LOGGER_log_, emit, ret. intros [= <- <-].
        apply (reads_only_trans 0 1 _ _ _ Hload).
        apply (reads_only_mono 0); [lia |]. by apply reads_only_report.
      * intros Hd. apply (reads_only_trans 0 1 _ _ _ Hload).
        by eapply discoverBuilds_reads_only.
Qed.

Lemma resolveRef_reads_only (ref : option string) (all : list IBuild)
    (st st' : State FS) r :
  resolveRef ref all st = (r, st') -> reads_only 0 st st'.
Proof.
  unfold resolveRef. destruct ref as [d |]; [| intros [= <- <-]; apply reads_only_refl].
  destruct (dateRegex_test d); [| intros [= <- <-]; apply reads_only_refl].
  unfold bind, resolveDateToBuild.
  destruct (resolveDate_loop _ _).1 as [best |];
    [| intros [= <- <-]; apply reads_only_refl].
  unfold bind, toISODay, LOGGER_log_, emit, ret, throw.
  destruct (timeValue (date best)); intros [= <- <-];
    [by apply reads_only_report | apply reads_only_refl].
Qed.

Lemma commitIndex_reads_only (side : string) (ref : option string) (dflt : Z)
    (all : list IBuild) (st st' : State FS) r :
  commitIndex side ref dflt all st = (r, st') -> reads_only 0 st st'.
Proof.
  unfold commitIndex. destruct ref as [c |]; [destruct (indexOf c all) |];
    intros [= <- <-]; apply reads_only_refl.
Qed.

Lemma fetchBuilds_range_reads_only (res : Resolved) (st st' : State FS) r :
  fetchBuilds_range res st = (r, st') -> reads_only 0 st st'.
Proof.
  unfold fetchBuilds_range. destruct (_ >=? _); intros [= <- <-]; apply reads_only_refl.
Qed.

Lemma fetchBuilds_exclude_reads_only (excludeCommits : option (list string))
    (range : list IBuild) (st st' : State FS) r :
  fetchBuilds_exclude excludeCommits range st = (r, st') -> reads_only 0 st st'.
Proof.
  unfold fetchBuilds_exclude.
  destruct excludeCommits as [[|c cs] |]; try (intros [= <- <-]; apply reads_only_refl).
  unfold bind, when_, ret, LOGGER_log_, emit.
  destruct (negb _); intros [= <- <-]; [by apply reads_only_report | apply reads_only_refl].
Qed.

(** X5. Whatever its arguments and its outcome, [fetchBuilds] leaves the
    file system as it was and adds to the trace only reports (log lines and
    console errors) and at most one [jsonGet], the discovery query: it never
    downloads, deletes or writes. *)
Theorem fetchBuilds_reads_only (k : IBuildKind) (good bad : option string)
    (releasedOnly : option bool) (excludeCommits : option (list string))
    (useDiscovery : bool) (st st' : State FS) (r : Exn + list IBuild) :
  fetchBuilds k good bad releasedOnly excludeCommits useDiscovery st = (r, st') ->
  fs st' = fs st
  /\ exists evs,
       trace st' = trace st ++ evs
       /\ Forall (fun e => is_report e = true \/ exists u, e = NetJsonGet u) evs
       /\ (network_calls evs <= 1)%nat
       /\ downloads evs = 0%nat.
Proof.
  intros Hrun.
  assert (Hro : reads_only 1 st st').
  { revert Hrun. unfold fetchBuilds, fetchBuilds_resolve.
    apply (bind_reads_only 1 0); [| intros res s0 r0 s0'; apply (bind_reads_only 0 0)].
    - apply (bind_reads_only 1 0); [intros *; apply fetchAllBuilds_reads_only |].
      intros all s0 r0 s0'.
      apply (bind_reads_only 0 0); [intros *; apply resolveRef_reads_only |].
      intros g s1 r1 s1'.
      apply (bind_reads_only 0 0); [intros *; apply resolveRef_reads_only |].
      intros b s2 r2 s2'.
      apply (bind_reads_only 0 0); [intros *; apply commitIndex_reads_only |].
      intros gi s3 r3 s3'.
      apply (bind_reads_only 0 0); [intros *; apply commitIndex_reads_only |].
      intros bi s4 r4 s4'. intros [= <- <-]. apply reads_only_refl.
    - intros *. apply fetchBuilds_range_reads_only.
    - intros *. apply fetchBuilds_exclude_reads_only. }
  destruct Hro as (Hfs & evs & Ht & Hall & Hn). split; [done |].
  exists evs. repeat split; try done.
  unfold downloads. clear -Hall. induction Hall as [|e l He _ IH]; [done |].
  cbn. destruct He as [He | [u ->]]; [by destruct e | done].
Qed.

End RangeEffects.

Lemma fetchBuilds_reads_only_witness :
  let H := SimHost LinuxX64 X64 in
  let W := SimWorld offline twoCommits offline in
  let st := mkState ([("/builds/keep", "kept")] : SimFS) [] in
  exists r st',
    @fetchBuilds SimFS H SimFileSystem W aKind (Some "aaaa") None None None false st = (r, st')
    /\ fs st' = fs st
    /\ (network_calls (trace st') <= 1)%nat.
Proof.
  intros H W st. eexists _, _. split; [reflexivity |].
  destruct (@fetchBuilds_reads_only SimFS H SimFileSystem W aKind (Some "aaaa") None None None
              false st _ _ eq_refl) as (Hfs & evs & Ht & _ & Hn & _).
  split; [exact Hfs |]. rewrite Ht. cbn [trace st app]. exact Hn.
Defined.

(** * Further properties of the history source and the reference resolver *)

Lemma rev_lookup {A} (l : list A) (i : nat) (x : A) :
  l !! i = Some x -> rev l !! (length l - 1 - i)%nat = Some x.
Proof.
  intros Hi. pose proof (lookup_lt_Some _ _ _ Hi) as Hlt.
  rewrite rev_alt. change (rev_append l []) with (reverse l).
  rewrite reverse_lookup by lia.
  by replace (length l - S (length l - 1 - i))%nat with i by lia.
Qed.

Section HistoryMore.
Context {FS : Type} `{!Host} `{!FileSystem FS} `{!World FS}.

(** X6. When the history file of the quality is read and parsed,
    [fetchAllBuilds] (without discovery) turns a non-empty history into as
    many builds in the reverse order of the file: the record at position
    [i] of the file becomes the build at position [n - 1 - i], which has
    the commit, the date, the version and the assets of the record, the
    runtime, quality and flavor asked for, and neither platform nor arch.
    One line is logged and no network call is made. An empty history runs
    the discovery query instead, with nothing logged about the file. *)
Theorem fetchAllBuilds_newest_first (k : IBuildKind) (releasedOnly : option bool)
    (st : State FS) (content : string) (history : list HistoryEntry) :
  fs_readFile (fs st) (historyPath (quality k)) = inr content ->
  JSON_parse_history content = inr history ->
  match history with
  | [] =>
      let url :=
        commitsUrl (quality k)
          (getBuildApiName (kindOf (runtime k) (quality k) (flavor k)))
          (default false releasedOnly) in
      let t := trace st ++ [LOGGER_log (discoveryMessage url)] in
      fetchAllBuilds k releasedOnly false st
      = (match net_json_commits t url with
         | inr commits =>
             inr ((fun c => buildOf (runtime k) c (quality k) (flavor k) None None)
                    <$> commits)
         | inl e => inl e
         end,
         mkState (fs st) (t ++ [NetJsonGet url]))
  | _ =>
      exists all,
        fetchAllBuilds k releasedOnly false st
        = (inr all,
           mkState (fs st)
             (trace st
              ++ [LOGGER_log (chalk_gray "[build]" +:+ " loaded "
                              +:+ chalk_green (pretty (length history))
                              +:+ " builds from local history json...")]))
        /\ length all = length history
        /\ forall (i : nat) h, history !! i = Some h ->
             exists b,
               all !! (length history - 1 - i)%nat = Some b
               /\ commit b = h_commit h
               /\ date b = h_date h
               /\ version b = h_version h
               /\ assets b = h_assets h
               /\ runtime b = runtime k
               /\ quality b = quality k
               /\ flavor b = flavor k
               /\ buildPlatform b = None
               /\ buildArch b = None
  end.
Proof.
  intros Hr Hp. destruct history as [|h0 hs].
  - intros url t.
    assert (Hrun : fetchAllBuilds k releasedOnly false st
                   = discoverBuilds (runtime k) (quality k) (flavor k)
                       (default false releasedOnly) st).
    { unfold fetchAllBuilds, loadHistory, try_catch, bind, readFileSync, lift, ret.
      cbn [negb]. by rewrite Hr, Hp. }
    rewrite Hrun. apply discoverBuilds_run.
  - eexists. split; [by apply (fetchAllBuilds_local _ _ _ _ _ Hr Hp) |].
    split; [by rewrite length_fmap, length_rev |].
    intros i h Hi. eexists. split.
    + rewrite list_lookup_fmap, (rev_lookup _ _ _ Hi). reflexivity.
    + repeat split.
Qed.


End HistoryMore.

Lemma fetchAllBuilds_newest_first_witness :
  let H := SimHostWith LinuxX64 X64 threeEntries in
  let W := SimWorld offline offline offline in
  let st := mkState historyFS [] in
  @fs_readFile SimFS SimFileSystem (fs st) (@historyPath H Stable) = inr "<history>"
  /\ exists all,
       @fetchAllBuilds SimFS H SimFileSystem W aKind None false st
       = (inr all,
          mkState historyFS [LOGGER_log "[build] loaded 3 builds from local history json..."])
       /\ length all = 3%nat
       /\ forall (i : nat) h, threeEntries !! i = Some h ->
            exists b,
              all !! (3 - 1 - i)%nat = Some b
              /\ commit b = h_commit h
              /\ date b = h_date h
              /\ version b = h_version h
              /\ assets b = h_assets h
              /\ runtime b = DesktopLocal
              /\ quality b = Stable
              /\ flavor b = Default
              /\ buildPlatform b = None
              /\ buildArch b = None.
Proof.
  intros H W st. split; [reflexivity |].
  exact (@fetchAllBuilds_newest_first SimFS H SimFileSystem W aKind None st "<history>"
           threeEntries eq_refl eq_refl).
Defined.


(** * Builds by version *)

Lemma find_rev_last {A} (P : A -> bool) (l : list A) (i : nat) (x : A) :
  l !! i = Some x -> P x = true ->
  (forall (j : nat) y, (i < j)%nat -> l !! j = Some y -> P y = false) ->
  List.find P (rev l) = Some x.
Proof.
  revert i. induction l as [|a l IH] using rev_ind; intros i Hi Hx Hlast; [done |].
  rewrite rev_app_distr. cbn [rev app List.find].
  destruct (decide (i = length l)) as [-> | Hne].
  - rewrite list_lookup_middle in Hi by done. injection Hi as ->. by rewrite Hx.
  - pose proof (lookup_lt_Some _ _ _ Hi) as Hlt. rewrite length_app in Hlt. cbn in Hlt.
    rewrite lookup_app_l in Hi by lia.
    rewrite (Hlast (length l) a) by (try lia; by apply list_lookup_middle).
    apply (IH i Hi Hx). intros j y Hj Hy. apply (Hlast j y Hj).
    rewrite lookup_app_l; [done |]. by apply lookup_lt_Some in Hy.
Qed.

Lemma find_none {A} (P : A -> bool) (l : list A) :
  (forall x, x ∈ l -> P x = false) -> List.find P l = None.
Proof.
  induction l as [|a l IH]; intros Hall; [done |]. cbn.
  rewrite (Hall a) by apply list_elem_of_here.
  apply IH. intros x Hx. apply Hall. by apply list_elem_of_further.
Qed.

Section VersionFacts.
Context {FS : Type} `{!Host} `{!FileSystem FS} `{!World FS}.

(** X8. When the local history holds the version, [fetchBuildByVersion]
    answers from it without any network call and without a trace: the build
    has the commit of the last record of the file with that version (the
    newest one), the runtime, quality and flavor asked for, and neither
    date, version nor assets. *)
Theorem fetchBuildByVersion_local (k : IBuildKind) (version : string) (st : State FS)
    (content : string) (history : list HistoryEntry) (i : nat) (h : HistoryEntry) :
  fs_readFile (fs st) (historyPath (quality k)) = inr content ->
  JSON_parse_history content = inr history ->
  history !! i = Some h ->
  h_version h = Some version ->
  (forall (j : nat) h', (i < j)%nat -> history !! j = Some h' ->
     h_version h' <> Some version) ->
  fetchBuildByVersion k version st
  = (inr {| kind := kindOf (runtime k) (quality k) (flavor k);
            commit := h_commit h; date := None; version := None; assets := None |},
     st).
Proof.
  intros Hr Hp Hi Hv Hlast.
  unfold fetchBuildByVersion, loadHistory, try_catch, bind, readFileSync, lift, ret.
  rewrite Hr, Hp.
  rewrite (find_rev_last _ history i h Hi).
  - done.
  - by apply bool_decide_eq_true_2.
  - intros j h' Hj Hh'. apply bool_decide_eq_false_2. by apply (Hlast j).
Qed.

(** X9. When the loaded history (empty when the file cannot be loaded) holds
    no record of the version, [fetchBuildByVersion] makes exactly one
    [jsonGet], to the released-version URL of the quality:
    [<version>.0-insider/<api name>/insider?released=true] for the insider
    quality and [<version>.0/<api name>/stable?released=true] for every
    other quality. It returns the build whose commit is the [version] field
    of the answer; an error of the query is raised as it is. *)
Theorem fetchBuildByVersion_remote (k : IBuildKind) (version : string)
    (st st1 : State FS) (history : list HistoryEntry) :
  loadHistory (quality k) st = (inr history, st1) ->
  (forall h, h ∈ history -> h_version h <> Some version) ->
  let apiName := getBuildApiName (kindOf (runtime k) (quality k) (flavor k)) in
  let url :=
    match quality k with
    | Insider =>
        "https://update.code.visualstudio.com/api/versions/" +:+ version
        +:+ ".0-insider/" +:+ apiName +:+ "/insider?released=true"
    | Stable | VSCodiumInsider =>
        "https://update.code.visualstudio.com/api/versions/" +:+ version
        +:+ ".0/" +:+ apiName +:+ "/stable?released=true"
    end in
  fetchBuildByVersion k version st
  = (match net_json_meta (trace st1) url with
     | inr meta =>
         inr {| kind := kindOf (runtime k) (quality k) (flavor k);
                commit := meta_version meta; date := None; version := None;
                assets := None |}
     | inl e => inl e
     end,
     mkState (fs st1) (trace st1 ++ [NetJsonGet url])).
Proof.
  intros Hload Hnone apiName url. unfold fetchBuildByVersion.
  rewrite (bind_run _ _ _ _ _ Hload).
  rewrite find_none by (intros h Hh; apply bool_decide_eq_false_2; by apply Hnone).
  fold apiName.
  assert (Hurl : versionUrl (quality k) version apiName = url).
  { unfold versionUrl, url. by destruct (quality k). }
  rewrite Hurl. unfold bind, jsonGet_meta, ret.
  by destruct (net_json_meta (trace st1) url).
Qed.

(** X10. A build made by [fetchBuildByVersion] or by the discovery query has
    no asset map, even when the history record it comes from has one. For
    the alternate channel (quality VSCodiumInsider) [downloadAndExtractBuild]
    therefore rejects every such build with the missing-assets error, on
    every platform, before any network call or file-system change. *)
Theorem version_build_not_acquirable (k : IBuildKind) (version : string)
    (released : bool) (st st1 st2 : State FS) (b : IBuild) (options : option bool) :
  quality k = VSCodiumInsider ->
  fetchBuildByVersion k version st = (inr b, st1)
  \/ (exists all, discoverBuilds (runtime k) (quality k) (flavor k) released st = (inr all, st1)
                  /\ b ∈ all) ->
  assets b = None
  /\ downloadAndExtractBuild b options st2 = (inl (missingAssetsError b), st2).
Proof.
  intros Hq Hmade.
  assert (Hb : exists c, b = buildOf (runtime k) c (quality k) (flavor k) None None).
  { destruct Hmade as [Hrun | (all & Hrun & Hin)].
    - unfold fetchBuildByVersion in Hrun.
      apply bind_inr_inv in Hrun as (history & s1 & _ & Hrun).
      destruct (List.find _ history) as [m |].
      + injection Hrun as <- _. eauto.
      + apply bind_inr_inv in Hrun as (meta & s2 & _ & Hrun). injection Hrun as <- _. eauto.
    - rewrite discoverBuilds_run in Hrun.
      destruct (net_json_commits _ _) as [e | commits]; [done |].
      injection Hrun as <- _. apply list_elem_of_fmap in Hin as (c & -> & _). eauto. }
  destruct Hb as [c ->]. split; [done |].
  unfold downloadAndExtractBuild. cbn [quality kind buildOf].
  rewrite decide_True by done.
  unfold bind. by rewrite downloadAndExtractVSCodium_no_assets.
Qed.

End VersionFacts.

Lemma fetchBuildByVersion_local_witness :
  let H := SimHostWith LinuxX64 X64 vscodiumEntries in
  let W := SimWorld offline offline offline in
  let st := mkState vscodiumFS [] in
  @fs_readFile SimFS SimFileSystem (fs st) (@historyPath H VSCodiumInsider) = inr "<history>"
  /\ @fetchBuildByVersion SimFS H SimFileSystem W aVSCodiumKind "1.85.0.23343" st
     = (inr (buildOf DesktopLocal "v1-rebuild" VSCodiumInsider Default None None), st).
Proof.
  intros H W st. split; [reflexivity |].
  refine (@fetchBuildByVersion_local SimFS H SimFileSystem W aVSCodiumKind "1.85.0.23343" st
            "<history>" vscodiumEntries 1 _ eq_refl eq_refl eq_refl eq_refl _).
  intros j h' Hj Hl. destruct j as [|[|j]]; [lia | lia | discriminate Hl].
Defined.

Lemma fetchBuildByVersion_remote_witness :
  let H := SimHost LinuxX64 X64 in
  let W := SimWorld metaOnline offline offline in
  let st := mkState ([] : SimFS) [] in
  @fetchBuildByVersion SimFS H SimFileSystem W (kindOf DesktopLocal Insider Default) "1.85" st
  = (inr (buildOf DesktopLocal "c0ffee" Insider Default None None),
     mkState []
       [console_error
          "Failed to load history from /work/vscode_insider_history.json: ENOENT: /work/vscode_insider_history.json";
        NetJsonGet
          "https://update.code.visualstudio.com/api/versions/1.85.0-insider/linux-x64/insider?released=true"])
  /\ @fetchBuildByVersion SimFS H SimFileSystem W aKind "1.85" st
     = (inr (buildOf DesktopLocal "c0ffee" Stable Default None None),
        mkState []
          [console_error
             "Failed to load history from /work/vscode_stable_history.json: ENOENT: /work/vscode_stable_history.json";
           NetJsonGet
             "https://update.code.visualstudio.com/api/versions/1.85.0/linux-x64/stable?released=true"]).
Proof.
  intros H W st. split.
  - refine (@fetchBuildByVersion_remote SimFS H SimFileSystem W
              (kindOf DesktopLocal Insider Default) "1.85" st _ [] eq_refl _).
    intros h Hh. by apply elem_of_nil in Hh.
  - refine (@fetchBuildByVersion_remote SimFS H SimFileSystem W aKind "1.85" st _ []
              eq_refl _).
    intros h Hh. by apply elem_of_nil in Hh.
Defined.

Lemma version_build_not_acquirable_witness :
  let H := SimHostWith LinuxX64 X64 vscodiumEntries in
  let W := SimWorld offline offline fileOnline in
  let st := mkState vscodiumFS [] in
  let b := buildOf DesktopLocal "v1-rebuild" VSCodiumInsider Default None None in
  @fetchBuildByVersion SimFS H SimFileSystem W aVSCodiumKind "1.85.0.23343" st = (inr b, st)
  /\ @downloadAndExtractBuild SimFS H SimFileSystem W b None st
     = (inl (Error "VSCodium build undefined (commit v1-rebuild) is missing assets map."), st).
Proof.
  intros H W st b. split; [reflexivity |].
  exact (proj2 (@version_build_not_acquirable SimFS H SimFileSystem W aVSCodiumKind
                  "1.85.0.23343" false st st st b None eq_refl (or_introl eq_refl))).
Defined.

(** * Further properties of the naming tables and of the acquisition *)

Lemma lastIndexOf_from_zip (p : string) (i found : Z) :
  lastIndexOf_from ".zip" (p +:+ ".zip") i found = i + Z.of_nat (String.length p).
Proof.
  revert i found. induction p as [|c p IH]; intros i found.
  - change ("" +:+ ".zip") with ".zip". cbn. lia.
  - change (String c p +:+ ".zip") with (String c (p +:+ ".zip")).
    cbn [lastIndexOf_from]. rewrite IH. cbn [String.length]. lia.
Qed.

Lemma substring_append_l (p s : string) :
  String.substring 0 (String.length p) (p +:+ s) = p.
Proof.
  induction p as [|c p IH].
  - cbn. by destruct s.
  - change (String c p +:+ s) with (String c (p +:+ s)). cbn. by rewrite IH.
Qed.

(** Cutting a path at its last [.zip] takes the final [.zip] off. *)
Lemma strip_zip (base : string) :
  substring0 (base +:+ ".zip") (lastIndexOf (base +:+ ".zip") ".zip") = base.
Proof.
  unfold substring0, lastIndexOf. rewrite lastIndexOf_from_zip.
  rewrite Z.add_0_l, Z.max_r by lia. rewrite Nat2Z.id. apply substring_append_l.
Qed.

Section NamingMore.
Context {FS : Type} `{!Host} `{!FileSystem FS} `{!World FS}.

(** X11. For a web-local or web-remote runtime the download name of a build
    is its on-disk name followed by the archive extension, [.tar.gz] on the
    Linux platforms and [.zip] on the macOS and Windows platforms, whatever
    the flavor and the quality; both names are computed without any effect. *)
Theorem server_names_agree (b : IBuild) (st : State FS) :
  isWeb (runtime b) = true ->
  let p := default platform (buildPlatform b) in
  let name := getBuildName_server p (default arch (buildArch b)) in
  getBuildName b st = (inr name, st)
  /\ getBuildDownloadName b st = (inr (name +:+ serverArchiveExt p), st).
Proof.
  intros Hweb p name. unfold getBuildName, getBuildDownloadName. rewrite Hweb.
  fold p. split; [done |]. unfold ret, name, getBuildName_server, serverArchiveExt.
  destruct p; by rewrite !String_append_assoc.
Qed.

(** X12. What [getPlatformName] does with a flavor that the Linux cases do
    not list: the inner switch has no [break], so on a Linux platform a
    desktop build of a Windows installer flavor gets the platform name of
    the Windows cases for the same architecture, and any other unlisted
    flavor reaches the CLI name of Linux. *)
Theorem getPlatformName_linux_fallthrough (k : IBuildKind) :
  isWeb (runtime k) = false ->
  default platform (buildPlatform k) = LinuxX64
  \/ default platform (buildPlatform k) = LinuxArm ->
  let a := Arch_str (default arch (buildArch k)) in
  match flavor k with
  | Default => getPlatformName k = "linux-" +:+ a
  | LinuxDeb => getPlatformName k = "linux-deb-" +:+ a
  | LinuxRPM => getPlatformName k = "linux-rpm-" +:+ a
  | LinuxSnap => getPlatformName k = "linux-snap-" +:+ a
  | WindowsUserInstaller => getPlatformName k = "win32-" +:+ a +:+ "-user"
  | WindowsSystemInstaller => getPlatformName k = "win32-" +:+ a
  | Cli | DarwinUniversal | OtherFlavor _ => getPlatformName k = "cli-linux-" +:+ a
  end.
Proof.
  intros Hweb Hp a. unfold getPlatformName. rewrite Hweb.
  destruct Hp as [-> | ->]; destruct (flavor k); done.
Qed.

End NamingMore.

Lemma server_names_agree_witness :
  let H := SimHost LinuxArm Arm64 in
  let W := SimWorld offline offline offline in
  let st := mkState ([] : SimFS) [] in
  let b := buildOf WebRemote "c0ffee" Insider Default None None in
  isWeb (runtime b) = true
  /\ @getBuildName SimFS H W b st = (inr "vscode-server-linux-arm64-web", st)
  /\ @getBuildDownloadName SimFS H W b st = (inr "vscode-server-linux-arm64-web.tar.gz", st).
Proof.
  intros H W st b. split; [reflexivity |].
  exact (@server_names_agree SimFS H W b st eq_refl).
Defined.

Lemma getPlatformName_linux_fallthrough_witness :
  let H := SimHost LinuxX64 X64 in
  let k := kindOf DesktopLocal Stable WindowsUserInstaller in
  isWeb (runtime k) = false
  /\ @getPlatformName H k = "win32-x64-user".
Proof.
  intros H k. split; [reflexivity |].
  exact (@getPlatformName_linux_fallthrough H k eq_refl (or_introl eq_refl)).
Defined.

Section AcquisitionMore.
Context {FS : Type} `{!Host} `{!FileSystem FS} `{!World FS}.

(** With a metadata query the download name is what the query gives. *)
Lemma getBuildDownloadName_query_fails (b : IBuild) (st st1 : State FS) (e : Exn) :
  needsMetadata b = true ->
  fetchBuildMeta (buildOf (runtime b) (commit b) (quality b) (flavor b)
                    (buildPlatform b) (buildArch b)) st = (inl e, st1) ->
  getBuildDownloadName b st = (inl e, st1).
Proof.
  unfold needsMetadata, getBuildDownloadName. intros Hn Hm.
  apply andb_prop in Hn as [Hn Hp]. apply andb_prop in Hn as [Hw Hf].
  apply negb_true_iff in Hw. apply bool_decide_eq_true_1 in Hf.
  rewrite Hw, decide_True by done.
  destruct (default platform (buildPlatform b)); try discriminate Hp;
    unfold bind; by rewrite Hm.
Qed.

(** X13. For a desktop build other than CLI on a Linux or a Windows host the
    name of the archive comes from the metadata; when that query fails,
    [downloadAndExtractBuild] raises its error before it looks at the cache:
    whatever the cache holds and whether or not a re-download is forced,
    nothing is returned, downloaded, deleted or logged. *)
Theorem downloadAndExtractBuild_query_fails (build : IBuild) (options : option bool)
    (st st1 : State FS) (e : Exn) :
  quality build <> VSCodiumInsider ->
  isDockerCliFlavor (flavor build) = false ->
  needsMetadata (stripped build) = true ->
  fetchBuildMeta (stripped build) st = (inl e, st1) ->
  downloadAndExtractBuild build options st = (inl e, st1)
  /\ fs st1 = fs st
  /\ downloads (trace st1) = downloads (trace st).
Proof.
  intros Hq Hd Hn Hm. split; [| by eapply fetchBuildMeta_effects].
  unfold downloadAndExtractBuild. rewrite decide_False, Hd by done.
  unfold bind at 1. by rewrite (getBuildDownloadName_query_fails _ _ _ _ Hn Hm).
Qed.

(** X14. Where [extractBuild] puts a verified artifact. An installer flavor
    (any flavor but Default, Cli and DarwinUniversal) is returned as the
    downloaded file, untouched. A default-flavor build of a local runtime on
    a Windows host, whose zip has no top-level folder, is unzipped into the
    path of the archive without its final [.zip], and that folder is
    returned. Every other archive is unzipped into the directory of the
    archive, which is returned. *)
Theorem extractBuild_destination (build : IBuild) (path : string) (st : State FS) :
  (isArchiveFlavor (flavor build) = false ->
     extractBuild build path st = (inr (Some path), st))
  /\ (flatZip build = true ->
      forall base fs',
        path = base +:+ ".zip" ->
        fs_unzip (fs st) path base = inr fs' ->
        extractBuild build path st
        = (inr (Some base),
           mkState fs' (trace st ++ [LOGGER_log (unzippingMessage path base);
                                     FsUnzip path base])))
  /\ (isArchiveFlavor (flavor build) = true -> flatZip build = false ->
      forall fs',
        fs_unzip (fs st) path (dirname path) = inr fs' ->
        extractBuild build path st
        = (inr (Some (dirname path)),
           mkState fs' (trace st ++ [LOGGER_log (unzippingMessage path (dirname path));
                                     FsUnzip path (dirname path)]))).
Proof.
  unfold extractBuild. fold (isArchiveFlavor (flavor build)) (flatZip build).
  split; [| split].
  - by intros ->.
  - intros Hflat base fs' -> Hz.
    assert (Harch : isArchiveFlavor (flavor build) = true).
    { unfold flatZip in Hflat. apply andb_prop in Hflat as [Hflat _].
      apply andb_prop in Hflat as [_ Hflat]. unfold isArchiveFlavor. by rewrite Hflat. }
    rewrite Harch, Hflat, strip_zip.
    unfold bind, LOGGER_log_, emit, unzip, fs_update, ret. cbn [fs trace].
    rewrite Hz. by rewrite <- app_assoc.
  - intros -> -> fs' Hz.
    unfold bind, LOGGER_log_, emit, unzip, fs_update, ret. cbn [fs trace].
    rewrite Hz. by rewrite <- app_assoc.
Qed.

(** X15. The path after a download whose checksum matches: for every
    primary-channel build that is downloaded, when the checksum computed for
    the artifact equals the [sha256hash] of the fetched metadata,
    [downloadAndExtractBuild] logs the match and hands the artifact to
    [extractBuild]; for an installer flavor the result is the path of the
    downloaded file, the file system is the one the download left and
    nothing is unzipped. *)
Theorem downloadAndExtractBuild_verified (build : IBuild) (options : option bool)
    (st st1 st2 st3 : State FS) (buildName : string) (meta : IBuildMetadata)
    (body : string) (stored : FS) :
  quality build <> VSCodiumInsider ->
  isDockerCliFlavor (flavor build) = false ->
  getBuildDownloadName (stripped build) st = (inr buildName, st1) ->
  let path := cachePath build buildName in
  let pathExists := fs_exists (fs st1) path in
  let forceReDownload := default false options in
  pathExists && negb forceReDownload = false ->
  forcedDelete build pathExists forceReDownload st1 = (inr tt, st2) ->
  fetchBuildMeta (stripped build) st2 = (inr meta, st3) ->
  let t := trace st3 ++ [LOGGER_log (downloadingMessage (url meta))] in
  net_file t (url meta) = inr body ->
  fs_store (fs st3) path body = inr stored ->
  fs_sha256 stored path = inr (sha256hash meta) ->
  let verified :=
    mkState stored (t ++ [NetFileGet (url meta) path; LOGGER_log checksumMatchesMessage]) in
  downloadAndExtractBuild build options st = extractBuild build path verified
  /\ (isArchiveFlavor (flavor build) = false ->
      downloadAndExtractBuild build options st = (inr (Some path), verified)).
Proof.
  intros Hq Hd Hname path pathExists forceReDownload Hmiss Hdel Hmeta t Hbody Hstore Hsha
    verified.
  assert (Hrun : downloadAndExtractBuild build options st = extractBuild build path verified).
  { unfold downloadAndExtractBuild. rewrite decide_False, Hd by done.
    rewrite (bind_run _ _ _ _ _ Hname). unfold bind at 1, exists_.
    fold path pathExists forceReDownload. rewrite Hmiss.
    unfold downloadBuild.
    rewrite (bind_run _ _ _ _ _ Hdel), (bind_run _ _ _ _ _ Hmeta).
    unfold bind, LOGGER_log_, emit, fileGet, computeSHA256. cbn [trace fs]. fold t.
    rewrite Hbody, Hstore. cbn [fs]. rewrite Hsha.
    rewrite decide_False by (intros Hne; by apply Hne).
    cbn [trace fs]. unfold verified. by rewrite <- app_assoc. }
  split; [done |]. intros Hinst. rewrite Hrun.
  unfold extractBuild. fold (isArchiveFlavor (flavor build)). by rewrite Hinst.
Qed.

(** X16. A forced re-download of a cached primary-channel build first logs
    and deletes the build folder, before any further network call. When the
    deletion fails its error is raised and nothing is downloaded; when it
    succeeds the run goes on exactly as a download that finds no cached
    path, from the file system without the folder. *)
Theorem downloadAndExtractBuild_forced (build : IBuild) (st st1 : State FS)
    (buildName : string) :
  quality build <> VSCodiumInsider ->
  isDockerCliFlavor (flavor build) = false ->
  getBuildDownloadName (stripped build) st = (inr buildName, st1) ->
  let path := cachePath build buildName in
  let folder := getBuildPath (commit build) (quality build) (flavor build) in
  fs_exists (fs st1) path = true ->
  let t := trace st1 ++ [LOGGER_log (deletingMessage build); FsRm folder] in
  (forall e, fs_rm (fs st1) folder = inl e ->
     downloadAndExtractBuild build (Some true) st = (inl e, mkState (fs st1) t))
  /\ (forall fs2, fs_rm (fs st1) folder = inr fs2 ->
        downloadAndExtractBuild build (Some true) st
        = downloadBuild build path false true (mkState fs2 t)).
Proof.
  intros Hq Hd Hname path folder Hex t.
  assert (Hrun : downloadAndExtractBuild build (Some true) st
                 = downloadBuild build path true true st1).
  { unfold downloadAndExtractBuild. rewrite decide_False, Hd by done.
    rewrite (bind_run _ _ _ _ _ Hname). unfold bind at 1, exists_.
    fold path. rewrite Hex. done. }
  rewrite Hrun. unfold downloadBuild, forcedDelete. cbn [andb when_].
  fold folder.
  split.
  - intros e Hrm. unfold bind, LOGGER_log_, emit, rmSync, fs_update. cbn [fs trace].
    rewrite Hrm. unfold t. by rewrite <- app_assoc.
  - intros fs2 Hrm. unfold bind at 1 2, LOGGER_log_, emit, rmSync, fs_update.
    cbn [fs trace]. rewrite Hrm. unfold bind at 3, ret. unfold t.
    by rewrite <- app_assoc.
Qed.

End AcquisitionMore.

(** ** The alternate channel *)

Section VSCodiumFacts.
Context {FS : Type} `{!Host} `{!FileSystem FS} `{!World FS}.

(** The chain of lines 303-313 reads the map under [assetKey] and nowhere
    else. *)
Lemma vscodiumAsset_key (m : gmap string string) :
  vscodiumAsset m
  = (assetKey platform ≫= (fun k => m !! k),
     match platform with LinuxX64 | LinuxArm => ".tar.gz" | _ => ".zip" end).
Proof. unfold vscodiumAsset. by destruct platform. Qed.

(** X17. On every platform a build of the alternate channel whose asset map
    has no URL under the key of the host platform, or the empty string
    there, is refused with the "No VSCodium asset found" error before the
    cache is looked at: the state is left as it was, whatever else the map
    holds and whether or not a re-download is forced. *)
Theorem downloadAndExtractVSCodium_no_asset (build : IBuild) (options : option bool)
    (st : State FS) (m : gmap string string) :
  quality build = VSCodiumInsider ->
  assets build = Some m ->
  (forall k, assetKey platform = Some k -> m !! k = None \/ m !! k = Some "") ->
  downloadAndExtractBuild build options st = (inl (noAssetError build), st).
Proof.
  intros Hq Ha Hkey. unfold downloadAndExtractBuild. rewrite decide_True by done.
  unfold bind, downloadAndExtractVSCodium. rewrite Ha, vscodiumAsset_key.
  destruct (assetKey platform) as [k |]; [| done]. cbn [mbind option_bind].
  by destruct (Hkey k eq_refl) as [-> | ->].
Qed.

(** X18. The cache of the alternate channel is the build folder itself: when
    the asset map has a URL for the host platform, the folder exists and no
    re-download is forced, [downloadAndExtractBuild] returns the folder with
    one trace line and nothing else happens; the archive does not have to
    be there and nothing is downloaded. *)
Theorem downloadAndExtractVSCodium_cached (build : IBuild) (options : option bool)
    (st : State FS) (m : gmap string string) (k url : string) :
  quality build = VSCodiumInsider ->
  assets build = Some m ->
  assetKey platform = Some k ->
  m !! k = Some url ->
  url <> "" ->
  let folder := getBuildPath (commit build) (quality build) (flavor build) in
  fs_exists (fs st) folder = true ->
  default false options = false ->
  downloadAndExtractBuild build options st
  = (inr (Some folder),
     mkState (fs st) (trace st ++ [LOGGER_trace (vscodiumCachedMessage folder)])).
Proof.
  intros Hq Ha Hk Hm Hurl folder Hex Hopt. unfold downloadAndExtractBuild.
  rewrite decide_True by done.
  unfold bind at 1, downloadAndExtractVSCodium. rewrite Ha, vscodiumAsset_key, Hk.
  cbn [mbind option_bind]. rewrite Hm. cbn [truthy_str]. rewrite decide_False by done.
  fold folder. unfold bind at 1, exists_. rewrite Hex, Hopt. done.
Qed.

(** X19. A download of the alternate channel on a Linux host, when the
    build folder does not exist yet: the asset is fetched to
    [VSCodium-<version>.tar.gz] in the build folder and handed to [unzip]
    with the folder as destination; the folder is returned. The run logs
    two lines and does nothing else: no checksum is computed and no
    metadata is queried. *)
Theorem downloadAndExtractVSCodium_linux (build : IBuild) (options : option bool)
    (st : State FS) (m : gmap string string) (k url body : string) (stored final : FS) :
  quality build = VSCodiumInsider ->
  platform = LinuxX64 \/ platform = LinuxArm ->
  assets build = Some m ->
  assetKey platform = Some k ->
  m !! k = Some url ->
  url <> "" ->
  let folder := getBuildPath (commit build) (quality build) (flavor build) in
  let zipPath := vscodiumArchive build ".tar.gz" in
  fs_exists (fs st) folder = false ->
  net_file (trace st ++ [LOGGER_log (vscodiumDownloadingMessage url)]) url = inr body ->
  fs_store (fs st) zipPath body = inr stored ->
  fs_unzip stored zipPath folder = inr final ->
  downloadAndExtractBuild build options st
  = (inr (Some folder),
     mkState final
       (trace st ++ [LOGGER_log (vscodiumDownloadingMessage url);
                     NetFileGet url zipPath;
                     LOGGER_log (vscodiumExtractingMessage folder);
                     FsUnzip zipPath folder])).
Proof.
  intros Hq Hp Ha Hk Hm Hurl folder zipPath Hex Hbody Hstore Hzip.
  unfold downloadAndExtractBuild. rewrite decide_True by done.
  unfold bind at 1, downloadAndExtractVSCodium. rewrite Ha, vscodiumAsset_key, Hk.
  cbn [mbind option_bind]. rewrite Hm. cbn [truthy_str]. rewrite decide_False by done.
  assert (Hext : match platform with LinuxX64 | LinuxArm => ".tar.gz" | _ => ".zip" end
                 = ".tar.gz") by (by destruct Hp as [-> | ->]).
  assert (Hmac : bool_decide (platform = MacOSArm) || bool_decide (platform = MacOSX64)
                 = false) by (by destruct Hp as [-> | ->]).
  rewrite Hext, Hmac. fold (vscodiumArchive build ".tar.gz"). fold zipPath. fold folder.
  unfold bind at 1, exists_. rewrite Hex. cbn [andb].
  unfold bind at 1. rewrite Hex.
  unfold bind, when_, ret, LOGGER_log_, emit, fileGet, unzip, fs_update.
  cbn [fs trace]. fold (vscodiumDownloadingMessage url). rewrite Hbody, Hstore.
  cbn [fs trace]. rewrite Hzip. fold (vscodiumExtractingMessage folder).
  by rewrite <- !app_assoc.
Qed.

End VSCodiumFacts.

(** ** Names on disk and executables *)

Section ExecutableFacts.
Context {FS : Type} `{!Host} `{!FileSystem FS} `{!World FS}.

(** Without a metadata query the on-disk name is computed with no effect. *)
Lemma getBuildName_offline (b : IBuild) (st : State FS) :
  buildNameNeedsMetadata b = false ->
  exists name, getBuildName b st = (inr name, st).
Proof.
  unfold buildNameNeedsMetadata, getBuildName. intros Hn.
  destruct (isWeb (runtime b)); [by eexists |].
  destruct (decide (flavor b <> Cli)) as [Hf | Hf]; [| by eexists].
  rewrite bool_decide_eq_true_2 in Hn by done.
  destruct (default platform (buildPlatform b)); try discriminate Hn; by eexists.
Qed.

(** On a Windows platform the on-disk name of a desktop build comes from the
    metadata. *)
Lemma getBuildName_windows (b : IBuild) (st st1 : State FS) r :
  buildNameNeedsMetadata b = true ->
  fetchBuildMeta (buildOf (runtime b) (commit b) (quality b) (flavor b)
                    (buildPlatform b) (buildArch b)) st = (r, st1) ->
  getBuildName b st
  = (match r with
     | inl e => inl e
     | inr meta => inr ("VSCode-win32-" +:+ Arch_str (default arch (buildArch b))
                        +:+ "-" +:+ productVersion meta)
     end, st1).
Proof.
  unfold buildNameNeedsMetadata, getBuildName. intros Hn Hm.
  apply andb_prop in Hn as [Hn Hp]. apply andb_prop in Hn as [Hw Hf].
  apply negb_true_iff in Hw. apply bool_decide_eq_true_1 in Hf.
  rewrite Hw, decide_True by done.
  destruct (default platform (buildPlatform b)); try discriminate Hp;
    unfold bind; rewrite Hm; by destruct r.
Qed.

(** On a Windows platform the download name of a default-flavor desktop
    build is made of the product version of its metadata. *)
Lemma getBuildDownloadName_windows_default (b : IBuild) (st st1 : State FS)
    (meta : IBuildMetadata) :
  isWeb (runtime b) = false ->
  flavor b = Default ->
  default platform (buildPlatform b) = WindowsX64
  \/ default platform (buildPlatform b) = WindowsArm ->
  fetchBuildMeta (buildOf (runtime b) (commit b) (quality b) (flavor b)
                    (buildPlatform b) (buildArch b)) st = (inr meta, st1) ->
  getBuildDownloadName b st
  = (inr (("VSCode-win32-" +:+ Arch_str (default arch (buildArch b)) +:+ "-"
           +:+ productVersion meta) +:+ ".zip"), st1).
Proof.
  intros Hw Hf Hp Hm. unfold getBuildDownloadName.
  rewrite Hw, decide_True by (by rewrite Hf).
  destruct Hp as [-> | ->]; unfold bind; rewrite Hm, Hf; unfold ret;
    by rewrite !String_append_assoc.
Qed.

(** X20. [getBuildExecutable] needs the network exactly for the desktop
    builds other than CLI on a Windows platform. For every other build it
    returns a path and leaves the state as it was, whatever the network
    would answer; for those builds it queries the metadata, and when the
    query fails it fails with the same error and returns no path. *)
Theorem getBuildExecutable_network (b : IBuild) (st : State FS) :
  (buildNameNeedsMetadata b = false ->
     exists path, getBuildExecutable b st = (inr path, st))
  /\ (buildNameNeedsMetadata b = true ->
      forall e st1,
        fetchBuildMeta (buildOf (runtime b) (commit b) (quality b) (flavor b)
                          (buildPlatform b) (buildArch b)) st = (inl e, st1) ->
        getBuildExecutable b st = (inl e, st1)).
Proof.
  split.
  - intros Hn.
    destruct (getBuildName_offline
                (buildOf (runtime b) (commit b) (quality b) (flavor b)
                   (buildPlatform b) (buildArch b)) st Hn) as [name Hname].
    unfold getBuildExecutable. rewrite (bind_run _ _ _ _ _ Hname).
    destruct (isWeb (runtime b)).
    + unfold serverExecutable, bind, exists_, ret.
      destruct (default platform (buildPlatform b));
        match goal with |- context [fs_exists ?f ?p] => destruct (fs_exists f p) end;
        by eexists.
    + destruct (decide (flavor b <> Cli)); by eexists.
  - intros Hn e st1 Hm.
    pose proof (getBuildName_windows
                  (buildOf (runtime b) (commit b) (quality b) (flavor b)
                     (buildPlatform b) (buildArch b)) st st1 (inl e) Hn Hm) as Hname.
    unfold getBuildExecutable, bind. by rewrite Hname.
Qed.

(** X21. The launcher of a server build (web-local or web-remote runtime):
    the legacy script, [server.sh] or on a Windows platform [server.cmd],
    directly under the on-disk name in the build folder is returned whenever
    it exists; otherwise the launcher under [bin] is, which on a Windows
    platform lies one more level down, under the on-disk name repeated. The
    state is left as it was. *)
Theorem getBuildExecutable_server (b : IBuild) (st : State FS) :
  isWeb (runtime b) = true ->
  let p := default platform (buildPlatform b) in
  let name := getBuildName_server p (default arch (buildArch b)) in
  let legacy :=
    join [getBuildPath (commit b) (quality b) (flavor b); name; legacyLauncher p] in
  getBuildExecutable b st
  = (inr (if fs_exists (fs st) legacy then legacy else serverLauncher b name), st).
Proof.
  intros Hweb p name legacy. unfold getBuildExecutable, getBuildName, serverLauncher.
  cbn [runtime kind buildOf buildPlatform buildArch quality commit flavor].
  rewrite Hweb. unfold bind at 1, ret at 1. fold p name.
  unfold legacy, legacyLauncher, serverExecutable, bind, exists_, ret.
  destruct p; by destruct (fs_exists _ _).
Qed.

(** X22. On a Windows host the four name computations agree for a
    default-flavor desktop build: with the metadata of the build, the
    download name is the on-disk name followed by [.zip]; the archive, whose
    zip has no top-level folder, is unzipped into the folder of that on-disk
    name inside the build folder (provided [join] puts the last segment at
    the end of the path); and the executable is sought in that folder. *)
Theorem windows_names_agree (b : IBuild) (st st1 : State FS) (meta : IBuildMetadata) :
  runtime b = DesktopLocal ->
  flavor b = Default ->
  platform = WindowsX64 \/ platform = WindowsArm ->
  fetchBuildMeta (stripped b) st = (inr meta, st1) ->
  let buildPath := getBuildPath (commit b) (quality b) (flavor b) in
  let name := "VSCode-win32-" +:+ Arch_str arch +:+ "-" +:+ productVersion meta in
  let path := cachePath b (name +:+ ".zip") in
  path = join [buildPath; name] +:+ ".zip" ->
  getBuildDownloadName (stripped b) st = (inr (name +:+ ".zip"), st1)
  /\ getBuildName (stripped b) st = (inr name, st1)
  /\ (forall st2 fs',
        fs_unzip (fs st2) path (join [buildPath; name]) = inr fs' ->
        extractBuild b path st2
        = (inr (Some (join [buildPath; name])),
           mkState fs' (trace st2
                        ++ [LOGGER_log (unzippingMessage path (join [buildPath; name]));
                            FsUnzip path (join [buildPath; name])])))
  /\ getBuildExecutable (stripped b) st
     = (inr (join [buildPath; name;
                   if bool_decide (quality b = Insider)
                   then "Code - Insiders.exe" else "Code.exe"]), st1).
Proof.
  intros Hr Hf Hp Hm buildPath name path Hjoin.
  assert (Hneeds : buildNameNeedsMetadata (stripped b) = true).
  { unfold buildNameNeedsMetadata, stripped, buildOf.
    cbn [runtime kind flavor buildPlatform default]. rewrite Hr, Hf.
    by destruct Hp as [-> | ->]. }
  pose proof (getBuildName_windows (stripped b) st st1 (inr meta) Hneeds Hm) as Hname.
  cbn [stripped buildOf buildArch kind default] in Hname. fold name in Hname.
  split; [| split; [done | split]].
  - apply (getBuildDownloadName_windows_default (stripped b)); try done.
    cbn [stripped buildOf runtime kind]. by rewrite Hr.
  - intros st2 fs' Hz. unfold extractBuild. rewrite Hr, Hf.
    assert (Hwin : bool_decide (platform = WindowsX64) || bool_decide (platform = WindowsArm)
                   = true) by (by destruct Hp as [-> | ->]).
    rewrite Hwin. cbn [bool_decide orb andb].
    rewrite !bool_decide_eq_true_2 by done.
    rewrite (bool_decide_eq_true_2 (DesktopLocal = DesktopLocal)) by done.
    cbn [orb andb]. rewrite Hjoin, strip_zip. rewrite <- Hjoin.
    unfold bind, LOGGER_log_, emit, unzip, fs_update, ret. cbn [fs trace].
    rewrite Hz. fold (unzippingMessage path (join [buildPath; name])).
    by rewrite <- app_assoc.
  - unfold getBuildExecutable.
    change (buildOf (runtime (stripped b)) (commit (stripped b)) (quality (stripped b))
              (flavor (stripped b)) (buildPlatform (stripped b)) (buildArch (stripped b)))
      with (stripped b).
    rewrite (bind_run _ _ _ _ _ Hname).
    cbn [stripped buildOf runtime kind flavor buildPlatform quality commit default].
    rewrite Hr, Hf. rewrite decide_True by done.
    assert (Hw : isWeb DesktopLocal = false) by done.
    rewrite Hw. unfold buildPath. rewrite Hf. by destruct Hp as [-> | ->].
Qed.

End ExecutableFacts.

(** ** Instances of the further acquisition and naming properties *)

Lemma downloadAndExtractBuild_query_fails_witness :
  let H := SimHost LinuxX64 X64 in
  let W := SimWorld offline offline fileOnline in
  let st := mkState cachedFS [] in
  @downloadAndExtractBuild SimFS H SimFileSystem W aStableBuild None st
  = (inl (Thrown "network unreachable"),
     mkState cachedFS
       [NetJsonGet "https://update.code.visualstudio.com/api/versions/commit:c0ffee/linux-x64/stable"]).
Proof.
  intros H W st.
  exact (proj1 (@downloadAndExtractBuild_query_fails SimFS H SimFileSystem W aStableBuild
                  None st _ _ ltac:(discriminate) eq_refl eq_refl eq_refl)).
Defined.

Lemma extractBuild_destination_witness :
  let H := SimHost WindowsX64 X64 in
  let W := SimWorld offline offline offline in
  let st := mkState windowsFS [] in
  let base := "/builds/c0ffee/VSCode-win32-x64-1.85.0" in
  @flatZip H aWindowsBuild = true
  /\ @extractBuild SimFS H SimFileSystem aWindowsBuild windowsArchive st
     = (inr (Some base),
        mkState ((base, "") :: windowsFS)
          [LOGGER_log "[build] unzipping /builds/c0ffee/VSCode-win32-x64-1.85.0.zip to /builds/c0ffee/VSCode-win32-x64-1.85.0...";
           FsUnzip windowsArchive base]).
Proof.
  intros H W st base. split; [reflexivity |].
  exact (proj1 (proj2 (@extractBuild_destination SimFS H SimFileSystem aWindowsBuild
                         windowsArchive st))
           eq_refl base ((base, "") :: windowsFS) eq_refl eq_refl).
Defined.

Lemma downloadAndExtractBuild_verified_witness :
  let H := SimHost WindowsX64 X64 in
  let W := SimWorld metaMatching offline fileOnline in
  let st := mkState ([] : SimFS) [] in
  let path := "/builds/c0ffee/VSCodeUserSetup-x64-1.85.0.exe" in
  let query :=
    "https://update.code.visualstudio.com/api/versions/commit:c0ffee/win32-x64-user/stable" in
  @downloadAndExtractBuild SimFS H SimFileSystem W anInstallerBuild None st
  = (inr (Some path),
     mkState [(path, "corrupted body")]
       [NetJsonGet query; NetJsonGet query;
        LOGGER_log "[build] downloading build from https://cdn.example/stable/c0ffee/VSCodeUserSetup-x64-1.85.0.exe...";
        NetFileGet "https://cdn.example/stable/c0ffee/VSCodeUserSetup-x64-1.85.0.exe" path;
        LOGGER_log "[build] ✔︎ expected SHA256 checksum matches with download"]).
Proof.
  intros H W st path query.
  exact (proj2 (@downloadAndExtractBuild_verified SimFS H SimFileSystem W anInstallerBuild
                  None st (mkState [] [NetJsonGet query]) (mkState [] [NetJsonGet query])
                  (mkState [] [NetJsonGet query; NetJsonGet query])
                  "VSCodeUserSetup-x64-1.85.0.exe" matchingMeta "corrupted body"
                  [(path, "corrupted body")]
                  ltac:(discriminate) eq_refl eq_refl eq_refl eq_refl eq_refl
                  eq_refl eq_refl eq_refl)
           eq_refl).
Defined.

Lemma downloadAndExtractBuild_forced_witness :
  let H := SimHost MacOSX64 X64 in
  let W := SimWorld offline offline fileOnline in
  let st := mkState cachedFolderFS [] in
  @fs_rm SimFS SimFileSystem cachedFolderFS "/builds/c0ffee" = inr []
  /\ @downloadAndExtractBuild SimFS H SimFileSystem W aStableBuild (Some true) st
     = (inl (Thrown "network unreachable"),
        mkState []
          [LOGGER_log "[build] deleting /builds/c0ffee and retrying download";
           FsRm "/builds/c0ffee";
           NetJsonGet "https://update.code.visualstudio.com/api/versions/commit:c0ffee/darwin/stable"]).
Proof.
  intros H W st. split; [reflexivity |].
  exact (eq_trans
           (proj2 (@downloadAndExtractBuild_forced SimFS H SimFileSystem W aStableBuild
                     st st "VSCode-darwin.zip" ltac:(discriminate) eq_refl eq_refl eq_refl)
              [] eq_refl)
           eq_refl).
Defined.

Lemma downloadAndExtractVSCodium_no_asset_witness :
  let H := SimHost MacOSX64 X64 in
  let W := SimWorld offline offline fileOnline in
  let st := mkState vscodiumCachedFS [] in
  @downloadAndExtractBuild SimFS H SimFileSystem W aVSCodiumBuild (Some true) st
  = (inl (Error "No VSCodium asset found for current platform (1) in build 1.85.0.23343"),
     st).
Proof.
  intros H W st.
  refine (@downloadAndExtractVSCodium_no_asset SimFS H SimFileSystem W aVSCodiumBuild
            (Some true) st _ eq_refl eq_refl _).
  intros k [= <-]. left. reflexivity.
Defined.

Lemma downloadAndExtractVSCodium_cached_witness :
  let H := SimHost LinuxX64 X64 in
  let W := SimWorld offline offline offline in
  let st := mkState vscodiumCachedFS [] in
  @downloadAndExtractBuild SimFS H SimFileSystem W aVSCodiumBuild None st
  = (inr (Some "/builds/abcdef"),
     mkState vscodiumCachedFS
       [LOGGER_trace "[build] using VSCodium cached at /builds/abcdef"]).
Proof.
  intros H W st.
  exact (@downloadAndExtractVSCodium_cached SimFS H SimFileSystem W aVSCodiumBuild None st
           _ "linux_x64" "https://example/VSCodium-linux-x64.tar.gz"
           eq_refl eq_refl eq_refl eq_refl ltac:(discriminate) eq_refl eq_refl).
Defined.

Lemma downloadAndExtractVSCodium_linux_witness :
  let H := SimHost LinuxX64 X64 in
  let W := SimWorld offline offline fileOnline in
  let st := mkState ([] : SimFS) [] in
  let url := "https://example/VSCodium-linux-x64.tar.gz" in
  let zipPath := "/builds/abcdef/VSCodium-1.85.0.23343.tar.gz" in
  @downloadAndExtractBuild SimFS H SimFileSystem W aVSCodiumBuild None st
  = (inr (Some "/builds/abcdef"),
     mkState [("/builds/abcdef", ""); (zipPath, "corrupted body")]
       [LOGGER_log "[build] downloading VSCodium from https://example/VSCodium-linux-x64.tar.gz...";
        NetFileGet url zipPath;
        LOGGER_log "[build] extracting VSCodium to /builds/abcdef...";
        FsUnzip zipPath "/builds/abcdef"]).
Proof.
  intros H W st url zipPath.
  exact (@downloadAndExtractVSCodium_linux SimFS H SimFileSystem W aVSCodiumBuild None st
           _ "linux_x64" url "corrupted body" [(zipPath, "corrupted body")]
           [("/builds/abcdef", ""); (zipPath, "corrupted body")]
           eq_refl (or_introl eq_refl) eq_refl eq_refl eq_refl ltac:(discriminate)
           eq_refl eq_refl eq_refl eq_refl).
Defined.

Lemma getBuildExecutable_network_witness :
  let W := SimWorld offline offline offline in
  let st := mkState cachedFS [] in
  (exists path,
     @getBuildExecutable SimFS (SimHost LinuxX64 X64) SimFileSystem W aStableBuild st
     = (inr path, st))
  /\ @getBuildExecutable SimFS (SimHost WindowsX64 X64) SimFileSystem W aWindowsBuild st
     = (inl (Thrown "network unreachable"),
        mkState cachedFS
          [NetJsonGet "https://update.code.visualstudio.com/api/versions/commit:c0ffee/win32-x64-archive/stable"]).
Proof.
  intros W st. split.
  - exact (proj1 (@getBuildExecutable_network SimFS (SimHost LinuxX64 X64) SimFileSystem W
                    aStableBuild st) eq_refl).
  - exact (proj2 (@getBuildExecutable_network SimFS (SimHost WindowsX64 X64) SimFileSystem W
                    aWindowsBuild st) eq_refl _ _ eq_refl).
Defined.

Lemma getBuildExecutable_server_witness :
  let H := SimHost LinuxX64 X64 in
  let W := SimWorld offline offline offline in
  @getBuildExecutable SimFS H SimFileSystem W aServerBuild (mkState legacyServerFS [])
  = (inr "/builds/c0ffee/vscode-server-linux-x64-web/server.sh",
     mkState legacyServerFS [])
  /\ @getBuildExecutable SimFS H SimFileSystem W aServerBuild (mkState [] [])
     = (inr "/builds/c0ffee/vscode-server-linux-x64-web/bin/code-server-insiders",
        mkState [] []).
Proof.
  intros H W. split.
  - exact (@getBuildExecutable_server SimFS H SimFileSystem W aServerBuild
             (mkState legacyServerFS []) eq_refl).
  - exact (@getBuildExecutable_server SimFS H SimFileSystem W aServerBuild
             (mkState [] []) eq_refl).
Defined.

Lemma windows_names_agree_witness :
  let H := SimHost WindowsX64 X64 in
  let W := SimWorld metaMatching offline offline in
  let st := mkState ([] : SimFS) [] in
  let st1 :=
    mkState ([] : SimFS)
      [NetJsonGet "https://update.code.visualstudio.com/api/versions/commit:c0ffee/win32-x64-archive/stable"] in
  let folder := "/builds/c0ffee/VSCode-win32-x64-1.85.0" in
  @getBuildDownloadName SimFS H W (@stripped aWindowsBuild) st
  = (inr "VSCode-win32-x64-1.85.0.zip", st1)
  /\ @getBuildName SimFS H W (stripped aWindowsBuild) st
     = (inr "VSCode-win32-x64-1.85.0", st1)
  /\ @extractBuild SimFS H SimFileSystem aWindowsBuild windowsArchive (mkState windowsFS [])
     = (inr (Some folder),
        mkState ((folder, "") :: windowsFS)
          [LOGGER_log "[build] unzipping /builds/c0ffee/VSCode-win32-x64-1.85.0.zip to /builds/c0ffee/VSCode-win32-x64-1.85.0...";
           FsUnzip windowsArchive folder])
  /\ @getBuildExecutable SimFS H SimFileSystem W (stripped aWindowsBuild) st
     = (inr "/builds/c0ffee/VSCode-win32-x64-1.85.0/Code.exe", st1).
Proof.
  intros H W st st1 folder.
  pose proof (@windows_names_agree SimFS H SimFileSystem W aWindowsBuild st st1 matchingMeta
                eq_refl eq_refl (or_introl eq_refl) eq_refl eq_refl) as [Hd [Hn [Hx He]]].
  exact (conj Hd (conj Hn (conj (Hx (mkState windowsFS []) ((folder, "") :: windowsFS)
                                   eq_refl) He))).
Defined.

(** ** The two name tables of the update service *)

Section ServiceNames.
Context `{!Host}.

(** X23. How the name used for discovery ([getBuildApiName]) relates to the
    name used for the metadata of one build ([getPlatformName]), for the
    desktop runtime. The discovery name does not depend on the flavor, the
    universal flavor on a macOS platform apart: a CLI or an installer build
    is discovered under the name of the default flavor. For the default
    flavor the two names are equal on the macOS and the Linux platforms, and
    on a Windows platform the metadata name is the discovery name followed
    by [-archive]. *)
Theorem discovery_and_metadata_names (k : IBuildKind) :
  isWeb (runtime k) = false ->
  let p := default platform (buildPlatform k) in
  let asDefault :=
    {| runtime := runtime k; quality := quality k; flavor := Default;
       buildPlatform := buildPlatform k; buildArch := buildArch k |} in
  (flavor k <> DarwinUniversal \/ (p <> MacOSX64 /\ p <> MacOSArm) ->
     getBuildApiName k = getBuildApiName asDefault)
  /\ match p with
     | WindowsX64 | WindowsArm =>
         getPlatformName asDefault = getBuildApiName asDefault +:+ "-archive"
     | _ => getPlatformName asDefault = getBuildApiName asDefault
     end.
Proof.
  intros Hweb p asDefault. unfold getBuildApiName, getPlatformName.
  cbn [runtime flavor buildPlatform buildArch asDefault]. rewrite Hweb. fold p.
  split.
  - intros [Hf | [Hx Ha]]; destruct p; try done; by rewrite decide_False.
  - destruct p; try done; by rewrite ?String_append_assoc.
Qed.

End ServiceNames.

Section CorruptDownload.
Context {FS : Type} `{!Host} `{!FileSystem FS} `{!World FS}.

(** X24. A failed integrity check does not remove the artifact. After a
    download whose checksum differs, [downloadAndExtractBuild] has raised the
    integrity error and the artifact is still stored under the cache path;
    a later call for the same build that does not force a re-download and
    computes the same download name then finds that path, takes the build
    as cached and returns the path of the rejected artifact, with one trace
    line and without any download or new check. *)
Theorem rejected_download_is_cached (build : IBuild) (options : option bool)
    (st st1 st2 st3 again : State FS) (buildName : string) (meta : IBuildMetadata)
    (body computed : string) (stored : FS) :
  quality build <> VSCodiumInsider ->
  isDockerCliFlavor (flavor build) = false ->
  getBuildDownloadName (stripped build) st = (inr buildName, st1) ->
  let path := cachePath build buildName in
  let pathExists := fs_exists (fs st1) path in
  let forceReDownload := default false options in
  pathExists && negb forceReDownload = false ->
  forcedDelete build pathExists forceReDownload st1 = (inr tt, st2) ->
  fetchBuildMeta (stripped build) st2 = (inr meta, st3) ->
  let t := trace st3 ++ [LOGGER_log (downloadingMessage (url meta))] in
  net_file t (url meta) = inr body ->
  fs_store (fs st3) path body = inr stored ->
  fs_sha256 stored path = inr computed ->
  computed <> sha256hash meta ->
  let failed := mkState stored (t ++ [NetFileGet (url meta) path]) in
  fs_exists stored path = true ->
  getBuildDownloadName (stripped build) failed = (inr buildName, again) ->
  downloadAndExtractBuild build options st
  = (inl (integrityError (sha256hash meta) computed), failed)
  /\ downloadAndExtractBuild build None failed
     = (inr (Some path),
        mkState stored (trace again ++ [LOGGER_trace (cachedMessage path)]))
  /\ downloads (trace again) = downloads (trace failed).
Proof.
  intros Hq Hd Hname path pathExists forceReDownload Hmiss Hdel Hmeta t Hbody Hstore Hsha
    Hne failed Hex Hagain.
  pose proof (getBuildDownloadName_effects _ _ _ _ Hagain) as [Hfs Hdl].
  split; [| split; [| done]].
  - unfold downloadAndExtractBuild. rewrite decide_False, Hd by done.
    rewrite (bind_run _ _ _ _ _ Hname). unfold bind at 1, exists_.
    fold path pathExists forceReDownload. rewrite Hmiss.
    unfold downloadBuild.
    rewrite (bind_run _ _ _ _ _ Hdel), (bind_run _ _ _ _ _ Hmeta).
    unfold bind, LOGGER_log_, emit, fileGet, computeSHA256. cbn [trace fs]. fold t.
    rewrite Hbody, Hstore. cbn [fs]. rewrite Hsha.
    rewrite decide_True by (intros Heq; by apply Hne). done.
  - unfold downloadAndExtractBuild. rewrite decide_False, Hd by done.
    rewrite (bind_run _ _ _ _ _ Hagain). unfold bind at 1, exists_.
    fold path. rewrite Hfs. cbn [fs failed]. rewrite Hex. cbn [default negb andb].
    unfold bind, LOGGER_trace_, emit, ret. by rewrite Hfs.
Qed.

End CorruptDownload.

Lemma discovery_and_metadata_names_witness :
  let H := SimHost WindowsX64 X64 in
  let k := kindOf DesktopLocal Stable WindowsUserInstaller in
  isWeb (runtime k) = false
  /\ @getBuildApiName H k = @getBuildApiName H (kindOf DesktopLocal Stable Default)
  /\ @getPlatformName H (kindOf DesktopLocal Stable Default) = "win32-x64-archive".
Proof.
  intros H k. split; [reflexivity |].
  pose proof (@discovery_and_metadata_names H k eq_refl) as [Hflavor Hnames].
  split; [| exact Hnames].
  apply Hflavor. left. discriminate.
Defined.

Lemma rejected_download_is_cached_witness :
  let H := SimHost MacOSX64 X64 in
  let W := SimWorld metaOnline offline fileOnline in
  let st := mkState ([] : SimFS) [] in
  let path := "/builds/c0ffee/VSCode-darwin.zip" in
  let stored : SimFS := [(path, "corrupted body")] in
  let failed :=
    mkState stored
      [NetJsonGet "https://update.code.visualstudio.com/api/versions/commit:c0ffee/darwin/stable";
       LOGGER_log "[build] downloading build from https://cdn.example/stable/c0ffee/code-stable-x64-1700000000.tar.gz...";
       NetFileGet "https://cdn.example/stable/c0ffee/code-stable-x64-1700000000.tar.gz" path] in
  @downloadAndExtractBuild SimFS H SimFileSystem W aStableBuild None st
  = (inl (Error "[build] ✘ expected SHA256 checksum (expected-checksum) does not match with download (sha256 of corrupted body)"),
     failed)
  /\ @downloadAndExtractBuild SimFS H SimFileSystem W aStableBuild None failed
     = (inr (Some path),
        mkState stored
          (trace failed
           ++ [LOGGER_trace "[build] using /builds/c0ffee/VSCode-darwin.zip for the next build to try"])).
Proof.
  intros H W st path stored failed.
  pose proof (@rejected_download_is_cached SimFS H SimFileSystem W aStableBuild None
                st st st _ failed "VSCode-darwin.zip" someMeta "corrupted body"
                "sha256 of corrupted body" stored
                ltac:(discriminate) eq_refl eq_refl eq_refl eq_refl eq_refl
                eq_refl eq_refl eq_refl ltac:(discriminate) eq_refl eq_refl)
    as [Hfirst [Hsecond _]].
  exact (conj Hfirst Hsecond).
Defined.
